(** * DdiMon shadow breakpoints (DdiMon/shadow_bp.cpp)

    A shallow embedding of the stealth-breakpoint core of DdiMon: the
    registry of [PatchInformation] objects, the EPT programming of the
    three page views, the #BP / MTF / EPT-violation VM-exit handlers and
    the two registration entry points.

    The C++ code runs on one logical processor with the guest suspended.
    It is embedded as functions of an explicit machine state in a small
    monad whose results separate a normal return from a bug check, an
    assertion failure and undefined behaviour.  The spin lock
    [g_sbpp_breakpoints_skinlock] is taken and released inside every
    registry function and is left as it was found; it is not part of the
    sequential state. *)

From Stdlib Require Import ZArith List Bool Lia.
From stdpp Require Import base gmap list.

Local Open Scope Z_scope.

(** ** Constants of the platform headers *)

Definition PAGE_SIZE : Z := 4096.
Definition PAGE_SHIFT : Z := 12.
Definition DISPATCH_LEVEL : Z := 2.

(** The largest [size_t] of the 64-bit build. *)
Definition SIZE_MAX : Z := 2 ^ 64 - 1.

(** [PAGE_ALIGN(va)] is [va & ~(PAGE_SIZE - 1)], [BYTE_OFFSET(va)] is
    [va & (PAGE_SIZE - 1)]. *)
Definition PAGE_ALIGN (va : Z) : Z := Z.ldiff va (PAGE_SIZE - 1).
Definition BYTE_OFFSET (va : Z) : Z := Z.land va (PAGE_SIZE - 1).

(** Bit positions of the two bit fields the code assigns:
    [VmxProcessorBasedControls::fields.monitor_trap_flag] and
    [FlagRegister::fields.intf]. *)
Definition monitor_trap_flag_bit : Z := 27.
Definition intf_bit : Z := 9.

(** The number of the 4 KiB page of a physical address. *)
Definition ept_index (physical_address : Z) : Z :=
  Z.shiftr physical_address PAGE_SHIFT.

Definition set_bit (n : Z) (b : bool) (z : Z) : Z :=
  if b then Z.setbit z n else Z.clearbit z n.

(** ** Data model *)

Inductive BreakpointType := kPre | kPost.

Definition BreakpointType_eqb (a b : BreakpointType) : bool :=
  match a, b with
  | kPre, kPre | kPost, kPost => true
  | _, _ => false
  end.

(** [struct PatchInformation].  Function pointers, [HANDLE]s and addresses
    are integers, 0 being [nullptr].  A [std::shared_ptr<Page>] is
    represented by the address of the 4 KiB buffer its [Page] owns; the
    use counts live in the machine state.  [CapturedParameters] is an
    opaque block of words, [name] the contents of the [std::array<char>]. *)
Record PatchInformation := {
  patch_address : Z;
  type : BreakpointType;
  handler : Z;
  post_handler : Z;
  target_tid : Z;
  parameters : list Z;
  name : list Z;
  shadow_page_base_for_rw : Z;
  shadow_page_base_for_exec : Z;
  pa_base_for_rw : Z;
  pa_base_for_exec : Z
}.

(** Modelled from the spec: the leaf entry of the SLAT library, "a handle
    whose permission bits (exec/read/write) and backing physical frame are
    mutable".  The field names are those the source assigns. *)
Record EptCommonEntry := {
  read_access : bool;
  write_access : bool;
  execute_access : bool;
  physial_address : Z
}.

Inductive VmcsField :=
| kGuestCr3 | kGuestRsp | kGuestRflags | kCpuBasedVmExecControl.

Record Vmcs := {
  guest_cr3 : Z;
  guest_rsp : Z;
  guest_rflags : Z;
  cpu_based_vm_exec_control : Z
}.

Inductive HyperPlatformBugCheck :=
| kUnspecified | kCritialPoolAllocationFailure.

Inductive HypercallNumber :=
| kDdimonEnablePageShadowing | kDdimonDisablePageShadowing.

(** What the engine does to the outside world, in program order. *)
Inductive Event :=
| EvWriteCr3 (value : Z)
| EvHandler (fn : Z) (info : Z) (guest_sp : Z)
| EvInveptAll
| EvInvalidateAllCaches
| EvVmWrite (field : VmcsField) (value : Z).

(** The machine state.  [g_sbpp_breakpoints] is [None] for [nullptr];
    the vector of [unique_ptr]s owns its objects, so each element is the
    address of the object together with the object.  A raw
    [PatchInformation*] is such an address; it dangles as soon as the
    owning element is erased. *)
Record State := {
  g_sbpp_breakpoints : option (list (Z * PatchInformation));
  g_sbpp_last_breakpoint : option Z;
  g_sbpp_previouse_guest_interrupt_flag : bool;
  next_object : Z;
  page_use_count : gmap Z nat;
  pool : list Z;
  memory : Z -> Z;
  ept : gmap Z EptCommonEntry;
  vmcs : Vmcs;
  cr3 : Z;
  irql : Z;
  current_thread_id : Z;
  gp_regs : list Z;
  trace : list Event
}.

Definition set_breakpoints v (s : State) : State :=
  {| g_sbpp_breakpoints := v;
     g_sbpp_last_breakpoint := g_sbpp_last_breakpoint s;
     g_sbpp_previouse_guest_interrupt_flag := g_sbpp_previouse_guest_interrupt_flag s;
     next_object := next_object s; page_use_count := page_use_count s;
     pool := pool s; memory := memory s; ept := ept s; vmcs := vmcs s;
     cr3 := cr3 s; irql := irql s; current_thread_id := current_thread_id s;
     gp_regs := gp_regs s; trace := trace s |}.

Definition set_last_breakpoint v (s : State) : State :=
  {| g_sbpp_breakpoints := g_sbpp_breakpoints s;
     g_sbpp_last_breakpoint := v;
     g_sbpp_previouse_guest_interrupt_flag := g_sbpp_previouse_guest_interrupt_flag s;
     next_object := next_object s; page_use_count := page_use_count s;
     pool := pool s; memory := memory s; ept := ept s; vmcs := vmcs s;
     cr3 := cr3 s; irql := irql s; current_thread_id := current_thread_id s;
     gp_regs := gp_regs s; trace := trace s |}.

Definition set_previouse_guest_interrupt_flag v (s : State) : State :=
  {| g_sbpp_breakpoints := g_sbpp_breakpoints s;
     g_sbpp_last_breakpoint := g_sbpp_last_breakpoint s;
     g_sbpp_previouse_guest_interrupt_flag := v;
     next_object := next_object s; page_use_count := page_use_count s;
     pool := pool s; memory := memory s; ept := ept s; vmcs := vmcs s;
     cr3 := cr3 s; irql := irql s; current_thread_id := current_thread_id s;
     gp_regs := gp_regs s; trace := trace s |}.

Definition set_next_object v (s : State) : State :=
  {| g_sbpp_breakpoints := g_sbpp_breakpoints s;
     g_sbpp_last_breakpoint := g_sbpp_last_breakpoint s;
     g_sbpp_previouse_guest_interrupt_flag := g_sbpp_previouse_guest_interrupt_flag s;
     next_object := v; page_use_count := page_use_count s;
     pool := pool s; memory := memory s; ept := ept s; vmcs := vmcs s;
     cr3 := cr3 s; irql := irql s; current_thread_id := current_thread_id s;
     gp_regs := gp_regs s; trace := trace s |}.

Definition set_page_use_count v (s : State) : State :=
  {| g_sbpp_breakpoints := g_sbpp_breakpoints s;
     g_sbpp_last_breakpoint := g_sbpp_last_breakpoint s;
     g_sbpp_previouse_guest_interrupt_flag := g_sbpp_previouse_guest_interrupt_flag s;
     next_object := next_object s; page_use_count := v;
     pool := pool s; memory := memory s; ept := ept s; vmcs := vmcs s;
     cr3 := cr3 s; irql := irql s; current_thread_id := current_thread_id s;
     gp_regs := gp_regs s; trace := trace s |}.

Definition set_pool v (s : State) : State :=
  {| g_sbpp_breakpoints := g_sbpp_breakpoints s;
     g_sbpp_last_breakpoint := g_sbpp_last_breakpoint s;
     g_sbpp_previouse_guest_interrupt_flag := g_sbpp_previouse_guest_interrupt_flag s;
     next_object := next_object s; page_use_count := page_use_count s;
     pool := v; memory := memory s; ept := ept s; vmcs := vmcs s;
     cr3 := cr3 s; irql := irql s; current_thread_id := current_thread_id s;
     gp_regs := gp_regs s; trace := trace s |}.

Definition set_memory v (s : State) : State :=
  {| g_sbpp_breakpoints := g_sbpp_breakpoints s;
     g_sbpp_last_breakpoint := g_sbpp_last_breakpoint s;
     g_sbpp_previouse_guest_interrupt_flag := g_sbpp_previouse_guest_interrupt_flag s;
     next_object := next_object s; page_use_count := page_use_count s;
     pool := pool s; memory := v; ept := ept s; vmcs := vmcs s;
     cr3 := cr3 s; irql := irql s; current_thread_id := current_thread_id s;
     gp_regs := gp_regs s; trace := trace s |}.

Definition set_ept v (s : State) : State :=
  {| g_sbpp_breakpoints := g_sbpp_breakpoints s;
     g_sbpp_last_breakpoint := g_sbpp_last_breakpoint s;
     g_sbpp_previouse_guest_interrupt_flag := g_sbpp_previouse_guest_interrupt_flag s;
     next_object := next_object s; page_use_count := page_use_count s;
     pool := pool s; memory := memory s; ept := v; vmcs := vmcs s;
     cr3 := cr3 s; irql := irql s; current_thread_id := current_thread_id s;
     gp_regs := gp_regs s; trace := trace s |}.

Definition set_vmcs v (s : State) : State :=
  {| g_sbpp_breakpoints := g_sbpp_breakpoints s;
     g_sbpp_last_breakpoint := g_sbpp_last_breakpoint s;
     g_sbpp_previouse_guest_interrupt_flag := g_sbpp_previouse_guest_interrupt_flag s;
     next_object := next_object s; page_use_count := page_use_count s;
     pool := pool s; memory := memory s; ept := ept s; vmcs := v;
     cr3 := cr3 s; irql := irql s; current_thread_id := current_thread_id s;
     gp_regs := gp_regs s; trace := trace s |}.

Definition set_cr3 v (s : State) : State :=
  {| g_sbpp_breakpoints := g_sbpp_breakpoints s;
     g_sbpp_last_breakpoint := g_sbpp_last_breakpoint s;
     g_sbpp_previouse_guest_interrupt_flag := g_sbpp_previouse_guest_interrupt_flag s;
     next_object := next_object s; page_use_count := page_use_count s;
     pool := pool s; memory := memory s; ept := ept s; vmcs := vmcs s;
     cr3 := v; irql := irql s; current_thread_id := current_thread_id s;
     gp_regs := gp_regs s; trace := trace s |}.

Definition set_irql v (s : State) : State :=
  {| g_sbpp_breakpoints := g_sbpp_breakpoints s;
     g_sbpp_last_breakpoint := g_sbpp_last_breakpoint s;
     g_sbpp_previouse_guest_interrupt_flag := g_sbpp_previouse_guest_interrupt_flag s;
     next_object := next_object s; page_use_count := page_use_count s;
     pool := pool s; memory := memory s; ept := ept s; vmcs := vmcs s;
     cr3 := cr3 s; irql := v; current_thread_id := current_thread_id s;
     gp_regs := gp_regs s; trace := trace s |}.

Definition set_current_thread_id v (s : State) : State :=
  {| g_sbpp_breakpoints := g_sbpp_breakpoints s;
     g_sbpp_last_breakpoint := g_sbpp_last_breakpoint s;
     g_sbpp_previouse_guest_interrupt_flag := g_sbpp_previouse_guest_interrupt_flag s;
     next_object := next_object s; page_use_count := page_use_count s;
     pool := pool s; memory := memory s; ept := ept s; vmcs := vmcs s;
     cr3 := cr3 s; irql := irql s; current_thread_id := v;
     gp_regs := gp_regs s; trace := trace s |}.

Definition log (e : Event) (s : State) : State :=
  {| g_sbpp_breakpoints := g_sbpp_breakpoints s;
     g_sbpp_last_breakpoint := g_sbpp_last_breakpoint s;
     g_sbpp_previouse_guest_interrupt_flag := g_sbpp_previouse_guest_interrupt_flag s;
     next_object := next_object s; page_use_count := page_use_count s;
     pool := pool s; memory := memory s; ept := ept s; vmcs := vmcs s;
     cr3 := cr3 s; irql := irql s; current_thread_id := current_thread_id s;
     gp_regs := gp_regs s; trace := trace s ++ [e] |}.

(** ** The monad of VMM code *)

Inductive Fault := NullDereference | UseAfterFree | OutOfBounds.

(** [Returns]: the function returned.  [BugCheck]: it reached
    [HYPERPLATFORM_COMMON_BUG_CHECK].  [AssertionFailure]: an [NT_ASSERT]
    or [NT_VERIFY] failed in a checked build.  [Undefined]: it
    dereferenced a null or a dangling pointer, or copied past the end of
    an array. *)
Inductive Outcome (A : Type) :=
| Returns (a : A) (s : State)
| BugCheck (code : HyperPlatformBugCheck) (s : State)
| AssertionFailure (s : State)
| Undefined (f : Fault) (s : State).

Arguments Returns {A} a s.
Arguments BugCheck {A} code s.
Arguments AssertionFailure {A} s.
Arguments Undefined {A} f s.

Definition Vmm (A : Type) : Type := State -> Outcome A.

Definition ret {A} (a : A) : Vmm A := fun s => Returns a s.

Definition bind {A B} (m : Vmm A) (k : A -> Vmm B) : Vmm B := fun s =>
  match m s with
  | Returns a s' => k a s'
  | BugCheck c s' => BugCheck c s'
  | AssertionFailure s' => AssertionFailure s'
  | Undefined f s' => Undefined f s'
  end.

Notation "'let*' x ':=' m 'in' k" := (bind m (fun x => k))
  (at level 10, x name, m at level 100, k at level 200).
Notation "m ';;' k" := (bind m (fun _ => k))
  (at level 100, k at level 200, right associativity).

Definition get {A} (f : State -> A) : Vmm A := fun s => Returns (f s) s.
Definition modify (f : State -> State) : Vmm unit := fun s => Returns tt (f s).
Definition emit (e : Event) : Vmm unit := modify (log e).
Definition HYPERPLATFORM_COMMON_BUG_CHECK {A} (c : HyperPlatformBugCheck) : Vmm A :=
  fun s => BugCheck c s.
Definition undefined {A} (f : Fault) : Vmm A := fun s => Undefined f s.

(** ** The engine *)

(** [struct BreakpointTarget] of shadow_bp.h: the two handlers of a
    monitored function. *)
Module BreakpointTarget.
Record t := { pre_handler : Z; post_handler : Z }.
End BreakpointTarget.

(** What the engine takes from HyperPlatform and the build: whether
    [NT_ASSERT] is compiled in ([DBG]), the address translation
    [UtilPaFromVa], the frame number [UtilPfnFromPa] of a physical
    address, and the size of [PatchInformation::name]. *)
Record Platform := {
  checked_build : bool;
  UtilPaFromVa : Z -> Z;
  UtilPfnFromPa : Z -> Z;
  name_size : nat
}.

Section Engine.

Variable pf : Platform.

(** The code behind the handler function pointers: [handlers fn info sp]
    is the call of [fn] on the object at [info], [ept_data], [gp_regs]
    and [sp]. *)
Variable handlers : Z -> Z -> Z -> Vmm unit.

(** [NT_ASSERT(e)] stops a checked build when [e] is false and is
    compiled out of a free build.  [NT_VERIFY(e)] differs only in that
    [e] is evaluated in both. *)
Definition NT_ASSERT (e : bool) : Vmm unit := fun s =>
  if checked_build pf && negb e then AssertionFailure s else Returns tt s.
Definition NT_VERIFY (e : bool) : Vmm unit := NT_ASSERT e.

Definition KeGetCurrentIrql : Vmm Z := get irql.
Definition PsGetCurrentThreadId : Vmm Z := get current_thread_id.
Definition __readcr3 : Vmm Z := get cr3.
Definition __writecr3 (v : Z) : Vmm unit :=
  modify (set_cr3 v) ;; emit (EvWriteCr3 v).

Definition UtilVmRead (f : VmcsField) : Vmm Z :=
  get (fun s =>
    match f with
    | kGuestCr3 => guest_cr3 (vmcs s)
    | kGuestRsp => guest_rsp (vmcs s)
    | kGuestRflags => guest_rflags (vmcs s)
    | kCpuBasedVmExecControl => cpu_based_vm_exec_control (vmcs s)
    end).

Definition vmcs_write (f : VmcsField) (v : Z) (m : Vmcs) : Vmcs :=
  match f with
  | kGuestCr3 =>
      {| guest_cr3 := v; guest_rsp := guest_rsp m;
         guest_rflags := guest_rflags m;
         cpu_based_vm_exec_control := cpu_based_vm_exec_control m |}
  | kGuestRsp =>
      {| guest_cr3 := guest_cr3 m; guest_rsp := v;
         guest_rflags := guest_rflags m;
         cpu_based_vm_exec_control := cpu_based_vm_exec_control m |}
  | kGuestRflags =>
      {| guest_cr3 := guest_cr3 m; guest_rsp := guest_rsp m;
         guest_rflags := v;
         cpu_based_vm_exec_control := cpu_based_vm_exec_control m |}
  | kCpuBasedVmExecControl =>
      {| guest_cr3 := guest_cr3 m; guest_rsp := guest_rsp m;
         guest_rflags := guest_rflags m;
         cpu_based_vm_exec_control := v |}
  end.

Definition UtilVmWrite (f : VmcsField) (v : Z) : Vmm unit :=
  modify (fun s => set_vmcs (vmcs_write f v (vmcs s)) s) ;; emit (EvVmWrite f v).

Definition UtilInveptAll : Vmm unit := emit EvInveptAll.
Definition KeInvalidateAllCaches : Vmm unit := emit EvInvalidateAllCaches.

(** *** Memory and shadow pages *)

Definition write_byte (a v : Z) (m : Z -> Z) : Z -> Z :=
  fun x => if x =? a then v else m x.

Definition copy_bytes (dst src len : Z) (m : Z -> Z) : Z -> Z :=
  fun x => if (dst <=? x) && (x <? dst + len) then m (src + (x - dst)) else m x.

Definition RtlCopyMemory (dst src len : Z) : Vmm unit :=
  modify (fun s => set_memory (copy_bytes dst src len (memory s)) s).

(** [UtilForceCopyMemory(dst, src, 1)] with a one-byte source; the source
    does not look at the status it returns. *)
Definition UtilForceCopyMemory (dst : Z) (b : Z) : Vmm unit :=
  modify (fun s => set_memory (write_byte dst b (memory s)) s).

(** [Page::Page()]: [ExAllocatePoolWithTag] hands out the next free
    buffer of the pool, or [nullptr] when there is none. *)
Definition Page_ctor : Vmm Z := fun s =>
  match pool s with
  | [] => HYPERPLATFORM_COMMON_BUG_CHECK kCritialPoolAllocationFailure s
  | page :: rest => Returns page (set_pool rest s)
  end.

(** [Page::~Page()]: [ExFreePoolWithTag]. *)
Definition Page_dtor (page : Z) : Vmm unit :=
  modify (fun s => set_pool (page :: pool s) s).

Definition make_shared_Page : Vmm Z :=
  let* page := Page_ctor in
  modify (fun s => set_page_use_count (<[page := 1%nat]> (page_use_count s)) s) ;;
  ret page.

Definition shared_ptr_copy (page : Z) : Vmm unit :=
  modify (fun s =>
    set_page_use_count
      (<[page := S (default 0%nat (page_use_count s !! page))]> (page_use_count s)) s).

Definition shared_ptr_release (page : Z) : Vmm unit :=
  let* uses := get (fun s => page_use_count s !! page) in
  match uses with
  | Some (S (S n)) =>
      modify (fun s => set_page_use_count (<[page := S n]> (page_use_count s)) s)
  | _ =>
      modify (fun s => set_page_use_count (delete page (page_use_count s)) s) ;;
      Page_dtor page
  end.

(** [~PatchInformation()] releases the two shared pages. *)
Definition PatchInformation_dtor (info : PatchInformation) : Vmm unit :=
  shared_ptr_release (shadow_page_base_for_exec info) ;;
  shared_ptr_release (shadow_page_base_for_rw info).

(** *** The registry *)

Definition SbppIsSbpActive : Vmm bool :=
  get (fun s => bool_decide (is_Some (g_sbpp_breakpoints s))).

(** [auto ptrs = g_sbpp_breakpoints; NT_ASSERT(ptrs);] followed by a use
    of the vector. *)
Definition breakpoints_vector : Vmm (list (Z * PatchInformation)) :=
  let* ptrs := get g_sbpp_breakpoints in
  NT_ASSERT (bool_decide (is_Some ptrs)) ;;
  match ptrs with
  | Some v => ret v
  | None => undefined NullDereference
  end.

(** Reading through a raw [PatchInformation*]: the object exists as long
    as the vector owns it. *)
Definition deref (p : Z) : Vmm PatchInformation := fun s =>
  match g_sbpp_breakpoints s with
  | Some v =>
      match find (fun e => e.1 =? p) v with
      | Some e => Returns e.2 s
      | None => Undefined UseAfterFree s
      end
  | None => Undefined UseAfterFree s
  end.

Definition SbppFindPatchInfoByPage (address : Z) : Vmm (option Z) :=
  let* ptrs := breakpoints_vector in
  ret (fst <$> find (fun info =>
         PAGE_ALIGN (patch_address info.2) =? PAGE_ALIGN address) ptrs).

Definition SbppFindPatchInfoByAddress (address : Z) : Vmm (option Z) :=
  let* ptrs := breakpoints_vector in
  ret (fst <$> find (fun info => patch_address info.2 =? address) ptrs).

Definition SbppFindDuplicatedPostPatchInfo (address target_tid' : Z)
  : Vmm (option Z) :=
  let* ptrs := breakpoints_vector in
  ret (fst <$> find (fun info =>
         BreakpointType_eqb (type info.2) kPost &&
         (PAGE_ALIGN (patch_address info.2) =? PAGE_ALIGN address) &&
         (target_tid info.2 =? target_tid')) ptrs).

Definition SbppAddBreakpointToList (info : Z * PatchInformation) : Vmm unit :=
  let* ptrs := breakpoints_vector in
  modify (set_breakpoints (Some (ptrs ++ [info]))).

(** [std::find_if] followed by [erase]: the position of the first element
    satisfying the predicate is split off. *)
Fixpoint erase_first {A} (f : A -> bool) (l : list A) : option (A * list A) :=
  match l with
  | [] => None
  | x :: r =>
      if f x then Some (x, r)
      else match erase_first f r with
           | Some (y, r') => Some (y, x :: r')
           | None => None
           end
  end.

(** Erasing the [unique_ptr] destroys the [PatchInformation] it owns. *)
Definition SbppDeleteBreakpointFromList (info : PatchInformation) : Vmm unit :=
  let* ptrs := breakpoints_vector in
  match erase_first (fun info2 =>
          (patch_address info =? patch_address info2.2) &&
          (target_tid info =? target_tid info2.2)) ptrs with
  | Some (erased, rest) =>
      modify (set_breakpoints (Some rest)) ;;
      PatchInformation_dtor erased.2
  | None => ret tt
  end.

(** *** Creating breakpoint objects *)

(** The object [std::make_unique<PatchInformation>()] yields: a fresh
    address and value-initialised fields. *)
Definition make_unique_PatchInformation : Vmm Z :=
  let* p := get next_object in
  modify (set_next_object (p + 1)) ;;
  ret p.

Definition SbppEmbedBreakpoint (address : Z) : Vmm unit :=
  UtilForceCopyMemory address 204 ;;
  KeInvalidateAllCaches.

(** The result is the address of the new object and the object; the
    fields the function does not assign are value-initialised, and both
    callers assign them afterwards. *)
Definition SbppCreateBreakpoint (address : Z) : Vmm (Z * PatchInformation) :=
  let* info := make_unique_PatchInformation in
  let* reusable_info := SbppFindPatchInfoByPage address in
  let* pages :=
    match reusable_info with
    | Some r =>
        let* reusable := deref r in
        shared_ptr_copy (shadow_page_base_for_rw reusable) ;;
        shared_ptr_copy (shadow_page_base_for_exec reusable) ;;
        ret (shadow_page_base_for_rw reusable,
             shadow_page_base_for_exec reusable)
    | None =>
        let* rw := make_shared_Page in
        let* exec := make_shared_Page in
        let page_base := PAGE_ALIGN address in
        RtlCopyMemory rw page_base PAGE_SIZE ;;
        RtlCopyMemory exec page_base PAGE_SIZE ;;
        ret (rw, exec)
    end in
  SbppEmbedBreakpoint (pages.2 + BYTE_OFFSET address) ;;
  ret (info,
       {| patch_address := address;
          type := kPre;
          handler := 0;
          post_handler := 0;
          target_tid := 0;
          parameters := [];
          name := replicate (name_size pf) 0;
          shadow_page_base_for_rw := pages.1;
          shadow_page_base_for_exec := pages.2;
          pa_base_for_rw := UtilPaFromVa pf pages.1;
          pa_base_for_exec := UtilPaFromVa pf pages.2 |}).

(** [memcpy(dst.data(), src, dst.size() - 1)] from the bytes at [src].
    The count is computed in [size_t]: for an empty array [0 - 1] wraps
    to [SIZE_MAX], and the copy runs past the end of the array. *)
Definition memcpy_name (src : Z) (dst : list Z) : Vmm (list Z) :=
  let count := (Z.of_nat (length dst) - 1) mod (SIZE_MAX + 1) in
  if Z.of_nat (length dst) <? count then undefined OutOfBounds else
  get (fun s =>
    let n := Z.to_nat count in
    map (fun i => memory s (src + Z.of_nat i)) (seq 0 n) ++ drop n dst).

Definition SbppCreatePreBreakpoint (address : Z) (target : BreakpointTarget.t)
    (name' : Z) : Vmm (Z * PatchInformation) :=
  let* info_for_pre := SbppCreateBreakpoint address in
  let* copied := memcpy_name name' (name info_for_pre.2) in
  ret (info_for_pre.1,
       {| patch_address := patch_address info_for_pre.2;
          type := kPre;
          handler := BreakpointTarget.pre_handler target;
          post_handler := BreakpointTarget.post_handler target;
          target_tid := 0;
          parameters := [];
          name := copied;
          shadow_page_base_for_rw := shadow_page_base_for_rw info_for_pre.2;
          shadow_page_base_for_exec := shadow_page_base_for_exec info_for_pre.2;
          pa_base_for_rw := pa_base_for_rw info_for_pre.2;
          pa_base_for_exec := pa_base_for_exec info_for_pre.2 |}).

(** [info] is the address of the Pre object the reference is bound to. *)
Definition SbppCreatePostBreakpoint (address : Z) (info : Z)
    (target_tid' : Z) (parameters' : list Z) : Vmm (Z * PatchInformation) :=
  let* info_for_post := SbppCreateBreakpoint address in
  let* pre := deref info in
  ret (info_for_post.1,
       {| patch_address := patch_address info_for_post.2;
          type := kPost;
          handler := post_handler pre;
          post_handler := 0;
          target_tid := target_tid';
          parameters := parameters';
          name := name pre;
          shadow_page_base_for_rw := shadow_page_base_for_rw info_for_post.2;
          shadow_page_base_for_exec := shadow_page_base_for_exec info_for_post.2;
          pa_base_for_rw := pa_base_for_rw info_for_post.2;
          pa_base_for_exec := pa_base_for_exec info_for_post.2 |}).

(** *** Programming the EPT *)

(** Modelled from the spec: [EptGetEptPtEntry], the SLAT library's
    "leaf_entry(ept, guest_physical_addr)".  A leaf maps one 4 KiB page,
    so it is keyed by the page number of the address; the result is
    [nullptr] when the table has no such leaf. *)
Definition EptGetEptPtEntry (physical_address : Z) : Vmm (option Z) :=
  get (fun s =>
    let key := ept_index physical_address in
    if bool_decide (is_Some (ept s !! key)) then Some key else None).

(** An assignment [ept_pt_entry->fields.f = v]. *)
Definition assign_entry (ept_pt_entry : option Z)
    (f : EptCommonEntry -> EptCommonEntry) : Vmm unit := fun s =>
  match ept_pt_entry with
  | None => Undefined NullDereference s
  | Some key =>
      match ept s !! key with
      | Some e => Returns tt (set_ept (<[key := f e]> (ept s)) s)
      | None => Undefined NullDereference s
      end
  end.

Definition with_read_access v (e : EptCommonEntry) : EptCommonEntry :=
  {| read_access := v; write_access := write_access e;
     execute_access := execute_access e; physial_address := physial_address e |}.
Definition with_write_access v (e : EptCommonEntry) : EptCommonEntry :=
  {| read_access := read_access e; write_access := v;
     execute_access := execute_access e; physial_address := physial_address e |}.
Definition with_execute_access v (e : EptCommonEntry) : EptCommonEntry :=
  {| read_access := read_access e; write_access := write_access e;
     execute_access := v; physial_address := physial_address e |}.
Definition with_physial_address v (e : EptCommonEntry) : EptCommonEntry :=
  {| read_access := read_access e; write_access := write_access e;
     execute_access := execute_access e; physial_address := v |}.

Definition SbppEnablePageShadowingForExec (info : PatchInformation) : Vmm unit :=
  let* ept_pt_entry := EptGetEptPtEntry (UtilPaFromVa pf (patch_address info)) in
  assign_entry ept_pt_entry (with_write_access false) ;;
  assign_entry ept_pt_entry (with_read_access false) ;;
  assign_entry ept_pt_entry
    (with_physial_address (UtilPfnFromPa pf (pa_base_for_exec info))) ;;
  UtilInveptAll.

Definition SbppEnablePageShadowingForRW (info : PatchInformation) : Vmm unit :=
  let* ept_pt_entry := EptGetEptPtEntry (UtilPaFromVa pf (patch_address info)) in
  assign_entry ept_pt_entry (with_write_access true) ;;
  assign_entry ept_pt_entry (with_read_access true) ;;
  assign_entry ept_pt_entry
    (with_physial_address (UtilPfnFromPa pf (pa_base_for_rw info))) ;;
  UtilInveptAll.

Definition SbppDisablePageShadowing (info : PatchInformation) : Vmm unit :=
  let pa_base := UtilPaFromVa pf (PAGE_ALIGN (patch_address info)) in
  let* ept_pt_entry := EptGetEptPtEntry pa_base in
  assign_entry ept_pt_entry (with_execute_access true) ;;
  assign_entry ept_pt_entry (with_write_access true) ;;
  assign_entry ept_pt_entry (with_read_access true) ;;
  assign_entry ept_pt_entry (with_physial_address (UtilPfnFromPa pf pa_base)) ;;
  UtilInveptAll.

Definition SbppIsShadowBreakpoint (info : PatchInformation) : Vmm bool :=
  get (fun s =>
    let address := shadow_page_base_for_rw info + BYTE_OFFSET (patch_address info) in
    negb (memory s address =? 204)).

(** *** The monitor trap flag and the last event *)

Definition SbppSetMonitorTrapFlag (enable : bool) : Vmm unit :=
  let* control := UtilVmRead kCpuBasedVmExecControl in
  let vm_procctl := set_bit monitor_trap_flag_bit enable (control mod 2 ^ 32) in
  UtilVmWrite kCpuBasedVmExecControl vm_procctl ;;
  let* flags := UtilVmRead kGuestRflags in
  let* flags' :=
    if enable then
      modify (set_previouse_guest_interrupt_flag (Z.testbit flags intf_bit)) ;;
      ret (set_bit intf_bit false flags)
    else
      let* previous := get g_sbpp_previouse_guest_interrupt_flag in
      ret (set_bit intf_bit previous flags) in
  UtilVmWrite kGuestRflags flags'.

(** [info] is the address the reference is bound to. *)
Definition SbppSaveLastPatchInfo (info : Z) : Vmm unit :=
  let* last := get g_sbpp_last_breakpoint in
  NT_ASSERT (negb (bool_decide (is_Some last))) ;;
  modify (set_last_breakpoint (Some info)).

Definition SbppRestoreLastPatchInfo : Vmm (option Z) :=
  let* info := get g_sbpp_last_breakpoint in
  NT_ASSERT (bool_decide (is_Some info)) ;;
  modify (set_last_breakpoint None) ;;
  ret info.

(** *** VM-exit handlers *)

(** The call [info->handler(info, ept_data, gp_regs, guest rsp)] through
    the pointer [info]. *)
Definition call_handler (info : Z) : Vmm unit :=
  let* i := deref info in
  let* sp := UtilVmRead kGuestRsp in
  emit (EvHandler (handler i) info sp) ;;
  handlers (handler i) info sp.

(** Every [deref info] below is a read through the raw pointer [info], at
    the place where the source reads a field of the object or binds a
    reference to it for a callee that reads one. *)
Definition SbpHandleBreakpoint (guest_ip : Z) : Vmm bool :=
  let* active := SbppIsSbpActive in
  if negb active then ret false else
  let* found := SbppFindPatchInfoByAddress guest_ip in
  match found with
  | None => ret false
  | Some info =>
      let* i := deref info in
      let* shadow := SbppIsShadowBreakpoint i in
      if negb shadow then ret false else
      let* level := KeGetCurrentIrql in
      (if DISPATCH_LEVEL <? level
       then HYPERPLATFORM_COMMON_BUG_CHECK kUnspecified else ret tt) ;;
      let* guest_cr3' := UtilVmRead kGuestCr3 in
      let* vmm_cr3 := __readcr3 in
      let* i := deref info in
      match type i with
      | kPre =>
          __writecr3 guest_cr3' ;;
          call_handler info ;;
          __writecr3 vmm_cr3 ;;
          (let* i := deref info in SbppEnablePageShadowingForRW i) ;;
          SbppSetMonitorTrapFlag true ;;
          SbppSaveLastPatchInfo info ;;
          ret true
      | kPost =>
          let* tid := PsGetCurrentThreadId in
          if target_tid i =? tid then
            __writecr3 guest_cr3' ;;
            call_handler info ;;
            __writecr3 vmm_cr3 ;;
            (let* i := deref info in SbppDeleteBreakpointFromList i) ;;
            let* other := SbppFindPatchInfoByPage guest_ip in
            match other with
            | None => let* i := deref info in SbppDisablePageShadowing i
            | Some _ => ret tt
            end ;;
            ret true
          else
            (let* i := deref info in SbppEnablePageShadowingForRW i) ;;
            SbppSetMonitorTrapFlag true ;;
            SbppSaveLastPatchInfo info ;;
            ret true
      end
  end.

Definition SbpHandleMonitorTrapFlag : Vmm unit :=
  let* active := SbppIsSbpActive in
  NT_VERIFY active ;;
  let* info := SbppRestoreLastPatchInfo in
  match info with
  | None => undefined NullDereference
  | Some p => let* i := deref p in SbppEnablePageShadowingForExec i
  end ;;
  SbppSetMonitorTrapFlag false.

Definition SbpHandleEptViolation (fault_va : Z) : Vmm unit :=
  let* active := SbppIsSbpActive in
  if negb active then ret tt else
  let* found := SbppFindPatchInfoByPage fault_va in
  match found with
  | None => ret tt
  | Some info =>
      (let* i := deref info in SbppEnablePageShadowingForRW i) ;;
      SbppSetMonitorTrapFlag true ;;
      SbppSaveLastPatchInfo info
  end.

(** *** Registration *)

Definition SbpCreatePreBreakpoint (address : Z) (target : BreakpointTarget.t)
    (name' : Z) : Vmm unit :=
  let* info := SbppCreatePreBreakpoint address target name' in
  SbppAddBreakpointToList info.

(** [duplicated_info->parameters = parameters]: the object at [p] is
    updated in place. *)
Definition with_parameters (parameters' : list Z) (i : PatchInformation)
  : PatchInformation :=
  {| patch_address := patch_address i;
     type := type i;
     handler := handler i;
     post_handler := post_handler i;
     target_tid := target_tid i;
     parameters := parameters';
     name := name i;
     shadow_page_base_for_rw := shadow_page_base_for_rw i;
     shadow_page_base_for_exec := shadow_page_base_for_exec i;
     pa_base_for_rw := pa_base_for_rw i;
     pa_base_for_exec := pa_base_for_exec i |}.

Definition assign_parameters (p : Z) (parameters' : list Z) : Vmm unit :=
  let* _old := deref p in
  modify (fun s =>
    set_breakpoints
      ((fun v : list (Z * PatchInformation) =>
          (fun e => if e.1 =? p then (e.1, with_parameters parameters' e.2) else e)
            <$> v) <$> g_sbpp_breakpoints s) s).

Definition SbpCreateAndEnablePostBreakpoint (address : Z) (info : Z)
    (parameters' : list Z) : Vmm unit :=
  let* tid := PsGetCurrentThreadId in
  let* duplicated_info := SbppFindDuplicatedPostPatchInfo address tid in
  match duplicated_info with
  | Some d => assign_parameters d parameters'
  | None =>
      let* tid := PsGetCurrentThreadId in
      let* info_for_post := SbppCreatePostBreakpoint address info tid parameters' in
      let ptr := info_for_post.1 in
      SbppAddBreakpointToList info_for_post ;;
      let* i := deref ptr in
      SbppEnablePageShadowingForExec i
  end.

(** *** Lifecycle *)

Definition SbpInitialization : Vmm unit :=
  modify (set_breakpoints (Some [])).

Fixpoint for_each {A} (f : A -> Vmm unit) (l : list A) : Vmm unit :=
  match l with
  | [] => ret tt
  | x :: r => f x ;; for_each f r
  end.

(** [context] is the vector the hypercall was given. *)
Definition SbpVmCallEnablePageShadowing
    (context : list (Z * PatchInformation)) : Vmm unit :=
  for_each (fun info => SbppEnablePageShadowingForExec info.2) context.

Definition SbpVmCallDisablePageShadowing
    (context : list (Z * PatchInformation)) : Vmm unit :=
  for_each (fun info => SbppDisablePageShadowing info.2) context.

(** Modelled from the spec: [UtilVmCall], the "VMM hypercall dispatch: two
    opcodes, bulk-enable and bulk-disable, each receives the Registry as
    opaque context".  The result is whether the status is a success. *)
Definition UtilVmCall (number : HypercallNumber)
    (context : option (list (Z * PatchInformation))) : Vmm bool :=
  match context with
  | None => undefined NullDereference
  | Some v =>
      match number with
      | kDdimonEnablePageShadowing => SbpVmCallEnablePageShadowing v
      | kDdimonDisablePageShadowing => SbpVmCallDisablePageShadowing v
      end ;;
      ret true
  end.

Definition SbpStart : Vmm bool :=
  let* context := get g_sbpp_breakpoints in
  UtilVmCall kDdimonEnablePageShadowing context.

(** [delete ptrs] destroys every object the vector owns. *)
Definition SbpTermination : Vmm unit :=
  let* ptrs := get g_sbpp_breakpoints in
  let* status := UtilVmCall kDdimonDisablePageShadowing ptrs in
  NT_VERIFY status ;;
  modify (set_breakpoints None) ;;
  for_each (fun info => PatchInformation_dtor info.2) (default [] ptrs).

End Engine.

(** ** Vocabulary of the properties *)

Section Views.

Variable pf : Platform.

(** The leaf of the patched address, as the two enabling views address it. *)
Definition leaf_of (info : PatchInformation) : Z :=
  ept_index (UtilPaFromVa pf (patch_address info)).

(** The leaf the disabling view addresses. *)
Definition leaf_of_page (info : PatchInformation) : Z :=
  ept_index (UtilPaFromVa pf (PAGE_ALIGN (patch_address info))).

Definition exec_view (info : PatchInformation) (e : EptCommonEntry) :=
  {| read_access := false; write_access := false;
     execute_access := execute_access e;
     physial_address := UtilPfnFromPa pf (pa_base_for_exec info) |}.

Definition rw_view (info : PatchInformation) (e : EptCommonEntry) :=
  {| read_access := true; write_access := true;
     execute_access := execute_access e;
     physial_address := UtilPfnFromPa pf (pa_base_for_rw info) |}.

Definition identity_view (info : PatchInformation) :=
  {| read_access := true; write_access := true; execute_access := true;
     physial_address :=
       UtilPfnFromPa pf (UtilPaFromVa pf (PAGE_ALIGN (patch_address info))) |}.

End Views.

(** The state an outcome stops in. *)
Definition final_state {A} (o : Outcome A) : State :=
  match o with
  | Returns _ s | BugCheck _ s | AssertionFailure s | Undefined _ s => s
  end.

(** How an outcome ended, without the state it ended in. *)
Inductive Verdict (A : Type) :=
| VReturns (a : A)
| VBugCheck (code : HyperPlatformBugCheck)
| VAssertionFailure
| VUndefined (f : Fault).

Arguments VReturns {A} a.
Arguments VBugCheck {A} code.
Arguments VAssertionFailure {A}.
Arguments VUndefined {A} f.

Definition verdict {A} (o : Outcome A) : Verdict A :=
  match o with
  | Returns a _ => VReturns a
  | BugCheck c _ => VBugCheck c
  | AssertionFailure _ => VAssertionFailure
  | Undefined f _ => VUndefined f
  end.

(** An outcome that stops the host: a bug check, or a failed assertion. *)
Definition stops_host {A} (o : Outcome A) : Prop :=
  match o with
  | BugCheck _ _ | AssertionFailure _ => True
  | _ => False
  end.


(** Two states that differ at most in the shared-page bookkeeping (use
    counts and pool). *)
Definition same_but_pages (s s' : State) : Prop :=
  set_pool [] (set_page_use_count ∅ s') = set_pool [] (set_page_use_count ∅ s).

(** The predicate of [SbppDeleteBreakpointFromList]: same address and same
    owner thread. *)
Definition same_key (info : PatchInformation) (info2 : Z * PatchInformation) : bool :=
  (patch_address info =? patch_address info2.2) &&
  (target_tid info =? target_tid info2.2).

(** The predicate of [SbppFindPatchInfoByPage]. *)
Definition on_page_of (address : Z) (info : Z * PatchInformation) : bool :=
  PAGE_ALIGN (patch_address info.2) =? PAGE_ALIGN address.

(** The predicate of [SbppFindDuplicatedPostPatchInfo]. *)
Definition is_duplicate_post (address tid : Z) (info : Z * PatchInformation) : bool :=
  BreakpointType_eqb (type info.2) kPost &&
  (PAGE_ALIGN (patch_address info.2) =? PAGE_ALIGN address) &&
  (target_tid info.2 =? tid).

(** The state a handler is entered in: CR3 holds the guest's root read
    from the VMCS and the call is on the trace. *)
Definition enter_handler (p : Z) (i : PatchInformation) (s : State) : State :=
  log (EvHandler (handler i) p (guest_rsp (vmcs s)))
    (log (EvWriteCr3 (guest_cr3 (vmcs s)))
       (set_cr3 (guest_cr3 (vmcs s)) s)).

(** The state after the handler returned in [s1]: CR3 holds [vmm_cr3]
    again. *)
Definition leave_handler (vmm_cr3 : Z) (s1 : State) : State :=
  log (EvWriteCr3 vmm_cr3) (set_cr3 vmm_cr3 s1).

(** The #BP at [guest_ip] is not the engine's: no registry, no record at
    exactly that address, or a 0xCC in the rw shadow at the offset of the
    record found. *)
Definition not_ours (s : State) (guest_ip : Z) : Prop :=
  match g_sbpp_breakpoints s with
  | None => True
  | Some v =>
      match find (fun info => patch_address info.2 =? guest_ip) v with
      | None => True
      | Some (p, i) =>
          memory s (shadow_page_base_for_rw i + BYTE_OFFSET (patch_address i)) = 204
      end
  end.

(** [NT_ASSERT(!g_sbpp_last_breakpoint)] lets the store pass. *)
Definition slot_free (pf : Platform) (s : State) : Prop :=
  checked_build pf = false \/ g_sbpp_last_breakpoint s = None.

(** The three steps that show a page in the rw view for one instruction:
    [SbppEnablePageShadowingForRW], [SbppSetMonitorTrapFlag(true)],
    [SbppSaveLastPatchInfo], in this order, on the record at [p]. *)
Definition step_over (pf : Platform) (p : Z) : Vmm unit :=
  (let* i := deref p in SbppEnablePageShadowingForRW pf i) ;;
  SbppSetMonitorTrapFlag true ;;
  SbppSaveLastPatchInfo pf p.

(** Every normal return of [m] yields a value satisfying [P]. *)
Definition returns_only {A} (P : A -> Prop) (m : Vmm A) : Prop :=
  forall s a s', m s = Returns a s' -> P a.

(** The record [SbppCreateBreakpoint] returns for [address] on the shadow
    pages [rw] and [exec]. *)
Definition created_record (pf : Platform) (address rw exec : Z) : PatchInformation :=
  {| patch_address := address;
     type := kPre;
     handler := 0;
     post_handler := 0;
     target_tid := 0;
     parameters := [];
     name := replicate (name_size pf) 0;
     shadow_page_base_for_rw := rw;
     shadow_page_base_for_exec := exec;
     pa_base_for_rw := UtilPaFromVa pf rw;
     pa_base_for_exec := UtilPaFromVa pf exec |}.


(** Two 4 KiB blocks that do not overlap. *)
Definition apart (a b : Z) : Prop := a + PAGE_SIZE <= b \/ b + PAGE_SIZE <= a.

(** Pairwise non-overlapping blocks. *)
Fixpoint all_apart (l : list Z) : Prop :=
  match l with
  | [] => True
  | b :: r => Forall (apart b) r /\ all_apart r
  end.


(** Invariant I3 with what keeps it: every record's rw shadow is a copy
    of its guest page and its exec shadow holds 0xCC at the offset of the
    address; no rw shadow and no monitored guest page overlaps an exec
    shadow, no monitored guest page overlaps an rw shadow; and the free
    pool pages overlap neither each other nor any of these. *)
Definition shadows_ok (s : State) (v : list (Z * PatchInformation)) : Prop :=
  Forall (fun e =>
    (forall off, 0 <= off < PAGE_SIZE ->
       memory s (shadow_page_base_for_rw e.2 + off) =
       memory s (PAGE_ALIGN (patch_address e.2) + off)) /\
    memory s (shadow_page_base_for_exec e.2 + BYTE_OFFSET (patch_address e.2)) = 204) v /\
  (forall e1 e2, e1 ∈ v -> e2 ∈ v ->
     apart (shadow_page_base_for_rw e1.2) (shadow_page_base_for_exec e2.2) /\
     apart (PAGE_ALIGN (patch_address e1.2)) (shadow_page_base_for_rw e2.2) /\
     apart (PAGE_ALIGN (patch_address e1.2)) (shadow_page_base_for_exec e2.2)) /\
  all_apart (pool s) /\
  Forall (fun b =>
    Forall (fun e =>
      apart b (shadow_page_base_for_rw e.2) /\
      apart b (shadow_page_base_for_exec e.2) /\
      apart b (PAGE_ALIGN (patch_address e.2))) v) (pool s).

(** What a new address must satisfy when its page has no record yet: two
    pool pages are free, and the guest page overlaps neither a pool page
    nor a shadow in use. *)
Definition installable (s : State) (v : list (Z * PatchInformation))
    (address : Z) : Prop :=
  match find (on_page_of address) v with
  | Some _ => True
  | None =>
      (2 <= length (pool s))%nat /\
      Forall (fun b => apart b (PAGE_ALIGN address)) (pool s) /\
      Forall (fun e =>
        apart (PAGE_ALIGN address) (shadow_page_base_for_rw e.2) /\
        apart (PAGE_ALIGN address) (shadow_page_base_for_exec e.2)) v
  end.

(** ** A concrete machine

    One logical processor whose guest runs thread 4.  Kernel virtual
    addresses are mapped linearly, one MiB below their physical address.
    The monitored function starts at [demo_entry]; its caller continues
    at [demo_return], on another page. *)

Definition demo_platform (checked : bool) : Platform :=
  {| checked_build := checked;
     UtilPaFromVa := fun va => va + 1048576;
     UtilPfnFromPa := fun pa => Z.shiftr pa 12;
     name_size := 8 |}.

Definition demo_entry : Z := 65552.
Definition demo_return : Z := 131104.

Definition open_entry (frame : Z) : EptCommonEntry :=
  {| read_access := true; write_access := true; execute_access := true;
     physial_address := frame |}.

Definition demo_machine : State :=
  {| g_sbpp_breakpoints := None;
     g_sbpp_last_breakpoint := None;
     g_sbpp_previouse_guest_interrupt_flag := false;
     next_object := 1;
     page_use_count := ∅;
     pool := [524288; 528384; 532480; 536576];
     memory := fun a => a mod 199;
     ept := <[272 := open_entry 272]> (<[288 := open_entry 288]> ∅);
     vmcs := {| guest_cr3 := 1757184; guest_rsp := 32752;
                guest_rflags := 514;
                cpu_based_vm_exec_control := 2214691442 |};
     cr3 := 1744896;
     irql := 0;
     current_thread_id := 4;
     gp_regs := [];
     trace := [] |}.

(** The handlers of the monitored function: the pre-handler (function 1)
    arms the post-handler (function 2) at the return address, capturing
    one parameter; the post-handler only looks. *)
Definition demo_handlers (pf : Platform) (fn info sp : Z) : Vmm unit :=
  if fn =? 1 then SbpCreateAndEnablePostBreakpoint pf demo_return info [170]
  else ret tt.

Definition demo_target : BreakpointTarget.t :=
  {| BreakpointTarget.pre_handler := 1; BreakpointTarget.post_handler := 2 |}.

(** [demo_installed]: after [SbpInitialization] and the installation of
    the Pre breakpoint at [demo_entry]. *)
Definition demo_installed (checked : bool) : State :=
  final_state
    ((SbpInitialization ;;
      SbpCreatePreBreakpoint (demo_platform checked) demo_entry demo_target 40960)
       demo_machine).

(** [demo_started]: after the bulk arming of [SbpStart]. *)
Definition demo_started (checked : bool) : State :=
  final_state (SbpStart (demo_platform checked) (demo_installed checked)).

(** [demo_stepping]: thread 4 has hit the breakpoint at [demo_entry]; the
    pre-handler has armed the Post record and the engine is stepping. *)
Definition demo_stepping (checked : bool) : State :=
  final_state
    (SbpHandleBreakpoint (demo_platform checked)
       (demo_handlers (demo_platform checked)) demo_entry (demo_started checked)).

(** [demo_armed]: the step has retired. *)
Definition demo_armed (checked : bool) : State :=
  final_state (SbpHandleMonitorTrapFlag (demo_platform checked) (demo_stepping checked)).

(** The Pre record [demo_installed] holds. *)
Definition demo_pre_record : PatchInformation :=
  {| patch_address := demo_entry; type := kPre; handler := 1;
     post_handler := 2; target_tid := 0; parameters := [];
     name := [165; 166; 167; 168; 169; 170; 171; 0];
     shadow_page_base_for_rw := 524288;
     shadow_page_base_for_exec := 528384;
     pa_base_for_rw := 1572864;
     pa_base_for_exec := 1576960 |}.

(** The Post record the pre-handler arms at [demo_return] for thread 4. *)
Definition demo_post_record : PatchInformation :=
  {| patch_address := demo_return; type := kPost; handler := 2;
     post_handler := 0; target_tid := 4; parameters := [170];
     name := [165; 166; 167; 168; 169; 170; 171; 0];
     shadow_page_base_for_rw := 532480;
     shadow_page_base_for_exec := 536576;
     pa_base_for_rw := 1581056;
     pa_base_for_exec := 1585152 |}.

(** What a registry lookup with predicate [f] may return on the vector [v]:
    null when no element satisfies [f], otherwise the address of the first
    element that does, through which that element is read. *)
Definition lookup_result (f : Z * PatchInformation -> bool)
    (v : list (Z * PatchInformation)) (s : State) (r : option Z) : Prop :=
  match r with
  | None => Forall (fun e => f e = false) v
  | Some p =>
      exists i before after,
        v = before ++ (p, i) :: after /\
        Forall (fun e => f e = false) before /\
        f (p, i) = true /\
        deref p s = Returns i s
  end.

(** The predicate of [SbppFindPatchInfoByAddress]. *)
Definition at_address (address : Z) (info : Z * PatchInformation) : bool :=
  patch_address info.2 =? address.

(** Invariant I1: records on the same page hold the same pair of shadow
    pages. *)
Definition same_page_same_pair (v : list (Z * PatchInformation)) : Prop :=
  forall e1 e2, e1 ∈ v -> e2 ∈ v ->
    PAGE_ALIGN (patch_address e1.2) = PAGE_ALIGN (patch_address e2.2) ->
    shadow_page_base_for_rw e1.2 = shadow_page_base_for_rw e2.2 /\
    shadow_page_base_for_exec e1.2 = shadow_page_base_for_exec e2.2.

(** The [shared_ptr<Page>]s the records of [v] hold, one entry per
    reference. *)
Definition page_references (v : list (Z * PatchInformation)) : list Z :=
  flat_map (fun e => [shadow_page_base_for_rw e.2; shadow_page_base_for_exec e.2]) v.

(** The use counts are those of the references [l]: a page has a count
    exactly when it is referenced, and the count is the number of
    references. *)
Definition counts_for (s : State) (l : list Z) : Prop :=
  forall page,
    page_use_count s !! page =
    match count_occ Z.eq_dec l page with
    | O => None
    | n => Some n
    end.

(** The bookkeeping of shadow pages is sound: use counts match the
    references held by the records, and the free pool holds no page twice
    and no page that is still referenced. *)
Definition pages_ok (s : State) (v : list (Z * PatchInformation)) : Prop :=
  counts_for s (page_references v) /\
  NoDup (pool s) /\
  Forall (fun b => b ∉ page_references v) (pool s).

(** The state [s] with another EPT and another trace, and nothing else
    changed. *)
Definition with_ept_and_trace (m : gmap Z EptCommonEntry) (t : list Event)
    (s : State) : State :=
  {| g_sbpp_breakpoints := g_sbpp_breakpoints s;
     g_sbpp_last_breakpoint := g_sbpp_last_breakpoint s;
     g_sbpp_previouse_guest_interrupt_flag := g_sbpp_previouse_guest_interrupt_flag s;
     next_object := next_object s; page_use_count := page_use_count s;
     pool := pool s; memory := memory s; ept := m; vmcs := vmcs s;
     cr3 := cr3 s; irql := irql s; current_thread_id := current_thread_id s;
     gp_regs := gp_regs s; trace := t |}.

(** [demo_shared]: [demo_installed] with a second Pre breakpoint eight
    bytes further on the page of [demo_entry]; the two records share one
    pair of shadow pages. *)
Definition demo_shared (checked : bool) : State :=
  final_state
    (SbpCreatePreBreakpoint (demo_platform checked) (demo_entry + 8) demo_target 40960
       (demo_installed checked)).

Definition demo_second_record : PatchInformation :=
  {| patch_address := demo_entry + 8; type := kPre; handler := 1;
     post_handler := 2; target_tid := 0; parameters := [];
     name := [165; 166; 167; 168; 169; 170; 171; 0];
     shadow_page_base_for_rw := 524288;
     shadow_page_base_for_exec := 528384;
     pa_base_for_rw := 1572864;
     pa_base_for_exec := 1576960 |}.

(** Every leaf of the EPT allows execution, as in the identity mapping
    the tables are built with. *)
Definition all_executable (s : State) : Prop :=
  forall k e, ept s !! k = Some e -> execute_access e = true.

(** * Properties *)

Arguments ept_index : simpl never.
Arguments PAGE_ALIGN : simpl never.
Arguments BYTE_OFFSET : simpl never.
Arguments set_bit : simpl never.
Arguments Z.testbit : simpl never.
Arguments Z.modulo : simpl never.
Arguments Z.pow : simpl never.

(** ** The three page views (SLAT programming) *)

Section EptProperties.

Variable pf : Platform.


Lemma EptGetEptPtEntry_mapped pa s e :
  ept s !! ept_index pa = Some e ->
  EptGetEptPtEntry pa s = Returns (Some (ept_index pa)) s.
Proof.
  intros H. unfold EptGetEptPtEntry, get. rewrite H.
  rewrite bool_decide_eq_true_2; [reflexivity | eauto].
Qed.

Lemma assign_entry_mapped key f s e :
  ept s !! key = Some e ->
  assign_entry (Some key) f s = Returns tt (set_ept (<[key := f e]> (ept s)) s).
Proof. intros H. unfold assign_entry. rewrite H. reflexivity. Qed.

Lemma SbppEnablePageShadowingForExec_run info s e :
  ept s !! leaf_of pf info = Some e ->
  SbppEnablePageShadowingForExec pf info s =
  Returns tt (log EvInveptAll
                (set_ept (<[leaf_of pf info := exec_view pf info e]> (ept s)) s)).
Proof.
  intros H. unfold SbppEnablePageShadowingForExec, bind.
  rewrite (EptGetEptPtEntry_mapped _ _ _ H).
  rewrite (assign_entry_mapped _ _ _ _ H).
  erewrite assign_entry_mapped by (cbn; apply lookup_insert_eq).
  erewrite assign_entry_mapped by (cbn; apply lookup_insert_eq).
  cbn. rewrite !insert_insert_eq. reflexivity.
Qed.

Lemma SbppEnablePageShadowingForRW_run info s e :
  ept s !! leaf_of pf info = Some e ->
  SbppEnablePageShadowingForRW pf info s =
  Returns tt (log EvInveptAll
                (set_ept (<[leaf_of pf info := rw_view pf info e]> (ept s)) s)).
Proof.
  intros H. unfold SbppEnablePageShadowingForRW, bind.
  rewrite (EptGetEptPtEntry_mapped _ _ _ H).
  rewrite (assign_entry_mapped _ _ _ _ H).
  erewrite assign_entry_mapped by (cbn; apply lookup_insert_eq).
  erewrite assign_entry_mapped by (cbn; apply lookup_insert_eq).
  cbn. rewrite !insert_insert_eq. reflexivity.
Qed.

Lemma SbppDisablePageShadowing_run info s e :
  ept s !! leaf_of_page pf info = Some e ->
  SbppDisablePageShadowing pf info s =
  Returns tt (log EvInveptAll
                (set_ept (<[leaf_of_page pf info := identity_view pf info]> (ept s)) s)).
Proof.
  intros H. unfold SbppDisablePageShadowing, bind.
  rewrite (EptGetEptPtEntry_mapped _ _ _ H).
  rewrite (assign_entry_mapped _ _ _ _ H).
  erewrite assign_entry_mapped by (cbn; apply lookup_insert_eq).
  erewrite assign_entry_mapped by (cbn; apply lookup_insert_eq).
  erewrite assign_entry_mapped by (cbn; apply lookup_insert_eq).
  cbn. rewrite !insert_insert_eq. reflexivity.
Qed.

End EptProperties.

Section EptClaims.

Variable pf : Platform.

Lemma executable_leaves_stay_executable (info : PatchInformation) (s : State)
    (e e' : EptCommonEntry) :
  ept s !! leaf_of pf info = Some e ->
  ept s !! leaf_of_page pf info = Some e' ->
  all_executable s ->
  all_executable (final_state (SbppEnablePageShadowingForExec pf info s)) /\
  all_executable (final_state (SbppEnablePageShadowingForRW pf info s)) /\
  all_executable (final_state (SbppDisablePageShadowing pf info s)).
Proof.
  intros He He' Hall.
  rewrite (SbppEnablePageShadowingForExec_run pf info s e He),
          (SbppEnablePageShadowingForRW_run pf info s e He),
          (SbppDisablePageShadowing_run pf info s e' He').
  cbn [final_state]. unfold all_executable. cbn [ept log set_ept].
  assert (Hkept : forall key (x : EptCommonEntry),
            execute_access x = true ->
            forall k y, <[key := x]> (ept s) !! k = Some y -> execute_access y = true).
  { intros key x Hx k y Hk. destruct (Z.eq_dec key k) as [->|Hne].
    - rewrite lookup_insert_eq in Hk. injection Hk as <-. exact Hx.
    - rewrite lookup_insert_ne in Hk by exact Hne. exact (Hall _ _ Hk). }
  split; [|split]; apply Hkept; cbn; first [exact (Hall _ _ He) | reflexivity].
Qed.

(** C6.  Each view function rewrites one leaf, the one of the patched
    address (for the disabling view: of its page), leaves every other
    leaf and every other part of the state as it was, and ends with a
    global invalidation.  On a leaf that allows execution, as every leaf
    of the identity mapping does and as every leaf stays under the three
    functions, the exec view is execute only on the frame of the exec
    shadow, and the rw view is read, write and execute on the frame of
    the rw shadow.  The identity view opens all three permissions and
    maps the page onto itself. *)
Theorem shadow_engine_rewrites_one_leaf (info : PatchInformation) (s : State)
    (e e' : EptCommonEntry) :
  ept s !! leaf_of pf info = Some e ->
  ept s !! leaf_of_page pf info = Some e' ->
  execute_access e = true ->
  (exists s',
      SbppEnablePageShadowingForExec pf info s = Returns tt s' /\
      ept s' !! leaf_of pf info =
        Some {| read_access := false; write_access := false;
                execute_access := true;
                physial_address := UtilPfnFromPa pf (pa_base_for_exec info) |} /\
      (forall k, k <> leaf_of pf info -> ept s' !! k = ept s !! k) /\
      trace s' = trace s ++ [EvInveptAll] /\
      set_ept (ept s) (log EvInveptAll s) = set_ept (ept s) s') /\
  (exists s',
      SbppEnablePageShadowingForRW pf info s = Returns tt s' /\
      ept s' !! leaf_of pf info =
        Some {| read_access := true; write_access := true;
                execute_access := true;
                physial_address := UtilPfnFromPa pf (pa_base_for_rw info) |} /\
      (forall k, k <> leaf_of pf info -> ept s' !! k = ept s !! k) /\
      trace s' = trace s ++ [EvInveptAll] /\
      set_ept (ept s) (log EvInveptAll s) = set_ept (ept s) s') /\
  (exists s',
      SbppDisablePageShadowing pf info s = Returns tt s' /\
      ept s' !! leaf_of_page pf info =
        Some {| read_access := true; write_access := true;
                execute_access := true;
                physial_address :=
                  UtilPfnFromPa pf
                    (UtilPaFromVa pf (PAGE_ALIGN (patch_address info))) |} /\
      (forall k, k <> leaf_of_page pf info -> ept s' !! k = ept s !! k) /\
      trace s' = trace s ++ [EvInveptAll] /\
      set_ept (ept s) (log EvInveptAll s) = set_ept (ept s) s').
Proof.
  intros He He' Hx. split; [|split].
  - eexists. split; [apply (SbppEnablePageShadowingForExec_run pf info s e He)|].
    cbn. split; [rewrite lookup_insert_eq; unfold exec_view; rewrite Hx; reflexivity|].
    split; [intros k Hk; apply lookup_insert_ne; congruence|].
    split; reflexivity.
  - eexists. split; [apply (SbppEnablePageShadowingForRW_run pf info s e He)|].
    cbn. split; [rewrite lookup_insert_eq; unfold rw_view; rewrite Hx; reflexivity|].
    split; [intros k Hk; apply lookup_insert_ne; congruence|].
    split; reflexivity.
  - eexists. split; [apply (SbppDisablePageShadowing_run pf info s e' He')|].
    cbn. split; [apply lookup_insert_eq|].
    split; [intros k Hk; apply lookup_insert_ne; congruence|].
    split; reflexivity.
Qed.

End EptClaims.

(** Outcomes on concrete machines are compared verdict and field by
    field, never as whole states. *)
Lemma returns_final_state {A} (o : Outcome A) (a : A) :
  verdict o = VReturns a -> o = Returns a (final_state o).
Proof. destruct o; cbn; intros H; congruence. Qed.

Ltac evaluated := vm_compute; first [reflexivity | discriminate].
Ltac distinct_objects :=
  apply (bool_decide_eq_true_1 (NoDup _)); vm_compute; reflexivity.

Lemma shadow_engine_rewrites_one_leaf_witness :
  exists s',
    SbppEnablePageShadowingForRW (demo_platform false) demo_pre_record
      (demo_started false) = Returns tt s' /\
    ept s' !! 272 = Some {| read_access := true; write_access := true;
                            execute_access := true; physial_address := 384 |}.
Proof.
  destruct (shadow_engine_rewrites_one_leaf (demo_platform false)
              demo_pre_record (demo_started false)
              {| read_access := false; write_access := false;
                 execute_access := true; physial_address := 385 |}
              {| read_access := false; write_access := false;
                 execute_access := true; physial_address := 385 |})
    as (_ & (s' & Hrun & Hleaf & _) & _).
  - vm_compute. reflexivity.
  - vm_compute. reflexivity.
  - reflexivity.
  - exists s'. split; [exact Hrun | exact Hleaf].
Defined.

(** The tables the concrete machine starts with allow execution on every
    leaf. *)
Lemma demo_machine_all_executable : all_executable demo_machine.
Proof.
  intros k e Hk. cbn [ept demo_machine] in Hk.
  destruct (Z.eq_dec 272 k) as [<-|Hfirst].
  { rewrite lookup_insert_eq in Hk. injection Hk as <-. reflexivity. }
  rewrite lookup_insert_ne in Hk by exact Hfirst.
  destruct (Z.eq_dec 288 k) as [<-|Hsecond].
  { rewrite lookup_insert_eq in Hk. injection Hk as <-. reflexivity. }
  rewrite lookup_insert_ne in Hk by exact Hsecond.
  rewrite lookup_empty in Hk. discriminate.
Qed.

(** ** Assertions, the registry and raw pointers *)

Section Basics.

Variable pf : Platform.

Lemma NT_ASSERT_holds s : NT_ASSERT pf true s = Returns tt s.
Proof. unfold NT_ASSERT. rewrite andb_false_r. reflexivity. Qed.

Lemma NT_ASSERT_free e s :
  checked_build pf = false -> NT_ASSERT pf e s = Returns tt s.
Proof. intros H. unfold NT_ASSERT. rewrite H. reflexivity. Qed.

Lemma SbppIsSbpActive_run s :
  SbppIsSbpActive s =
  Returns (match g_sbpp_breakpoints s with Some _ => true | None => false end) s.
Proof.
  unfold SbppIsSbpActive, get. destruct (g_sbpp_breakpoints s); reflexivity.
Qed.

Lemma breakpoints_vector_run s v :
  g_sbpp_breakpoints s = Some v -> breakpoints_vector pf s = Returns v s.
Proof.
  intros H. unfold breakpoints_vector, bind, get. rewrite H.
  rewrite bool_decide_eq_true_2 by eauto. rewrite NT_ASSERT_holds. reflexivity.
Qed.

Lemma find_pointer (v : list (Z * PatchInformation)) f p i :
  NoDup (v.*1) -> find f v = Some (p, i) ->
  find (fun e => e.1 =? p) v = Some (p, i).
Proof.
  induction v as [|[q j] v IH]; intros Hnd Hf; [discriminate|].
  cbn in *. apply NoDup_cons in Hnd as [Hq Hnd].
  destruct (f (q, j)).
  - injection Hf as -> ->. rewrite Z.eqb_refl. reflexivity.
  - destruct (Z.eqb_spec q p) as [->|Hne]; [|auto].
    exfalso. apply Hq. apply find_some in Hf as [Hin _].
    apply list_elem_of_In in Hin.
    apply (list_elem_of_fmap_2 fst) in Hin. apply Hin.
Qed.

Lemma deref_run s v p i :
  g_sbpp_breakpoints s = Some v ->
  find (fun e => e.1 =? p) v = Some (p, i) ->
  deref p s = Returns i s.
Proof. intros H Hf. unfold deref. rewrite H, Hf. reflexivity. Qed.

Lemma deref_found s v f p i :
  g_sbpp_breakpoints s = Some v -> NoDup (v.*1) ->
  find f v = Some (p, i) -> deref p s = Returns i s.
Proof. intros H Hnd Hf. eapply deref_run; eauto using find_pointer. Qed.

Lemma deref_dangling s v p :
  g_sbpp_breakpoints s = Some v ->
  find (fun e => e.1 =? p) v = None ->
  deref p s = Undefined UseAfterFree s.
Proof. intros H Hf. unfold deref. rewrite H, Hf. reflexivity. Qed.

Lemma SbppFindPatchInfoByPage_run s v address :
  g_sbpp_breakpoints s = Some v ->
  SbppFindPatchInfoByPage pf address s =
  Returns (fst <$> find (fun info =>
             PAGE_ALIGN (patch_address info.2) =? PAGE_ALIGN address) v) s.
Proof.
  intros H. unfold SbppFindPatchInfoByPage, bind.
  rewrite (breakpoints_vector_run _ _ H). reflexivity.
Qed.

Lemma SbppFindPatchInfoByAddress_run s v address :
  g_sbpp_breakpoints s = Some v ->
  SbppFindPatchInfoByAddress pf address s =
  Returns (fst <$> find (fun info => patch_address info.2 =? address) v) s.
Proof.
  intros H. unfold SbppFindPatchInfoByAddress, bind.
  rewrite (breakpoints_vector_run _ _ H). reflexivity.
Qed.

(** *** The monitor trap flag and the last-event slot *)

Lemma SbppSaveLastPatchInfo_run s p :
  checked_build pf = false \/ g_sbpp_last_breakpoint s = None ->
  SbppSaveLastPatchInfo pf p s = Returns tt (set_last_breakpoint (Some p) s).
Proof.
  intros H. unfold SbppSaveLastPatchInfo, bind, get.
  destruct H as [H|H].
  - rewrite (NT_ASSERT_free _ _ H). reflexivity.
  - rewrite H. cbn. rewrite NT_ASSERT_holds. reflexivity.
Qed.

Lemma SbppSaveLastPatchInfo_stops s p q :
  checked_build pf = true ->
  g_sbpp_last_breakpoint s = Some q ->
  SbppSaveLastPatchInfo pf p s = AssertionFailure s.
Proof.
  intros Hc Hq. unfold SbppSaveLastPatchInfo, bind, get, NT_ASSERT.
  rewrite Hq, Hc. reflexivity.
Qed.

Lemma SbppSetMonitorTrapFlag_run enable s :
  SbppSetMonitorTrapFlag enable s =
  Returns tt (final_state (SbppSetMonitorTrapFlag enable s)).
Proof. destruct enable; reflexivity. Qed.

Lemma set_bit_eq n b z : 0 <= n -> Z.testbit (set_bit n b z) n = b.
Proof.
  intros Hn. unfold set_bit. destruct b.
  - rewrite Z.setbit_eqb by assumption. rewrite Z.eqb_refl. reflexivity.
  - rewrite Z.clearbit_eqb. rewrite Z.eqb_refl. apply andb_false_r.
Qed.

Lemma set_bit_neq n b z m :
  0 <= n -> n <> m -> Z.testbit (set_bit n b z) m = Z.testbit z m.
Proof.
  intros Hn Hm. unfold set_bit. destruct b.
  - apply Z.setbit_neq; assumption.
  - rewrite Z.clearbit_eqb. apply Z.eqb_neq in Hm. rewrite Hm. apply andb_true_r.
Qed.

End Basics.


Section MonitorTrapFlag.

Variable pf : Platform.

Lemma SbppRestoreLastPatchInfo_run s p :
  g_sbpp_last_breakpoint s = Some p ->
  SbppRestoreLastPatchInfo pf s = Returns (Some p) (set_last_breakpoint None s).
Proof.
  intros H. unfold SbppRestoreLastPatchInfo, bind, get. rewrite H. cbn.
  rewrite NT_ASSERT_holds. reflexivity.
Qed.

Lemma control_bits_kept enable control n :
  n <> monitor_trap_flag_bit -> n < 32 ->
  Z.testbit (set_bit monitor_trap_flag_bit enable (control mod 2 ^ 32)) n =
  Z.testbit control n.
Proof.
  intros Hn Hlt. unfold monitor_trap_flag_bit in *.
  rewrite set_bit_neq by lia.
  rewrite Z.testbit_mod_pow2 by lia.
  apply Z.ltb_lt in Hlt. rewrite Hlt. reflexivity.
Qed.

(** C7.  The MTF exit takes the record out of the last-event slot, puts
    its page back into the exec view, clears the monitor-trap-flag bit
    and gives the guest the interrupt flag that was saved on arming;
    arming saves the guest's interrupt flag and clears it in RFLAGS. *)
Theorem monitor_trap_flag_retire_and_arm (s : State)
    (v : list (Z * PatchInformation)) (p : Z) (i : PatchInformation)
    (e : EptCommonEntry) :
  g_sbpp_breakpoints s = Some v ->
  g_sbpp_last_breakpoint s = Some p ->
  find (fun x => x.1 =? p) v = Some (p, i) ->
  ept s !! leaf_of pf i = Some e ->
  (exists s',
      SbpHandleMonitorTrapFlag pf s = Returns tt s' /\
      g_sbpp_last_breakpoint s' = None /\
      ept s' = <[leaf_of pf i := exec_view pf i e]> (ept s) /\
      Z.testbit (cpu_based_vm_exec_control (vmcs s')) monitor_trap_flag_bit = false /\
      (forall n, n <> monitor_trap_flag_bit -> n < 32 ->
         Z.testbit (cpu_based_vm_exec_control (vmcs s')) n =
         Z.testbit (cpu_based_vm_exec_control (vmcs s)) n) /\
      Z.testbit (guest_rflags (vmcs s')) intf_bit =
        g_sbpp_previouse_guest_interrupt_flag s /\
      (forall n, n <> intf_bit ->
         Z.testbit (guest_rflags (vmcs s')) n = Z.testbit (guest_rflags (vmcs s)) n) /\
      trace s' =
        trace s ++
        [EvInveptAll;
         EvVmWrite kCpuBasedVmExecControl (cpu_based_vm_exec_control (vmcs s'));
         EvVmWrite kGuestRflags (guest_rflags (vmcs s'))]) /\
  (forall s0, exists s',
      SbppSetMonitorTrapFlag true s0 = Returns tt s' /\
      g_sbpp_previouse_guest_interrupt_flag s' =
        Z.testbit (guest_rflags (vmcs s0)) intf_bit /\
      Z.testbit (guest_rflags (vmcs s')) intf_bit = false /\
      (forall n, n <> intf_bit ->
         Z.testbit (guest_rflags (vmcs s')) n = Z.testbit (guest_rflags (vmcs s0)) n) /\
      Z.testbit (cpu_based_vm_exec_control (vmcs s')) monitor_trap_flag_bit = true /\
      (forall n, n <> monitor_trap_flag_bit -> n < 32 ->
         Z.testbit (cpu_based_vm_exec_control (vmcs s')) n =
         Z.testbit (cpu_based_vm_exec_control (vmcs s0)) n) /\
      g_sbpp_last_breakpoint s' = g_sbpp_last_breakpoint s0 /\
      ept s' = ept s0).
Proof.
  intros Hv Hlast Hp He. split.
  - unfold SbpHandleMonitorTrapFlag, bind, NT_VERIFY.
    rewrite SbppIsSbpActive_run, Hv, NT_ASSERT_holds.
    rewrite (SbppRestoreLastPatchInfo_run _ _ Hlast).
    erewrite deref_run by (cbn; eauto).
    erewrite SbppEnablePageShadowingForExec_run by (cbn; eauto).
    rewrite SbppSetMonitorTrapFlag_run.
    eexists. split; [reflexivity|]. cbn.
    split; [reflexivity|]. split; [reflexivity|].
    split; [apply set_bit_eq; unfold monitor_trap_flag_bit; lia|].
    split; [intros n Hn Hlt; apply control_bits_kept; assumption|].
    split; [apply set_bit_eq; unfold intf_bit; lia|].
    split; [intros n Hn; apply set_bit_neq; unfold intf_bit in *; [lia|congruence]|].
    rewrite <- !app_assoc. reflexivity.
  - intros s0. rewrite SbppSetMonitorTrapFlag_run.
    eexists. split; [reflexivity|]. cbn.
    split; [reflexivity|].
    split; [apply (set_bit_eq intf_bit false); unfold intf_bit; lia|].
    split; [intros n Hn; apply set_bit_neq; unfold intf_bit in *; [lia|congruence]|].
    split; [apply (set_bit_eq monitor_trap_flag_bit true); unfold monitor_trap_flag_bit; lia|].
    split; [intros n Hn Hlt; apply control_bits_kept; assumption|].
    split; reflexivity.
Qed.

End MonitorTrapFlag.

Lemma monitor_trap_flag_retire_and_arm_witness :
  exists s',
    SbpHandleMonitorTrapFlag (demo_platform false) (demo_stepping false) =
      Returns tt s' /\
    g_sbpp_last_breakpoint s' = None /\
    Z.testbit (guest_rflags (vmcs s')) intf_bit = true.
Proof.
  edestruct (monitor_trap_flag_retire_and_arm (demo_platform false)
               (demo_stepping false))
    as ((s' & Hrun & Hlast & _ & _ & _ & Hif & _) & _).
  - vm_compute. reflexivity.
  - vm_compute. reflexivity.
  - vm_compute. reflexivity.
  - vm_compute. reflexivity.
  - exists s'. split; [exact Hrun|]. split; [exact Hlast|].
    rewrite Hif. vm_compute. reflexivity.
Defined.

(** ** Fatal conditions *)

Section Fatal.

Variable pf : Platform.
Variable handlers : Z -> Z -> Z -> Vmm unit.

Lemma SbpHandleBreakpoint_tracked s v guest_ip p i :
  g_sbpp_breakpoints s = Some v ->
  NoDup (v.*1) ->
  find (fun info => patch_address info.2 =? guest_ip) v = Some (p, i) ->
  memory s (shadow_page_base_for_rw i + BYTE_OFFSET (patch_address i)) <> 204 ->
  SbpHandleBreakpoint pf handlers guest_ip s =
  ((if DISPATCH_LEVEL <? irql s
    then HYPERPLATFORM_COMMON_BUG_CHECK kUnspecified else ret tt) ;;
   let* guest_cr3' := UtilVmRead kGuestCr3 in
   let* vmm_cr3 := __readcr3 in
   let* i := deref p in
   match type i with
   | kPre =>
       __writecr3 guest_cr3' ;;
       call_handler handlers p ;;
       __writecr3 vmm_cr3 ;;
       (let* i := deref p in SbppEnablePageShadowingForRW pf i) ;;
       SbppSetMonitorTrapFlag true ;;
       SbppSaveLastPatchInfo pf p ;;
       ret true
   | kPost =>
       let* tid := PsGetCurrentThreadId in
       if target_tid i =? tid then
         __writecr3 guest_cr3' ;;
         call_handler handlers p ;;
         __writecr3 vmm_cr3 ;;
         (let* i := deref p in SbppDeleteBreakpointFromList pf i) ;;
         let* other := SbppFindPatchInfoByPage pf guest_ip in
         match other with
         | None => let* i := deref p in SbppDisablePageShadowing pf i
         | Some _ => ret tt
         end ;;
         ret true
       else
         (let* i := deref p in SbppEnablePageShadowingForRW pf i) ;;
         SbppSetMonitorTrapFlag true ;;
         SbppSaveLastPatchInfo pf p ;;
         ret true
   end) s.
Proof.
  intros Hv Hnd Hfind Hbyte.
  unfold SbpHandleBreakpoint at 1. unfold bind at 1.
  rewrite SbppIsSbpActive_run, Hv. cbn [negb]. unfold bind at 1.
  rewrite (SbppFindPatchInfoByAddress_run pf _ _ _ Hv), Hfind.
  cbn [fmap option_fmap option_map fst]. unfold bind at 1.
  rewrite (deref_found _ _ _ _ _ Hv Hnd Hfind). unfold bind at 1.
  unfold SbppIsShadowBreakpoint, get.
  apply Z.eqb_neq in Hbyte. rewrite Hbyte. cbn [negb].
  unfold bind at 1. unfold KeGetCurrentIrql, get. reflexivity.
Qed.

Lemma SbppCreateBreakpoint_pool_exhausted s v address :
  g_sbpp_breakpoints s = Some v ->
  find (fun info =>
     PAGE_ALIGN (patch_address info.2) =? PAGE_ALIGN address) v = None ->
  (length (pool s) < 2)%nat ->
  verdict (SbppCreateBreakpoint pf address s) =
  VBugCheck kCritialPoolAllocationFailure.
Proof.
  intros Hv Hfind Hpool.
  unfold SbppCreateBreakpoint, make_unique_PatchInformation.
  unfold bind, get, modify, ret. cbv beta iota.
  erewrite SbppFindPatchInfoByPage_run by (cbn; eauto). rewrite Hfind.
  cbn [fmap option_fmap option_map].
  unfold make_shared_Page, bind, Page_ctor. cbn [pool set_next_object].
  destruct (pool s) as [|b [|b' rest]]; cbn in *; try reflexivity; lia.
Qed.

(** C8 (as amended).  Two conditions bug-check the host in every build:
    a shadow page that cannot be allocated, and a tracked #BP hit above
    dispatch level.  The other two are guarded by [NT_ASSERT] alone: storing
    into an occupied last-event slot and retrieving from an empty one stop
    a checked build with an assertion failure, while a free build
    overwrites the slot, respectively returns null. *)
Theorem fatal_conditions (s : State) :
  (pool s = [] ->
   Page_ctor s = BugCheck kCritialPoolAllocationFailure s) /\
  (forall v address target name',
     g_sbpp_breakpoints s = Some v ->
     find (fun info =>
        PAGE_ALIGN (patch_address info.2) =? PAGE_ALIGN address) v = None ->
     (length (pool s) < 2)%nat ->
     verdict (SbpCreatePreBreakpoint pf address target name' s) =
     VBugCheck kCritialPoolAllocationFailure) /\
  (forall v guest_ip p i,
     g_sbpp_breakpoints s = Some v ->
     NoDup (v.*1) ->
     find (fun info => patch_address info.2 =? guest_ip) v = Some (p, i) ->
     memory s (shadow_page_base_for_rw i + BYTE_OFFSET (patch_address i)) <> 204 ->
     DISPATCH_LEVEL < irql s ->
     SbpHandleBreakpoint pf handlers guest_ip s = BugCheck kUnspecified s) /\
  (forall p q,
     g_sbpp_last_breakpoint s = Some q ->
     SbppSaveLastPatchInfo pf p s =
     if checked_build pf then AssertionFailure s
     else Returns tt (set_last_breakpoint (Some p) s)) /\
  (g_sbpp_last_breakpoint s = None ->
   SbppRestoreLastPatchInfo pf s =
   if checked_build pf then AssertionFailure s
   else Returns None (set_last_breakpoint None s)).
Proof.
  split; [|split; [|split; [|split]]].
  - intros H. unfold Page_ctor. rewrite H. reflexivity.
  - intros v address target name' Hv Hfind Hpool.
    unfold SbpCreatePreBreakpoint, SbppCreatePreBreakpoint, bind.
    pose proof (SbppCreateBreakpoint_pool_exhausted s v address Hv Hfind Hpool) as H.
    destruct (SbppCreateBreakpoint pf address s); cbn in H; try discriminate.
    cbn. congruence.
  - intros v guest_ip p i Hv Hnd Hfind Hbyte Hirql.
    rewrite (SbpHandleBreakpoint_tracked s v guest_ip p i Hv Hnd Hfind Hbyte).
    unfold bind at 1. apply Z.ltb_lt in Hirql. rewrite Hirql. reflexivity.
  - intros p q Hlast. unfold SbppSaveLastPatchInfo, bind, get, NT_ASSERT.
    rewrite Hlast. cbn. destruct (checked_build pf); reflexivity.
  - intros Hlast. unfold SbppRestoreLastPatchInfo, bind, get, NT_ASSERT.
    rewrite Hlast. cbn. destruct (checked_build pf); reflexivity.
Qed.

End Fatal.

(** C8 as stated fails in a free build: while the engine is stepping over
    the breakpoint at [demo_entry], a read of the page of [demo_return]
    raises an EPT violation; the last-event slot is occupied, the store
    does not stop the host and overwrites it. *)
Lemma occupied_slot_is_overwritten_in_free_build :
  g_sbpp_last_breakpoint (demo_stepping false) = Some 1 /\
  ~ stops_host (SbppSaveLastPatchInfo (demo_platform false) 2 (demo_stepping false)) /\
  exists s',
    SbpHandleEptViolation (demo_platform false) demo_return (demo_stepping false) =
      Returns tt s' /\
    g_sbpp_last_breakpoint s' = Some 2.
Proof.
  split; [evaluated|]. split.
  - intros H. vm_compute in H. exact H.
  - eexists. split; [apply returns_final_state; evaluated|]. evaluated.
Qed.

Lemma fatal_conditions_witness :
  Page_ctor (demo_stepping true) =
    BugCheck kCritialPoolAllocationFailure (demo_stepping true) /\
  verdict (SbpCreatePreBreakpoint (demo_platform true) 196608 demo_target 40960
             (demo_stepping true)) = VBugCheck kCritialPoolAllocationFailure /\
  SbpHandleBreakpoint (demo_platform true) (demo_handlers (demo_platform true))
    demo_entry (set_irql 15 (demo_started true)) =
    BugCheck kUnspecified (set_irql 15 (demo_started true)) /\
  SbppSaveLastPatchInfo (demo_platform true) 2 (demo_stepping true) =
    AssertionFailure (demo_stepping true) /\
  SbppRestoreLastPatchInfo (demo_platform true) (demo_started true) =
    AssertionFailure (demo_started true).
Proof.
  split; [|split; [|split; [|split]]].
  - apply (fatal_conditions (demo_platform true)
             (demo_handlers (demo_platform true)) (demo_stepping true)).
    vm_compute. reflexivity.
  - eapply (fatal_conditions (demo_platform true)
              (demo_handlers (demo_platform true)) (demo_stepping true)).
    + vm_compute. reflexivity.
    + vm_compute. reflexivity.
    + vm_compute. lia.
  - eapply (fatal_conditions (demo_platform true)
              (demo_handlers (demo_platform true)) (set_irql 15 (demo_started true))).
    + vm_compute. reflexivity.
    + distinct_objects.
    + vm_compute. reflexivity.
    + vm_compute. discriminate.
    + vm_compute. reflexivity.
  - apply (fatal_conditions (demo_platform true)
             (demo_handlers (demo_platform true)) (demo_stepping true) : _ /\ _ /\ _ /\ _ /\ _)
      with (q := 1).
    vm_compute. reflexivity.
  - apply (fatal_conditions (demo_platform true)
             (demo_handlers (demo_platform true)) (demo_started true)).
    vm_compute. reflexivity.
Defined.

(** ** Erasing from the registry *)

Section Erase.

Variable pf : Platform.

Lemma erase_first_none {A} (f : A -> bool) (l : list A) :
  Forall (fun x => f x = false) l -> erase_first f l = None.
Proof.
  induction 1 as [|x l Hx _ IH]; [reflexivity|].
  cbn. rewrite Hx, IH. reflexivity.
Qed.

Lemma erase_first_split {A} (f : A -> bool) (before after : list A) (x : A) :
  Forall (fun y => f y = false) before -> f x = true ->
  erase_first f (before ++ x :: after) = Some (x, before ++ after).
Proof.
  induction 1 as [|y l Hy _ IH]; intros Hx; cbn.
  - rewrite Hx. reflexivity.
  - rewrite Hy, (IH Hx). reflexivity.
Qed.

Lemma erase_first_some {A} (f : A -> bool) (l : list A) x rest :
  erase_first f l = Some (x, rest) ->
  exists before after,
    l = before ++ x :: after /\ rest = before ++ after /\
    Forall (fun y => f y = false) before /\ f x = true.
Proof.
  revert rest. induction l as [|y l IH]; intros rest H; [discriminate|].
  cbn in H. destruct (f y) eqn:Hy.
  - injection H as Hx Hr. subst y rest. exists [], l. repeat split; auto.
  - revert H. destruct (erase_first f l) as [[z r]|] eqn:He; [|discriminate].
    intros H. injection H as Hz Hr. subst z rest.
    destruct (IH r eq_refl) as (b & a & Hl & Hr & Hb & Hx). subst l r.
    exists (y :: b), a. repeat split; auto.
Qed.

Lemma same_but_pages_trans s1 s2 s3 :
  same_but_pages s1 s2 -> same_but_pages s2 s3 -> same_but_pages s1 s3.
Proof. unfold same_but_pages. congruence. Qed.

Lemma shared_ptr_release_run page s :
  exists s', shared_ptr_release page s = Returns tt s' /\ same_but_pages s s'.
Proof.
  unfold shared_ptr_release, bind, get.
  destruct (page_use_count s !! page) as [[|[|n]]|];
    eexists; (split; [reflexivity|]); reflexivity.
Qed.

Lemma PatchInformation_dtor_run info s :
  exists s', PatchInformation_dtor info s = Returns tt s' /\ same_but_pages s s'.
Proof.
  unfold PatchInformation_dtor, bind.
  destruct (shared_ptr_release_run (shadow_page_base_for_exec info) s)
    as (s1 & -> & H1).
  destruct (shared_ptr_release_run (shadow_page_base_for_rw info) s1)
    as (s2 & -> & H2).
  exists s2. split; [reflexivity|]. eapply same_but_pages_trans; eauto.
Qed.

Lemma same_but_pages_breakpoints s s' :
  same_but_pages s s' -> g_sbpp_breakpoints s' = g_sbpp_breakpoints s.
Proof. intros H. apply (f_equal g_sbpp_breakpoints) in H. exact H. Qed.

Lemma SbppDeleteBreakpointFromList_run s v info :
  g_sbpp_breakpoints s = Some v ->
  match erase_first (same_key info) v with
  | Some (erased, rest) =>
      exists s',
        SbppDeleteBreakpointFromList pf info s = Returns tt s' /\
        same_but_pages (set_breakpoints (Some rest) s) s'
  | None => SbppDeleteBreakpointFromList pf info s = Returns tt s
  end.
Proof.
  intros Hv. unfold SbppDeleteBreakpointFromList, bind.
  rewrite (breakpoints_vector_run pf s v Hv).
  change (fun info2 : Z * PatchInformation =>
            (patch_address info =? patch_address info2.2) &&
            (target_tid info =? target_tid info2.2)) with (same_key info).
  destruct (erase_first (same_key info) v) as [[erased rest]|]; [|reflexivity].
  unfold modify.
  destruct (PatchInformation_dtor_run erased.2 (set_breakpoints (Some rest) s))
    as (s' & Hrun & Hsame).
  exists s'. rewrite Hrun. split; [reflexivity | exact Hsame].
Qed.

(** C10.  Erasing is a no-op when no stored record has the address and
    owner thread of the given one; otherwise the first such record in
    insertion order leaves the vector, every other record stays in place,
    and nothing but the bookkeeping of the shadow pages changes. *)
Theorem SbppDeleteBreakpointFromList_erases_first_match (s : State)
    (v : list (Z * PatchInformation)) (info : PatchInformation) :
  g_sbpp_breakpoints s = Some v ->
  (Forall (fun info2 => same_key info info2 = false) v ->
   SbppDeleteBreakpointFromList pf info s = Returns tt s) /\
  (forall before erased after,
     v = before ++ erased :: after ->
     Forall (fun info2 => same_key info info2 = false) before ->
     same_key info erased = true ->
     exists s',
       SbppDeleteBreakpointFromList pf info s = Returns tt s' /\
       g_sbpp_breakpoints s' = Some (before ++ after) /\
       same_but_pages (set_breakpoints (Some (before ++ after)) s) s').
Proof.
  intros Hv. pose proof (SbppDeleteBreakpointFromList_run s v info Hv) as Hrun.
  split.
  - intros Hnone. rewrite (erase_first_none _ _ Hnone) in Hrun. exact Hrun.
  - intros before erased after -> Hbefore Hkey.
    rewrite (erase_first_split _ _ _ _ Hbefore Hkey) in Hrun.
    destruct Hrun as (s' & Hrun & Hsame).
    exists s'. split; [exact Hrun|]. split; [|exact Hsame].
    rewrite (same_but_pages_breakpoints _ _ Hsame). reflexivity.
Qed.

End Erase.

Lemma SbppDeleteBreakpointFromList_erases_first_match_witness :
  g_sbpp_breakpoints (demo_armed false) =
    Some [(1, demo_pre_record); (2, demo_post_record)] /\
  exists s',
    SbppDeleteBreakpointFromList (demo_platform false) demo_post_record
      (demo_armed false) = Returns tt s' /\
    g_sbpp_breakpoints s' = Some [(1, demo_pre_record)].
Proof.
  assert (Hv : g_sbpp_breakpoints (demo_armed false) =
               Some [(1, demo_pre_record); (2, demo_post_record)])
    by (vm_compute; reflexivity).
  split; [exact Hv|].
  destruct (SbppDeleteBreakpointFromList_erases_first_match (demo_platform false)
              (demo_armed false) _ demo_post_record Hv) as [_ Herase].
  destruct (Herase [(1, demo_pre_record)] (2, demo_post_record) [])
    as (s' & Hrun & Hrest & _).
  - reflexivity.
  - repeat constructor.
  - reflexivity.
  - exists s'. split; [exact Hrun | exact Hrest].
Defined.

(** ** The #BP and EPT-violation handlers *)

Section Handlers.

Variable pf : Platform.
Variable handlers : Z -> Z -> Z -> Vmm unit.

Lemma bind_returns {A B} (m : Vmm A) (k : A -> Vmm B) s a s' :
  m s = Returns a s' -> bind m k s = k a s'.
Proof. intros H. unfold bind. rewrite H. reflexivity. Qed.

Lemma deref_frame p i s s' :
  g_sbpp_breakpoints s' = g_sbpp_breakpoints s ->
  deref p s = Returns i s -> deref p s' = Returns i s'.
Proof.
  unfold deref. intros ->.
  destruct (g_sbpp_breakpoints s) as [v|]; [|discriminate].
  destruct (find _ v); [|discriminate].
  intros H. injection H as ->. reflexivity.
Qed.

Lemma step_over_run p i e s :
  deref p s = Returns i s ->
  ept s !! leaf_of pf i = Some e ->
  slot_free pf s ->
  exists s',
    step_over pf p s = Returns tt s' /\
    ept s' = <[leaf_of pf i := rw_view pf i e]> (ept s) /\
    Z.testbit (cpu_based_vm_exec_control (vmcs s')) monitor_trap_flag_bit = true /\
    g_sbpp_previouse_guest_interrupt_flag s' =
      Z.testbit (guest_rflags (vmcs s)) intf_bit /\
    Z.testbit (guest_rflags (vmcs s')) intf_bit = false /\
    g_sbpp_last_breakpoint s' = Some p /\
    g_sbpp_breakpoints s' = g_sbpp_breakpoints s /\
    cr3 s' = cr3 s /\
    memory s' = memory s /\
    trace s' =
      trace s ++
      [EvInveptAll;
       EvVmWrite kCpuBasedVmExecControl (cpu_based_vm_exec_control (vmcs s'));
       EvVmWrite kGuestRflags (guest_rflags (vmcs s'))].
Proof.
  intros Hd He Hfree. unfold step_over.
  erewrite bind_returns by (erewrite bind_returns by exact Hd;
                            apply (SbppEnablePageShadowingForRW_run pf i s e He)).
  erewrite bind_returns by apply SbppSetMonitorTrapFlag_run.
  rewrite SbppSaveLastPatchInfo_run by exact Hfree.
  eexists. split; [reflexivity|]. cbn.
  split; [reflexivity|].
  split; [apply (set_bit_eq monitor_trap_flag_bit true); unfold monitor_trap_flag_bit; lia|].
  split; [reflexivity|].
  split; [apply (set_bit_eq intf_bit false); unfold intf_bit; lia|].
  rewrite <- !app_assoc. repeat split; reflexivity.
Qed.

Lemma step_over_stops p i e q s :
  deref p s = Returns i s ->
  ept s !! leaf_of pf i = Some e ->
  checked_build pf = true ->
  g_sbpp_last_breakpoint s = Some q ->
  exists s',
    step_over pf p s = AssertionFailure s' /\
    ept s' = <[leaf_of pf i := rw_view pf i e]> (ept s) /\
    Z.testbit (cpu_based_vm_exec_control (vmcs s')) monitor_trap_flag_bit = true /\
    g_sbpp_previouse_guest_interrupt_flag s' =
      Z.testbit (guest_rflags (vmcs s)) intf_bit /\
    Z.testbit (guest_rflags (vmcs s')) intf_bit = false /\
    g_sbpp_last_breakpoint s' = Some q /\
    g_sbpp_breakpoints s' = g_sbpp_breakpoints s /\
    cr3 s' = cr3 s /\
    memory s' = memory s /\
    trace s' =
      trace s ++
      [EvInveptAll;
       EvVmWrite kCpuBasedVmExecControl (cpu_based_vm_exec_control (vmcs s'));
       EvVmWrite kGuestRflags (guest_rflags (vmcs s'))].
Proof.
  intros Hd He Hc Hq. unfold step_over.
  erewrite bind_returns by (erewrite bind_returns by exact Hd;
                            apply (SbppEnablePageShadowingForRW_run pf i s e He)).
  erewrite bind_returns by apply SbppSetMonitorTrapFlag_run.
  erewrite SbppSaveLastPatchInfo_stops by first [exact Hc | exact Hq].
  eexists. split; [reflexivity|]. cbn.
  split; [reflexivity|].
  split; [apply (set_bit_eq monitor_trap_flag_bit true); unfold monitor_trap_flag_bit; lia|].
  split; [reflexivity|].
  split; [apply (set_bit_eq intf_bit false); unfold intf_bit; lia|].
  split; [exact Hq|].
  rewrite <- !app_assoc. repeat split; reflexivity.
Qed.

Lemma bind_stops {A B} (m : Vmm A) (k : A -> Vmm B) s s' :
  m s = AssertionFailure s' -> bind m k s = AssertionFailure s'.
Proof. intros H. unfold bind. rewrite H. reflexivity. Qed.

Lemma bind_assoc {A B C} (m : Vmm A) (k : A -> Vmm B) (h : B -> Vmm C) s :
  bind (bind m k) h s = bind m (fun x => bind (k x) h) s.
Proof. unfold bind. destruct (m s); reflexivity. Qed.

Lemma step_over_then {A} (p : Z) (k : Vmm A) s :
  ((let* i := deref p in SbppEnablePageShadowingForRW pf i) ;;
   SbppSetMonitorTrapFlag true ;;
   SbppSaveLastPatchInfo pf p ;;
   k) s = (step_over pf p ;; k) s.
Proof.
  unfold step_over. rewrite !bind_assoc. unfold bind.
  destruct (deref p s); reflexivity.
Qed.

Lemma call_handler_run p i s s1 :
  deref p s = Returns i s ->
  handlers (handler i) p (guest_rsp (vmcs s))
    (log (EvHandler (handler i) p (guest_rsp (vmcs s))) s) = Returns tt s1 ->
  call_handler handlers p s = Returns tt s1.
Proof.
  intros Hd Hh. unfold call_handler.
  erewrite bind_returns by exact Hd.
  unfold bind, UtilVmRead, get, emit, modify. exact Hh.
Qed.

(** Entering the handler of the record at [p] from [s] and coming back
    with the VMM's CR3. *)
Lemma handler_round_trip {A} p i s s1 (k : Vmm A) :
  deref p s = Returns i s ->
  handlers (handler i) p (guest_rsp (vmcs s)) (enter_handler p i s) =
    Returns tt s1 ->
  (__writecr3 (guest_cr3 (vmcs s)) ;;
   call_handler handlers p ;;
   __writecr3 (cr3 s) ;;
   k) s = k (leave_handler (cr3 s) s1).
Proof.
  intros Hd Hh.
  erewrite bind_returns by reflexivity.
  erewrite bind_returns.
  2:{ eapply call_handler_run.
      - eapply deref_frame; [|exact Hd]. reflexivity.
      - exact Hh. }
  erewrite bind_returns by reflexivity. reflexivity.
Qed.

Lemma SbpHandleBreakpoint_at_dispatch s v guest_ip p i :
  g_sbpp_breakpoints s = Some v ->
  NoDup (v.*1) ->
  find (fun info => patch_address info.2 =? guest_ip) v = Some (p, i) ->
  memory s (shadow_page_base_for_rw i + BYTE_OFFSET (patch_address i)) <> 204 ->
  irql s <= DISPATCH_LEVEL ->
  deref p s = Returns i s /\
  SbpHandleBreakpoint pf handlers guest_ip s =
  match type i with
  | kPre =>
      (__writecr3 (guest_cr3 (vmcs s)) ;;
       call_handler handlers p ;;
       __writecr3 (cr3 s) ;;
       (let* i := deref p in SbppEnablePageShadowingForRW pf i) ;;
       SbppSetMonitorTrapFlag true ;;
       SbppSaveLastPatchInfo pf p ;;
       ret true) s
  | kPost =>
      if target_tid i =? current_thread_id s then
        (__writecr3 (guest_cr3 (vmcs s)) ;;
         call_handler handlers p ;;
         __writecr3 (cr3 s) ;;
         (let* i := deref p in SbppDeleteBreakpointFromList pf i) ;;
         let* other := SbppFindPatchInfoByPage pf guest_ip in
         match other with
         | None => let* i := deref p in SbppDisablePageShadowing pf i
         | Some _ => ret tt
         end ;;
         ret true) s
      else
        ((let* i := deref p in SbppEnablePageShadowingForRW pf i) ;;
         SbppSetMonitorTrapFlag true ;;
         SbppSaveLastPatchInfo pf p ;;
         ret true) s
  end.
Proof.
  intros Hv Hnd Hfind Hbyte Hirql.
  pose proof (deref_found s v _ p i Hv Hnd Hfind) as Hd.
  split; [exact Hd|].
  rewrite (SbpHandleBreakpoint_tracked pf handlers s v guest_ip p i Hv Hnd Hfind Hbyte).
  unfold bind at 1. apply Z.ltb_ge in Hirql. rewrite Hirql.
  unfold ret at 1. unfold bind at 1, UtilVmRead at 1, get at 1.
  unfold bind at 1, __readcr3 at 1, get at 1.
  unfold bind at 1. rewrite Hd.
  destruct (type i); [reflexivity|].
  unfold bind at 1, PsGetCurrentThreadId at 1, get at 1.
  destruct (target_tid i =? current_thread_id s); reflexivity.
Qed.

Lemma step_over_after_handler p i1 e vmm_cr3 s1 :
  deref p s1 = Returns i1 s1 ->
  ept s1 !! leaf_of pf i1 = Some e ->
  slot_free pf s1 ->
  exists s2,
    (step_over pf p ;; ret true) (leave_handler vmm_cr3 s1) = Returns true s2 /\
    cr3 s2 = vmm_cr3 /\
    ept s2 = <[leaf_of pf i1 := rw_view pf i1 e]> (ept s1) /\
    Z.testbit (cpu_based_vm_exec_control (vmcs s2)) monitor_trap_flag_bit = true /\
    Z.testbit (guest_rflags (vmcs s2)) intf_bit = false /\
    g_sbpp_last_breakpoint s2 = Some p /\
    g_sbpp_breakpoints s2 = g_sbpp_breakpoints s1 /\
    trace s2 =
      trace s1 ++
      [EvWriteCr3 vmm_cr3; EvInveptAll;
       EvVmWrite kCpuBasedVmExecControl (cpu_based_vm_exec_control (vmcs s2));
       EvVmWrite kGuestRflags (guest_rflags (vmcs s2))].
Proof.
  intros Hd He Hfree.
  destruct (step_over_run p i1 e (leave_handler vmm_cr3 s1))
    as (s2 & Hrun & Hept & Hmtf & _ & Hif & Hlast & Hbp & Hcr3 & _ & Htrace).
  - eapply deref_frame; [|exact Hd]. reflexivity.
  - exact He.
  - exact Hfree.
  - exists s2. erewrite bind_returns by exact Hrun.
    split; [reflexivity|]. split; [exact Hcr3|]. split; [exact Hept|].
    split; [exact Hmtf|]. split; [exact Hif|]. split; [exact Hlast|].
    split; [exact Hbp|]. rewrite Htrace. cbn. rewrite <- app_assoc. reflexivity.
Qed.

Lemma step_over_stops_after_handler p i1 e q vmm_cr3 s1 :
  deref p s1 = Returns i1 s1 ->
  ept s1 !! leaf_of pf i1 = Some e ->
  checked_build pf = true ->
  g_sbpp_last_breakpoint s1 = Some q ->
  exists s2,
    (step_over pf p ;; ret true) (leave_handler vmm_cr3 s1) = AssertionFailure s2 /\
    cr3 s2 = vmm_cr3 /\
    ept s2 = <[leaf_of pf i1 := rw_view pf i1 e]> (ept s1) /\
    Z.testbit (cpu_based_vm_exec_control (vmcs s2)) monitor_trap_flag_bit = true /\
    Z.testbit (guest_rflags (vmcs s2)) intf_bit = false /\
    g_sbpp_last_breakpoint s2 = Some q /\
    g_sbpp_breakpoints s2 = g_sbpp_breakpoints s1 /\
    trace s2 =
      trace s1 ++
      [EvWriteCr3 vmm_cr3; EvInveptAll;
       EvVmWrite kCpuBasedVmExecControl (cpu_based_vm_exec_control (vmcs s2));
       EvVmWrite kGuestRflags (guest_rflags (vmcs s2))].
Proof.
  intros Hd He Hc Hq.
  destruct (step_over_stops p i1 e q (leave_handler vmm_cr3 s1))
    as (s2 & Hrun & Hept & Hmtf & _ & Hif & Hlast & Hbp & Hcr3 & _ & Htrace).
  - eapply deref_frame; [|exact Hd]. reflexivity.
  - exact He.
  - exact Hc.
  - exact Hq.
  - exists s2. erewrite bind_stops by exact Hrun.
    split; [reflexivity|]. split; [exact Hcr3|]. split; [exact Hept|].
    split; [exact Hmtf|]. split; [exact Hif|]. split; [exact Hlast|].
    split; [exact Hbp|]. rewrite Htrace. cbn. rewrite <- app_assoc. reflexivity.
Qed.

(** C1 (as amended).  A #BP at the address of a Pre record (engine
    active, rw-shadow byte not 0xCC, IRQL at most dispatch level) enters
    the record's handler with CR3 holding the guest's root from the VMCS;
    when the handler has returned, CR3 is set back to the VMM's value, and
    then, in this order, the page is switched to the rw shadow, the
    monitor trap flag is armed and the record is stored as the last
    event.  The store is guarded by [NT_ASSERT]: with the slot empty, or
    in a free build, the record is stored and the result is true; with
    the slot occupied a checked build stops at the assertion, after the
    view switch and the arming, and the slot keeps what it held. *)
Theorem SbpHandleBreakpoint_pre (s : State) (v : list (Z * PatchInformation))
    (guest_ip p : Z) (i i1 : PatchInformation) (s1 : State)
    (e : EptCommonEntry) :
  g_sbpp_breakpoints s = Some v ->
  NoDup (v.*1) ->
  find (fun info => patch_address info.2 =? guest_ip) v = Some (p, i) ->
  type i = kPre ->
  memory s (shadow_page_base_for_rw i + BYTE_OFFSET (patch_address i)) <> 204 ->
  irql s <= DISPATCH_LEVEL ->
  handlers (handler i) p (guest_rsp (vmcs s)) (enter_handler p i s) =
    Returns tt s1 ->
  deref p s1 = Returns i1 s1 ->
  ept s1 !! leaf_of pf i1 = Some e ->
  cr3 (enter_handler p i s) = guest_cr3 (vmcs s) /\
  trace (enter_handler p i s) =
    trace s ++ [EvWriteCr3 (guest_cr3 (vmcs s));
                EvHandler (handler i) p (guest_rsp (vmcs s))] /\
  SbpHandleBreakpoint pf handlers guest_ip s =
    (step_over pf p ;; ret true) (leave_handler (cr3 s) s1) /\
  (slot_free pf s1 ->
   exists s2,
     SbpHandleBreakpoint pf handlers guest_ip s = Returns true s2 /\
     cr3 s2 = cr3 s /\
     ept s2 = <[leaf_of pf i1 := rw_view pf i1 e]> (ept s1) /\
     Z.testbit (cpu_based_vm_exec_control (vmcs s2)) monitor_trap_flag_bit = true /\
     Z.testbit (guest_rflags (vmcs s2)) intf_bit = false /\
     g_sbpp_last_breakpoint s2 = Some p /\
     g_sbpp_breakpoints s2 = g_sbpp_breakpoints s1 /\
     trace s2 =
       trace s1 ++
       [EvWriteCr3 (cr3 s); EvInveptAll;
        EvVmWrite kCpuBasedVmExecControl (cpu_based_vm_exec_control (vmcs s2));
        EvVmWrite kGuestRflags (guest_rflags (vmcs s2))]) /\
  (forall q,
     checked_build pf = true ->
     g_sbpp_last_breakpoint s1 = Some q ->
     exists s2,
       SbpHandleBreakpoint pf handlers guest_ip s = AssertionFailure s2 /\
       cr3 s2 = cr3 s /\
       ept s2 = <[leaf_of pf i1 := rw_view pf i1 e]> (ept s1) /\
       Z.testbit (cpu_based_vm_exec_control (vmcs s2)) monitor_trap_flag_bit = true /\
       Z.testbit (guest_rflags (vmcs s2)) intf_bit = false /\
       g_sbpp_last_breakpoint s2 = Some q /\
       g_sbpp_breakpoints s2 = g_sbpp_breakpoints s1 /\
       trace s2 =
         trace s1 ++
         [EvWriteCr3 (cr3 s); EvInveptAll;
          EvVmWrite kCpuBasedVmExecControl (cpu_based_vm_exec_control (vmcs s2));
          EvVmWrite kGuestRflags (guest_rflags (vmcs s2))]).
Proof.
  intros Hv Hnd Hfind Htype Hbyte Hirql Hh Hd1 He.
  destruct (SbpHandleBreakpoint_at_dispatch s v guest_ip p i Hv Hnd Hfind Hbyte Hirql)
    as [Hd Hrun].
  rewrite Htype in Hrun.
  rewrite (handler_round_trip p i s s1 _ Hd Hh) in Hrun.
  rewrite step_over_then in Hrun.
  split; [reflexivity|].
  split; [cbn; rewrite <- app_assoc; reflexivity|].
  split; [exact Hrun|].
  rewrite Hrun. split.
  - intros Hfree. apply (step_over_after_handler p i1 e (cr3 s) s1 Hd1 He Hfree).
  - intros q Hc Hq.
    apply (step_over_stops_after_handler p i1 e q (cr3 s) s1 Hd1 He Hc Hq).
Qed.

End Handlers.

(** C1 as stated fails in a checked build: a #BP at the Pre record of
    [demo_entry] that arrives while the last-event slot is occupied meets
    every condition of the claim, and the handler returns, but the store
    stops at the assertion and the function does not return true. *)
Lemma pre_hit_on_occupied_slot_stops_at_the_assertion :
  g_sbpp_last_breakpoint (demo_stepping true) = Some 1 /\
  g_sbpp_breakpoints (demo_stepping true) =
    Some [(1, demo_pre_record); (2, demo_post_record)] /\
  find (at_address demo_entry) [(1, demo_pre_record); (2, demo_post_record)] =
    Some (1, demo_pre_record) /\
  type demo_pre_record = kPre /\
  memory (demo_stepping true)
    (shadow_page_base_for_rw demo_pre_record +
     BYTE_OFFSET (patch_address demo_pre_record)) <> 204 /\
  irql (demo_stepping true) <= DISPATCH_LEVEL /\
  verdict (SbpHandleBreakpoint (demo_platform true)
             (demo_handlers (demo_platform true)) demo_entry
             (demo_stepping true)) = VAssertionFailure /\
  ~ exists s2,
      SbpHandleBreakpoint (demo_platform true)
        (demo_handlers (demo_platform true)) demo_entry (demo_stepping true) =
        Returns true s2.
Proof.
  do 7 (split; [evaluated|]).
  intros (s2 & Hrun). apply (f_equal verdict) in Hrun.
  vm_compute in Hrun. discriminate.
Qed.

Lemma SbpHandleBreakpoint_pre_witness :
  exists s2,
    SbpHandleBreakpoint (demo_platform false) (demo_handlers (demo_platform false))
      demo_entry (demo_started false) = Returns true s2 /\
    cr3 s2 = cr3 (demo_started false) /\
    g_sbpp_last_breakpoint s2 = Some 1.
Proof.
  edestruct (SbpHandleBreakpoint_pre (demo_platform false)
               (demo_handlers (demo_platform false)) (demo_started false))
    with (guest_ip := demo_entry)
    as (_ & _ & _ & Hstored & _).
  - vm_compute. reflexivity.
  - distinct_objects.
  - vm_compute. reflexivity.
  - reflexivity.
  - vm_compute. discriminate.
  - vm_compute. discriminate.
  - apply returns_final_state. vm_compute. reflexivity.
  - eapply deref_run; vm_compute; reflexivity.
  - vm_compute. reflexivity.
  - destruct Hstored as (s2 & Hrun & Hcr3 & _ & _ & _ & Hlast & _);
      [left; reflexivity|].
    exists s2. split; [exact Hrun|]. split; [exact Hcr3 | exact Hlast].
Defined.

Section EptViolation.

Variable pf : Platform.

(** C4 (as amended).  An EPT violation at [fault_va] is ignored, with no
    change of state, when the engine is not initialised or no record's
    address lies on the page of [fault_va]; otherwise the first such
    record's page is switched to the rw shadow and the monitor trap flag
    is armed, and then the record is stored as the last event.  The store
    is guarded by [NT_ASSERT]: with the slot empty, or in a free build,
    the record is stored; with the slot occupied a checked build stops at
    the assertion, after the view switch and the arming, and the slot
    keeps what it held. *)
Theorem SbpHandleEptViolation_steps_over_tracked_page (s : State) (fault_va : Z) :
  (g_sbpp_breakpoints s = None ->
   SbpHandleEptViolation pf fault_va s = Returns tt s) /\
  (forall v,
     g_sbpp_breakpoints s = Some v ->
     find (fun info =>
        PAGE_ALIGN (patch_address info.2) =? PAGE_ALIGN fault_va) v = None ->
     SbpHandleEptViolation pf fault_va s = Returns tt s) /\
  (forall v p i e,
     g_sbpp_breakpoints s = Some v ->
     NoDup (v.*1) ->
     find (fun info =>
        PAGE_ALIGN (patch_address info.2) =? PAGE_ALIGN fault_va) v = Some (p, i) ->
     ept s !! leaf_of pf i = Some e ->
     SbpHandleEptViolation pf fault_va s = step_over pf p s /\
     (slot_free pf s ->
      exists s',
        SbpHandleEptViolation pf fault_va s = Returns tt s' /\
        ept s' = <[leaf_of pf i := rw_view pf i e]> (ept s) /\
        Z.testbit (cpu_based_vm_exec_control (vmcs s')) monitor_trap_flag_bit = true /\
        g_sbpp_previouse_guest_interrupt_flag s' =
          Z.testbit (guest_rflags (vmcs s)) intf_bit /\
        Z.testbit (guest_rflags (vmcs s')) intf_bit = false /\
        g_sbpp_last_breakpoint s' = Some p /\
        g_sbpp_breakpoints s' = g_sbpp_breakpoints s /\
        trace s' =
          trace s ++
          [EvInveptAll;
           EvVmWrite kCpuBasedVmExecControl (cpu_based_vm_exec_control (vmcs s'));
           EvVmWrite kGuestRflags (guest_rflags (vmcs s'))]) /\
     (forall q,
        checked_build pf = true ->
        g_sbpp_last_breakpoint s = Some q ->
        exists s',
          SbpHandleEptViolation pf fault_va s = AssertionFailure s' /\
          ept s' = <[leaf_of pf i := rw_view pf i e]> (ept s) /\
          Z.testbit (cpu_based_vm_exec_control (vmcs s')) monitor_trap_flag_bit = true /\
          g_sbpp_previouse_guest_interrupt_flag s' =
            Z.testbit (guest_rflags (vmcs s)) intf_bit /\
          Z.testbit (guest_rflags (vmcs s')) intf_bit = false /\
          g_sbpp_last_breakpoint s' = Some q /\
          g_sbpp_breakpoints s' = g_sbpp_breakpoints s /\
          trace s' =
            trace s ++
            [EvInveptAll;
             EvVmWrite kCpuBasedVmExecControl (cpu_based_vm_exec_control (vmcs s'));
             EvVmWrite kGuestRflags (guest_rflags (vmcs s'))])).
Proof.
  split; [|split].
  - intros Hv. unfold SbpHandleEptViolation, bind.
    rewrite SbppIsSbpActive_run, Hv. reflexivity.
  - intros v Hv Hfind. unfold SbpHandleEptViolation. unfold bind at 1.
    rewrite SbppIsSbpActive_run, Hv. cbn [negb]. unfold bind at 1.
    rewrite (SbppFindPatchInfoByPage_run pf s v fault_va Hv), Hfind.
    reflexivity.
  - intros v p i e Hv Hnd Hfind He.
    assert (Hrun : SbpHandleEptViolation pf fault_va s = step_over pf p s).
    { unfold SbpHandleEptViolation. unfold bind at 1.
      rewrite SbppIsSbpActive_run, Hv. cbn [negb]. unfold bind at 1.
      rewrite (SbppFindPatchInfoByPage_run pf s v fault_va Hv), Hfind.
      reflexivity. }
    split; [exact Hrun|]. rewrite Hrun. split.
    + intros Hfree.
      destruct (step_over_run pf p i e s (deref_found s v _ p i Hv Hnd Hfind) He Hfree)
        as (s' & Hs' & Hept & Hmtf & Hsaved & Hif & Hlast & Hbp & _ & _ & Htrace).
      exists s'. repeat split; assumption.
    + intros q Hc Hq.
      destruct (step_over_stops pf p i e q s (deref_found s v _ p i Hv Hnd Hfind)
                  He Hc Hq)
        as (s' & Hs' & Hept & Hmtf & Hsaved & Hif & Hlast & Hbp & _ & _ & Htrace).
      exists s'. repeat split; assumption.
Qed.

End EptViolation.

(** C4 as stated fails in a checked build: while the engine is stepping
    over the breakpoint at [demo_entry], a read of the page of
    [demo_return] raises an EPT violation on a page with a record; the
    page is switched and the flag armed, but the store into the occupied
    slot stops at the assertion, and the slot does not hold the record
    found. *)
Lemma nested_violation_stops_at_the_assertion :
  g_sbpp_last_breakpoint (demo_stepping true) = Some 1 /\
  g_sbpp_breakpoints (demo_stepping true) =
    Some [(1, demo_pre_record); (2, demo_post_record)] /\
  find (on_page_of demo_return) [(1, demo_pre_record); (2, demo_post_record)] =
    Some (2, demo_post_record) /\
  verdict (SbpHandleEptViolation (demo_platform true) demo_return
             (demo_stepping true)) = VAssertionFailure /\
  g_sbpp_last_breakpoint
    (final_state (SbpHandleEptViolation (demo_platform true) demo_return
                    (demo_stepping true))) = Some 1 /\
  ~ exists s',
      SbpHandleEptViolation (demo_platform true) demo_return (demo_stepping true) =
        Returns tt s' /\
      g_sbpp_last_breakpoint s' = Some 2.
Proof.
  do 5 (split; [evaluated|]).
  intros (s' & Hrun & _). apply (f_equal verdict) in Hrun.
  vm_compute in Hrun. discriminate.
Qed.

Lemma SbpHandleEptViolation_steps_over_tracked_page_witness :
  exists s',
    SbpHandleEptViolation (demo_platform true) (demo_entry + 100)
      (demo_armed true) = Returns tt s' /\
    g_sbpp_last_breakpoint s' = Some 1 /\
    Z.testbit (guest_rflags (vmcs s')) intf_bit = false.
Proof.
  destruct (SbpHandleEptViolation_steps_over_tracked_page (demo_platform true)
              (demo_armed true) (demo_entry + 100)) as (_ & _ & H).
  edestruct H as (_ & Hstored & _).
  - vm_compute. reflexivity.
  - distinct_objects.
  - vm_compute. reflexivity.
  - vm_compute. reflexivity.
  - destruct Hstored as (s' & Hrun & _ & _ & _ & Hif & Hlast & _);
      [right; vm_compute; reflexivity|].
    exists s'. split; [exact Hrun|]. split; [exact Hlast | exact Hif].
Defined.

Section PostBreakpoints.

Variable pf : Platform.
Variable handlers : Z -> Z -> Z -> Vmm unit.

Lemma same_but_pages_fields s s' :
  same_but_pages s s' ->
  g_sbpp_breakpoints s' = g_sbpp_breakpoints s /\
  g_sbpp_last_breakpoint s' = g_sbpp_last_breakpoint s /\
  ept s' = ept s /\ vmcs s' = vmcs s /\ cr3 s' = cr3 s /\
  memory s' = memory s /\ trace s' = trace s.
Proof.
  intros H.
  split; [exact (f_equal g_sbpp_breakpoints H)|].
  split; [exact (f_equal g_sbpp_last_breakpoint H)|].
  split; [exact (f_equal ept H)|].
  split; [exact (f_equal vmcs H)|].
  split; [exact (f_equal cr3 H)|].
  split; [exact (f_equal memory H) | exact (f_equal trace H)].
Qed.

(** A Post record hit by a thread that does not own it: the handler is
    not called and the record stays; the instruction is stepped over. *)
Lemma SbpHandleBreakpoint_post_other_thread s v guest_ip p i e :
  g_sbpp_breakpoints s = Some v ->
  NoDup (v.*1) ->
  find (fun info => patch_address info.2 =? guest_ip) v = Some (p, i) ->
  type i = kPost ->
  memory s (shadow_page_base_for_rw i + BYTE_OFFSET (patch_address i)) <> 204 ->
  irql s <= DISPATCH_LEVEL ->
  target_tid i <> current_thread_id s ->
  ept s !! leaf_of pf i = Some e ->
  slot_free pf s ->
  SbpHandleBreakpoint pf handlers guest_ip s = (step_over pf p ;; ret true) s /\
  exists s2,
    SbpHandleBreakpoint pf handlers guest_ip s = Returns true s2 /\
    g_sbpp_breakpoints s2 = Some v /\
    ept s2 = <[leaf_of pf i := rw_view pf i e]> (ept s) /\
    Z.testbit (cpu_based_vm_exec_control (vmcs s2)) monitor_trap_flag_bit = true /\
    g_sbpp_last_breakpoint s2 = Some p /\
    trace s2 =
      trace s ++
      [EvInveptAll;
       EvVmWrite kCpuBasedVmExecControl (cpu_based_vm_exec_control (vmcs s2));
       EvVmWrite kGuestRflags (guest_rflags (vmcs s2))].
Proof.
  intros Hv Hnd Hfind Htype Hbyte Hirql Htid He Hfree.
  destruct (SbpHandleBreakpoint_at_dispatch pf handlers s v guest_ip p i
              Hv Hnd Hfind Hbyte Hirql) as [Hd Hrun].
  rewrite Htype in Hrun. apply Z.eqb_neq in Htid. rewrite Htid in Hrun.
  rewrite step_over_then in Hrun.
  split; [exact Hrun|]. rewrite Hrun.
  destruct (step_over_run pf p i e s Hd He Hfree)
    as (s2 & Hs2 & Hept & Hmtf & _ & _ & Hlast & Hbp & _ & _ & Htrace).
  exists s2. erewrite bind_returns by exact Hs2.
  split; [reflexivity|]. split; [congruence|].
  repeat split; assumption.
Qed.

(** A Post record hit by its owner: what the handler leaves behind is
    [s1]; the first record with the key of the one at [p] is erased and
    the page is looked up again. *)
Lemma SbpHandleBreakpoint_post_owner s v guest_ip p i s1 v1 i1 erased rest :
  g_sbpp_breakpoints s = Some v ->
  NoDup (v.*1) ->
  find (fun info => patch_address info.2 =? guest_ip) v = Some (p, i) ->
  type i = kPost ->
  memory s (shadow_page_base_for_rw i + BYTE_OFFSET (patch_address i)) <> 204 ->
  irql s <= DISPATCH_LEVEL ->
  target_tid i = current_thread_id s ->
  handlers (handler i) p (guest_rsp (vmcs s)) (enter_handler p i s) =
    Returns tt s1 ->
  g_sbpp_breakpoints s1 = Some v1 ->
  deref p s1 = Returns i1 s1 ->
  erase_first (same_key i1) v1 = Some (erased, rest) ->
  exists s2,
    same_but_pages (set_breakpoints (Some rest) (leave_handler (cr3 s) s1)) s2 /\
    SbpHandleBreakpoint pf handlers guest_ip s =
    match find (fun info =>
            PAGE_ALIGN (patch_address info.2) =? PAGE_ALIGN guest_ip) rest with
    | Some _ => Returns true s2
    | None => ((let* i := deref p in SbppDisablePageShadowing pf i) ;; ret true) s2
    end.
Proof.
  intros Hv Hnd Hfind Htype Hbyte Hirql Htid Hh Hv1 Hd1 Herase.
  destruct (SbpHandleBreakpoint_at_dispatch pf handlers s v guest_ip p i
              Hv Hnd Hfind Hbyte Hirql) as [Hd Hrun].
  rewrite Htype in Hrun. apply Z.eqb_eq in Htid. rewrite Htid in Hrun.
  rewrite (handler_round_trip handlers p i s s1 _ Hd Hh) in Hrun.
  pose proof (SbppDeleteBreakpointFromList_run pf (leave_handler (cr3 s) s1) v1 i1 Hv1)
    as Hdel.
  rewrite Herase in Hdel. destruct Hdel as (s2 & Hdel & Hsame).
  exists s2. split; [exact Hsame|]. rewrite Hrun.
  erewrite bind_returns.
  2:{ erewrite bind_returns; [exact Hdel|].
      eapply deref_frame; [|exact Hd1]. reflexivity. }
  destruct (same_but_pages_fields _ _ Hsame) as (Hbp & _).
  erewrite bind_returns by (apply (SbppFindPatchInfoByPage_run pf s2 rest); exact Hbp).
  destruct (find _ rest) as [[q j]|]; reflexivity.
Qed.

End PostBreakpoints.

Section NotOurs.

Variable pf : Platform.
Variable handlers : Z -> Z -> Z -> Vmm unit.

Lemma returns_only_ret {A} (P : A -> Prop) (a : A) :
  P a -> returns_only P (ret a).
Proof. intros H s b s' Hr. injection Hr as <- _. exact H. Qed.

Lemma returns_only_bind {A B} (P : B -> Prop) (m : Vmm A) (k : A -> Vmm B) :
  (forall a, returns_only P (k a)) -> returns_only P (bind m k).
Proof.
  intros H s b s' Hr. unfold bind in Hr.
  destruct (m s) as [a s0| | |]; try discriminate.
  exact (H a s0 b s' Hr).
Qed.

Ltac returns_true :=
  repeat first
    [ apply returns_only_ret; reflexivity
    | apply returns_only_bind; intros ?
    | match goal with
      | |- returns_only _ (match ?x with _ => _ end) => destruct x
      end ].

Lemma not_ours_dec s guest_ip : not_ours s guest_ip \/ ~ not_ours s guest_ip.
Proof.
  unfold not_ours. destruct (g_sbpp_breakpoints s) as [v|]; [|left; exact I].
  destruct (find _ v) as [[p i]|]; [|left; exact I].
  destruct (Z.eq_dec
              (memory s (shadow_page_base_for_rw i + BYTE_OFFSET (patch_address i)))
              204); [left|right]; assumption.
Qed.

Lemma SbpHandleBreakpoint_not_ours_run s guest_ip :
  (forall v, g_sbpp_breakpoints s = Some v -> NoDup (v.*1)) ->
  not_ours s guest_ip ->
  SbpHandleBreakpoint pf handlers guest_ip s = Returns false s.
Proof.
  intros Hnd H. unfold not_ours in H. unfold SbpHandleBreakpoint.
  unfold bind at 1. rewrite SbppIsSbpActive_run.
  destruct (g_sbpp_breakpoints s) as [v|] eqn:Hv; [|reflexivity].
  cbn [negb]. unfold bind at 1.
  rewrite (SbppFindPatchInfoByAddress_run pf s v guest_ip Hv).
  destruct (find _ v) as [[p i]|] eqn:Hfind; [|reflexivity].
  cbn [fmap option_fmap option_map fst]. unfold bind at 1.
  rewrite (deref_found s v _ p i Hv (Hnd v eq_refl) Hfind). unfold bind at 1.
  unfold SbppIsShadowBreakpoint, get.
  apply Z.eqb_eq in H. rewrite H. reflexivity.
Qed.

Lemma SbpHandleBreakpoint_ours_returns_true s guest_ip b s' :
  (forall v, g_sbpp_breakpoints s = Some v -> NoDup (v.*1)) ->
  ~ not_ours s guest_ip ->
  SbpHandleBreakpoint pf handlers guest_ip s = Returns b s' -> b = true.
Proof.
  intros Hnd H. unfold not_ours in H.
  destruct (g_sbpp_breakpoints s) as [v|] eqn:Hv; [|tauto].
  destruct (find _ v) as [[p i]|] eqn:Hfind; [|tauto].
  rewrite (SbpHandleBreakpoint_tracked pf handlers s v guest_ip p i
             Hv (Hnd v eq_refl) Hfind H).
  intros Hr.
  match type of Hr with
  | ?m s = _ =>
      assert (Hall : returns_only (fun b => b = true) m) by returns_true;
      exact (Hall _ _ _ Hr)
  end.
Qed.

End NotOurs.

Section BreakpointClaims.

Variable pf : Platform.
Variable handlers : Z -> Z -> Z -> Vmm unit.

(** A Post record hit by its owner while another record remains on the
    page: the handler has run under the guest's CR3, the record is gone
    and the EPT is as the handler left it. *)
Lemma SbpHandleBreakpoint_post_owner_shared_page
    s v guest_ip p i s1 v1 i1 erased rest q :
  g_sbpp_breakpoints s = Some v ->
  NoDup (v.*1) ->
  find (fun info => patch_address info.2 =? guest_ip) v = Some (p, i) ->
  type i = kPost ->
  memory s (shadow_page_base_for_rw i + BYTE_OFFSET (patch_address i)) <> 204 ->
  irql s <= DISPATCH_LEVEL ->
  target_tid i = current_thread_id s ->
  handlers (handler i) p (guest_rsp (vmcs s)) (enter_handler p i s) =
    Returns tt s1 ->
  g_sbpp_breakpoints s1 = Some v1 ->
  deref p s1 = Returns i1 s1 ->
  erase_first (same_key i1) v1 = Some (erased, rest) ->
  find (fun info =>
     PAGE_ALIGN (patch_address info.2) =? PAGE_ALIGN guest_ip) rest = Some q ->
  exists s2,
    SbpHandleBreakpoint pf handlers guest_ip s = Returns true s2 /\
    g_sbpp_breakpoints s2 = Some rest /\
    ept s2 = ept s1 /\
    cr3 s2 = cr3 s /\
    trace s2 = trace s1 ++ [EvWriteCr3 (cr3 s)].
Proof.
  intros Hv Hnd Hfind Htype Hbyte Hirql Htid Hh Hv1 Hd1 Herase Hother.
  destruct (SbpHandleBreakpoint_post_owner pf handlers s v guest_ip p i s1 v1 i1
              erased rest Hv Hnd Hfind Htype Hbyte Hirql Htid Hh Hv1 Hd1 Herase)
    as (s2 & Hsame & Hrun).
  rewrite Hother in Hrun. exists s2. split; [exact Hrun|].
  destruct (same_but_pages_fields _ _ Hsame) as (Hbp & _ & Hept & _ & Hcr3 & _ & Htr).
  repeat split; assumption.
Qed.

(** The same hit when the erased record was the object at [p] and the
    last one on its page: the object is read after its owner destroyed
    it, with the page still in the view the handler left. *)
Lemma SbpHandleBreakpoint_post_owner_last_record
    s v guest_ip p i s1 v1 i1 rest :
  g_sbpp_breakpoints s = Some v ->
  NoDup (v.*1) ->
  find (fun info => patch_address info.2 =? guest_ip) v = Some (p, i) ->
  type i = kPost ->
  memory s (shadow_page_base_for_rw i + BYTE_OFFSET (patch_address i)) <> 204 ->
  irql s <= DISPATCH_LEVEL ->
  target_tid i = current_thread_id s ->
  handlers (handler i) p (guest_rsp (vmcs s)) (enter_handler p i s) =
    Returns tt s1 ->
  g_sbpp_breakpoints s1 = Some v1 ->
  NoDup (v1.*1) ->
  deref p s1 = Returns i1 s1 ->
  erase_first (same_key i1) v1 = Some ((p, i1), rest) ->
  find (fun info =>
     PAGE_ALIGN (patch_address info.2) =? PAGE_ALIGN guest_ip) rest = None ->
  exists s2,
    SbpHandleBreakpoint pf handlers guest_ip s = Undefined UseAfterFree s2 /\
    g_sbpp_breakpoints s2 = Some rest /\
    ept s2 = ept s1.
Proof.
  intros Hv Hnd Hfind Htype Hbyte Hirql Htid Hh Hv1 Hnd1 Hd1 Herase Hother.
  destruct (SbpHandleBreakpoint_post_owner pf handlers s v guest_ip p i s1 v1 i1
              (p, i1) rest Hv Hnd Hfind Htype Hbyte Hirql Htid Hh Hv1 Hd1 Herase)
    as (s2 & Hsame & Hrun).
  rewrite Hother in Hrun. exists s2.
  destruct (same_but_pages_fields _ _ Hsame) as (Hbp & _ & Hept & _).
  split; [|split; assumption].
  rewrite Hrun. unfold bind.
  rewrite (deref_dangling s2 rest p Hbp); [reflexivity|].
  destruct (erase_first_some _ _ _ _ Herase) as (before & after & -> & -> & _ & _).
  rewrite fmap_app, fmap_cons in Hnd1. cbn [fst] in Hnd1.
  apply NoDup_app in Hnd1 as (_ & Hdisj & Hafter).
  apply NoDup_cons in Hafter as [Hnotin _].
  destruct (find (fun e => e.1 =? p) (before ++ after)) as [[q j]|] eqn:Hq;
    [|reflexivity].
  exfalso. apply find_some in Hq as [Hin Heq]. cbn in Heq.
  apply Z.eqb_eq in Heq. subst q.
  apply in_app_or in Hin as [Hin|Hin]; apply list_elem_of_In in Hin;
    apply (list_elem_of_fmap_2 fst) in Hin; cbn in Hin.
  - apply (Hdisj p Hin). left.
  - exact (Hnotin Hin).
Qed.

End BreakpointClaims.

Section NotOursClaim.

Variable pf : Platform.
Variable handlers : Z -> Z -> Z -> Vmm unit.

(** C3 (as amended).  [SbpHandleBreakpoint] returns false, leaving the
    state as it was, when the engine is not initialised, when no record's
    address equals the guest instruction pointer, or when the rw shadow of
    the record found holds 0xCC at the offset of the address; when it
    returns at all, it returns false in these cases only.  On every other
    hit at IRQL at most dispatch level it returns true provided the
    handler returns, the record's leaf is mapped and the assertion on the
    last-event slot holds: for a Pre record, for a Post record hit by
    another thread, and for a Post record hit by its owner while another
    record remains on the page. *)
Theorem SbpHandleBreakpoint_false_exactly_when_not_ours (s : State) (guest_ip : Z) :
  (forall v, g_sbpp_breakpoints s = Some v -> NoDup (v.*1)) ->
  (not_ours s guest_ip ->
   SbpHandleBreakpoint pf handlers guest_ip s = Returns false s) /\
  (forall b s',
     SbpHandleBreakpoint pf handlers guest_ip s = Returns b s' ->
     (b = false <-> not_ours s guest_ip)) /\
  (forall v p i,
     g_sbpp_breakpoints s = Some v ->
     find (fun info => patch_address info.2 =? guest_ip) v = Some (p, i) ->
     memory s (shadow_page_base_for_rw i + BYTE_OFFSET (patch_address i)) <> 204 ->
     irql s <= DISPATCH_LEVEL ->
     (type i = kPre ->
      forall s1 i1 e,
        handlers (handler i) p (guest_rsp (vmcs s)) (enter_handler p i s) =
          Returns tt s1 ->
        deref p s1 = Returns i1 s1 ->
        ept s1 !! leaf_of pf i1 = Some e ->
        slot_free pf s1 ->
        exists s2, SbpHandleBreakpoint pf handlers guest_ip s = Returns true s2) /\
     (type i = kPost ->
      target_tid i <> current_thread_id s ->
      forall e,
        ept s !! leaf_of pf i = Some e ->
        slot_free pf s ->
        exists s2, SbpHandleBreakpoint pf handlers guest_ip s = Returns true s2) /\
     (type i = kPost ->
      target_tid i = current_thread_id s ->
      forall s1 v1 i1 erased rest q,
        handlers (handler i) p (guest_rsp (vmcs s)) (enter_handler p i s) =
          Returns tt s1 ->
        g_sbpp_breakpoints s1 = Some v1 ->
        deref p s1 = Returns i1 s1 ->
        erase_first (same_key i1) v1 = Some (erased, rest) ->
        find (fun info =>
           PAGE_ALIGN (patch_address info.2) =? PAGE_ALIGN guest_ip) rest = Some q ->
        exists s2, SbpHandleBreakpoint pf handlers guest_ip s = Returns true s2)).
Proof.
  intros Hnd. split; [|split].
  - apply SbpHandleBreakpoint_not_ours_run. exact Hnd.
  - intros b s' Hrun. destruct (not_ours_dec s guest_ip) as [Hno|Hours].
    + rewrite (SbpHandleBreakpoint_not_ours_run pf handlers s guest_ip Hnd Hno) in Hrun.
      injection Hrun as <- _. tauto.
    + rewrite (SbpHandleBreakpoint_ours_returns_true pf handlers s guest_ip b s'
                 Hnd Hours Hrun).
      split; [discriminate | tauto].
  - intros v p i Hv Hfind Hbyte Hirql. split; [|split].
    + intros Htype s1 i1 e Hh Hd1 He Hfree.
      destruct (SbpHandleBreakpoint_at_dispatch pf handlers s v guest_ip p i
                  Hv (Hnd v Hv) Hfind Hbyte Hirql) as [Hd Hrun].
      rewrite Htype in Hrun.
      rewrite (handler_round_trip handlers p i s s1 _ Hd Hh) in Hrun.
      rewrite step_over_then in Hrun. rewrite Hrun.
      destruct (step_over_after_handler pf p i1 e (cr3 s) s1 Hd1 He Hfree)
        as (s2 & Hs2 & _).
      exists s2. exact Hs2.
    + intros Htype Htid e He Hfree.
      destruct (SbpHandleBreakpoint_post_other_thread pf handlers s v guest_ip p i e
                  Hv (Hnd v Hv) Hfind Htype Hbyte Hirql Htid He Hfree)
        as (_ & s2 & Hs2 & _).
      exists s2. exact Hs2.
    + intros Htype Htid s1 v1 i1 erased rest q Hh Hv1 Hd1 Herase Hother.
      destruct (SbpHandleBreakpoint_post_owner_shared_page pf handlers s v guest_ip
                  p i s1 v1 i1 erased rest q
                  Hv (Hnd v Hv) Hfind Htype Hbyte Hirql Htid Hh Hv1 Hd1 Herase Hother)
        as (s2 & Hs2 & _).
      exists s2. exact Hs2.
Qed.

End NotOursClaim.

(** C3 as stated fails.  A tracked hit at passive level whose rw-shadow
    byte is not 0xCC does not return when the last-event slot is occupied
    in a checked build (a second hit at [demo_entry] while the first is
    being stepped over), nor when the pre-handler arms its Post record and
    no shadow page can be allocated. *)
Lemma tracked_hit_need_not_return :
  (~ not_ours (demo_stepping true) demo_entry /\
   irql (demo_stepping true) <= DISPATCH_LEVEL /\
   verdict (SbpHandleBreakpoint (demo_platform true)
              (demo_handlers (demo_platform true)) demo_entry
              (demo_stepping true)) = VAssertionFailure) /\
  (~ not_ours (set_pool [] (demo_started false)) demo_entry /\
   irql (set_pool [] (demo_started false)) <= DISPATCH_LEVEL /\
   verdict (SbpHandleBreakpoint (demo_platform false)
              (demo_handlers (demo_platform false)) demo_entry
              (set_pool [] (demo_started false))) =
     VBugCheck kCritialPoolAllocationFailure).
Proof.
  repeat (match goal with |- _ /\ _ => split end); evaluated.
Qed.

Lemma SbpHandleBreakpoint_false_exactly_when_not_ours_witness :
  SbpHandleBreakpoint (demo_platform false) (demo_handlers (demo_platform false))
    (demo_entry + 1) (demo_armed false) = Returns false (demo_armed false) /\
  exists s2,
    SbpHandleBreakpoint (demo_platform false) (demo_handlers (demo_platform false))
      demo_return (set_current_thread_id 8 (demo_armed false)) = Returns true s2.
Proof.
  split.
  - destruct (SbpHandleBreakpoint_false_exactly_when_not_ours (demo_platform false)
                (demo_handlers (demo_platform false)) (demo_armed false)
                (demo_entry + 1)) as (H & _).
    + intros v Hv. vm_compute in Hv. injection Hv as <-. distinct_objects.
    + refine (H _). vm_compute. exact I.
  - destruct (SbpHandleBreakpoint_false_exactly_when_not_ours (demo_platform false)
                (demo_handlers (demo_platform false))
                (set_current_thread_id 8 (demo_armed false)) demo_return)
      as (_ & _ & H).
    + intros v Hv. vm_compute in Hv. injection Hv as <-. distinct_objects.
    + edestruct H as (_ & Hother & _).
      * vm_compute. reflexivity.
      * vm_compute. reflexivity.
      * vm_compute. discriminate.
      * vm_compute. discriminate.
      * eapply Hother.
        -- reflexivity.
        -- vm_compute. discriminate.
        -- vm_compute. reflexivity.
        -- left. reflexivity.
Defined.

(** C2, at the input on which the code breaks it.  Thread 4 returns to
    [demo_return], where its Post record is the only record of the page:
    the post-handler runs under the guest's CR3 and the record is erased,
    but the engine then reads the erased object to restore the identity
    mapping; the page is still in the exec view. *)
Theorem post_breakpoint_last_record_use_after_free :
  g_sbpp_breakpoints (demo_armed false) =
    Some [(1, demo_pre_record); (2, demo_post_record)] /\
  current_thread_id (demo_armed false) = target_tid demo_post_record /\
  verdict (SbpHandleBreakpoint (demo_platform false)
             (demo_handlers (demo_platform false)) demo_return
             (demo_armed false)) = VUndefined UseAfterFree /\
  g_sbpp_breakpoints
    (final_state (SbpHandleBreakpoint (demo_platform false)
                    (demo_handlers (demo_platform false)) demo_return
                    (demo_armed false))) = Some [(1, demo_pre_record)] /\
  ept (final_state (SbpHandleBreakpoint (demo_platform false)
                      (demo_handlers (demo_platform false)) demo_return
                      (demo_armed false)))
    !! leaf_of_page (demo_platform false) demo_post_record =
    Some {| read_access := false; write_access := false;
            execute_access := true; physial_address := 387 |} /\
  trace (final_state (SbpHandleBreakpoint (demo_platform false)
                        (demo_handlers (demo_platform false)) demo_return
                        (demo_armed false))) =
    trace (demo_armed false) ++
    [EvWriteCr3 (guest_cr3 (vmcs (demo_armed false)));
     EvHandler 2 2 (guest_rsp (vmcs (demo_armed false)));
     EvWriteCr3 (cr3 (demo_armed false))].
Proof.
  repeat (match goal with |- _ /\ _ => split end); evaluated.
Qed.

(** ** Creating a breakpoint: the trap byte and the pristine byte *)

Section Creation.

Variable pf : Platform.

Lemma BYTE_OFFSET_range a : 0 <= BYTE_OFFSET a < PAGE_SIZE.
Proof.
  unfold BYTE_OFFSET, PAGE_SIZE. change (4096 - 1) with (Z.ones 12).
  rewrite Z.land_ones by lia. change (2 ^ 12) with 4096.
  apply Z.mod_pos_bound. lia.
Qed.

Lemma PAGE_ALIGN_BYTE_OFFSET a : PAGE_ALIGN a + BYTE_OFFSET a = a.
Proof.
  unfold PAGE_ALIGN, BYTE_OFFSET, PAGE_SIZE. change (4096 - 1) with (Z.ones 12).
  rewrite Z.land_ones, Z.ldiff_ones_r by lia.
  rewrite Z.shiftl_mul_pow2, Z.shiftr_div_pow2 by lia.
  change (2 ^ 12) with 4096.
  pose proof (Z.div_mod a 4096). lia.
Qed.

Lemma make_shared_Page_run s page rest :
  pool s = page :: rest ->
  make_shared_Page s =
  Returns page
    (set_page_use_count (<[page := 1%nat]> (page_use_count s)) (set_pool rest s)).
Proof.
  intros H. unfold make_shared_Page, bind, Page_ctor. rewrite H. reflexivity.
Qed.

Lemma SbppCreateBreakpoint_fresh_run s v address rw exec rest :
  g_sbpp_breakpoints s = Some v ->
  find (on_page_of address) v = None ->
  pool s = rw :: exec :: rest ->
  exists s',
    SbppCreateBreakpoint pf address s =
      Returns (next_object s, created_record pf address rw exec) s' /\
    memory s' =
      write_byte (exec + BYTE_OFFSET address) 204
        (copy_bytes exec (PAGE_ALIGN address) PAGE_SIZE
           (copy_bytes rw (PAGE_ALIGN address) PAGE_SIZE (memory s))) /\
    pool s' = rest /\
    next_object s' = next_object s + 1 /\
    g_sbpp_breakpoints s' = Some v /\
    ept s' = ept s /\
    trace s' = trace s ++ [EvInvalidateAllCaches].
Proof.
  intros Hv Hfind Hpool. unfold SbppCreateBreakpoint.
  erewrite bind_returns by reflexivity.
  erewrite bind_returns by (apply (SbppFindPatchInfoByPage_run pf _ v); exact Hv).
  change (find _ v) with (find (on_page_of address) v). rewrite Hfind.
  cbn [fmap option_fmap option_map].
  erewrite bind_returns.
  2:{ erewrite bind_returns by (apply make_shared_Page_run; exact Hpool).
      erewrite bind_returns by (apply make_shared_Page_run; reflexivity).
      erewrite bind_returns by reflexivity.
      erewrite bind_returns by reflexivity.
      reflexivity. }
  erewrite bind_returns by reflexivity.
  eexists. split; [reflexivity|]. cbn. repeat split; first [reflexivity | exact Hv].
Qed.

Lemma SbppCreateBreakpoint_reuse_run s v address r reusable :
  g_sbpp_breakpoints s = Some v ->
  NoDup (v.*1) ->
  find (on_page_of address) v = Some (r, reusable) ->
  exists s',
    SbppCreateBreakpoint pf address s =
      Returns (next_object s,
               created_record pf address (shadow_page_base_for_rw reusable)
                 (shadow_page_base_for_exec reusable)) s' /\
    memory s' =
      write_byte (shadow_page_base_for_exec reusable + BYTE_OFFSET address) 204
        (memory s) /\
    pool s' = pool s /\
    next_object s' = next_object s + 1 /\
    g_sbpp_breakpoints s' = Some v /\
    ept s' = ept s /\
    trace s' = trace s ++ [EvInvalidateAllCaches].
Proof.
  intros Hv Hnd Hfind. unfold SbppCreateBreakpoint.
  erewrite bind_returns by reflexivity.
  erewrite bind_returns by (apply (SbppFindPatchInfoByPage_run pf _ v); exact Hv).
  change (find _ v) with (find (on_page_of address) v). rewrite Hfind.
  cbn [fmap option_fmap option_map fst].
  erewrite bind_returns.
  2:{ erewrite bind_returns
        by (apply (deref_found _ v (on_page_of address) r reusable);
            [exact Hv | exact Hnd | exact Hfind]).
      erewrite bind_returns by reflexivity.
      erewrite bind_returns by reflexivity.
      reflexivity. }
  erewrite bind_returns by reflexivity.
  eexists. split; [reflexivity|]. cbn. repeat split; first [reflexivity | exact Hv].
Qed.

End Creation.

Section CreationClaim.

Variable pf : Platform.

Ltac memory_cases :=
  unfold write_byte, copy_bytes, apart, PAGE_SIZE in *;
  repeat match goal with
         | |- context [?a =? ?b] => destruct (Z.eqb_spec a b)
         | |- context [?a <=? ?b] => destruct (Z.leb_spec a b)
         | |- context [?a <? ?b] => destruct (Z.ltb_spec a b)
         end;
  cbn [andb]; try lia; try reflexivity; try (f_equal; lia).

Lemma fresh_pair_contents (m : Z -> Z) (base rw exec o off : Z) :
  apart rw exec -> apart base rw ->
  0 <= o < PAGE_SIZE -> 0 <= off < PAGE_SIZE ->
  let m' := write_byte (exec + o) 204
              (copy_bytes exec base PAGE_SIZE (copy_bytes rw base PAGE_SIZE m)) in
  m' (rw + off) = m (base + off) /\
  m' (exec + off) = if off =? o then 204 else m (base + off).
Proof.
  intros Hpair Hguest Ho Hoff m'. subst m'. split; memory_cases.
Qed.

(** C5.  The record [SbppCreateBreakpoint] returns for [address] has 0xCC
    at the offset of [address] in its exec shadow and the guest's code byte
    at that offset in its rw shadow.  For the first record of a page both
    shadows are taken from the pool and receive the contents of the guest
    page, and the exec shadow then differs from it in the trap byte only.
    A later record of the page takes the pair of the first one; creation
    writes the trap byte into the exec shadow and nothing else, so the rw
    shadow holds the code byte wherever it held it before. *)
Theorem SbppCreateBreakpoint_trap_and_pristine_byte (s : State)
    (v : list (Z * PatchInformation)) (address : Z) :
  g_sbpp_breakpoints s = Some v ->
  NoDup (v.*1) ->
  match find (on_page_of address) v with
  | Some (r, reusable) =>
      shadow_page_base_for_rw reusable <> shadow_page_base_for_exec reusable /\
      memory s (shadow_page_base_for_rw reusable + BYTE_OFFSET address) =
        memory s address
  | None =>
      exists rw exec rest,
        pool s = rw :: exec :: rest /\ apart rw exec /\
        apart (PAGE_ALIGN address) rw
  end ->
  exists p info s',
    SbppCreateBreakpoint pf address s = Returns (p, info) s' /\
    patch_address info = address /\
    memory s' (shadow_page_base_for_exec info + BYTE_OFFSET address) = 204 /\
    memory s' (shadow_page_base_for_rw info + BYTE_OFFSET address) =
      memory s address /\
    match find (on_page_of address) v with
    | Some (r, reusable) =>
        shadow_page_base_for_rw info = shadow_page_base_for_rw reusable /\
        shadow_page_base_for_exec info = shadow_page_base_for_exec reusable /\
        pool s' = pool s /\
        forall a,
          a <> shadow_page_base_for_exec info + BYTE_OFFSET address ->
          memory s' a = memory s a
    | None =>
        pool s =
          shadow_page_base_for_rw info :: shadow_page_base_for_exec info :: pool s' /\
        forall off,
          0 <= off < PAGE_SIZE ->
          memory s' (shadow_page_base_for_rw info + off) =
            memory s (PAGE_ALIGN address + off) /\
          memory s' (shadow_page_base_for_exec info + off) =
            if off =? BYTE_OFFSET address then 204
            else memory s (PAGE_ALIGN address + off)
    end.
Proof.
  intros Hv Hnd Hpre.
  pose proof (BYTE_OFFSET_range address) as Ho.
  pose proof (PAGE_ALIGN_BYTE_OFFSET address) as Hsplit.
  destruct (find (on_page_of address) v) as [[r reusable]|] eqn:Hfind.
  - destruct Hpre as [Hne Hbyte].
    destruct (SbppCreateBreakpoint_reuse_run pf s v address r reusable Hv Hnd Hfind)
      as (s' & Hrun & Hmem & Hpool & _).
    eexists (next_object s), _, s'. split; [exact Hrun|]. cbn.
    split; [reflexivity|]. rewrite Hmem.
    split; [memory_cases|].
    split; [rewrite <- Hbyte; memory_cases|].
    repeat split; try assumption.
    intros a Ha. memory_cases.
  - destruct Hpre as (rw & exec & rest & Hpool & Hpair & Hguest).
    destruct (SbppCreateBreakpoint_fresh_run pf s v address rw exec rest Hv Hfind Hpool)
      as (s' & Hrun & Hmem & Hrest & _).
    eexists (next_object s), _, s'. split; [exact Hrun|]. cbn.
    split; [reflexivity|]. rewrite Hmem, Hrest.
    pose proof (fresh_pair_contents (memory s) (PAGE_ALIGN address) rw exec
                  (BYTE_OFFSET address) (BYTE_OFFSET address) Hpair Hguest Ho Ho)
      as [Hrw _].
    cbv zeta in Hrw.
    split; [memory_cases|].
    split; [rewrite Hrw, Hsplit; reflexivity|].
    split; [exact Hpool|].
    intros off Hoff.
    exact (fresh_pair_contents (memory s) (PAGE_ALIGN address) rw exec
             (BYTE_OFFSET address) off Hpair Hguest Ho Hoff).
Qed.

End CreationClaim.

Lemma SbppCreateBreakpoint_trap_and_pristine_byte_witness :
  (exists p info s',
     SbppCreateBreakpoint (demo_platform false) (demo_entry + 8)
       (demo_installed false) = Returns (p, info) s' /\
     memory s' (shadow_page_base_for_exec info + BYTE_OFFSET (demo_entry + 8)) = 204 /\
     memory s' (shadow_page_base_for_rw info + BYTE_OFFSET (demo_entry + 8)) =
       memory (demo_installed false) (demo_entry + 8)) /\
  (exists p info s',
     SbppCreateBreakpoint (demo_platform false) demo_return
       (demo_installed false) = Returns (p, info) s' /\
     memory s' (shadow_page_base_for_exec info + BYTE_OFFSET demo_return) = 204 /\
     memory s' (shadow_page_base_for_rw info + BYTE_OFFSET demo_return) =
       memory (demo_installed false) demo_return).
Proof.
  split.
  - edestruct (SbppCreateBreakpoint_trap_and_pristine_byte (demo_platform false)
                 (demo_installed false)) with (address := demo_entry + 8)
      as (p & info & s' & Hrun & _ & Hexec & Hrw & _).
    + vm_compute. reflexivity.
    + distinct_objects.
    + vm_compute. split; [discriminate | reflexivity].
    + exists p, info, s'. split; [exact Hrun|]. split; [exact Hexec | exact Hrw].
  - edestruct (SbppCreateBreakpoint_trap_and_pristine_byte (demo_platform false)
                 (demo_installed false)) with (address := demo_return)
      as (p & info & s' & Hrun & _ & Hexec & Hrw & _).
    + vm_compute. reflexivity.
    + distinct_objects.
    + exists 532480, 536576, [].
      split; [vm_compute; reflexivity|].
      split; left; vm_compute; discriminate.
    + exists p, info, s'. split; [exact Hrun|]. split; [exact Hexec | exact Hrw].
Defined.

(** ** The shadow pages stay faithful across installations *)

Section NameCopy.

Lemma memcpy_name_run src dst s :
  (0 < length dst)%nat ->
  memcpy_name src dst s =
  Returns
    (map (fun i => memory s (src + Z.of_nat i))
       (seq 0 (Z.to_nat ((Z.of_nat (length dst) - 1) mod (SIZE_MAX + 1)))) ++
     drop (Z.to_nat ((Z.of_nat (length dst) - 1) mod (SIZE_MAX + 1))) dst) s.
Proof.
  intros Hlen. unfold memcpy_name.
  assert (Hle : (Z.of_nat (length dst) - 1) mod (SIZE_MAX + 1) <=
                Z.of_nat (length dst) - 1)
    by (apply Z.mod_le; unfold SIZE_MAX; lia).
  destruct (Z.ltb_spec (Z.of_nat (length dst))
              ((Z.of_nat (length dst) - 1) mod (SIZE_MAX + 1))); [lia|].
  reflexivity.
Qed.

Lemma memcpy_name_count (n : nat) :
  (0 < n)%nat -> Z.of_nat n <= SIZE_MAX + 1 ->
  Z.to_nat ((Z.of_nat n - 1) mod (SIZE_MAX + 1)) = (n - 1)%nat.
Proof. intros Hpos Hfit. rewrite Z.mod_small by lia. lia. Qed.

Lemma memcpy_name_empty src s :
  memcpy_name src [] s = Undefined OutOfBounds s.
Proof. reflexivity. Qed.

End NameCopy.

Section ShadowInvariant.

Variable pf : Platform.

Lemma apart_sym a b : apart a b -> apart b a.
Proof. unfold apart. tauto. Qed.

Ltac memory_facts :=
  unfold write_byte, copy_bytes, apart, PAGE_SIZE in *;
  repeat match goal with
         | |- context [?a =? ?b] => destruct (Z.eqb_spec a b)
         | |- context [?a <=? ?b] => destruct (Z.leb_spec a b)
         | |- context [?a <? ?b] => destruct (Z.ltb_spec a b)
         end;
  cbn [andb]; try lia; try reflexivity; try (f_equal; lia).

Lemma fresh_pair_outside (m : Z -> Z) (base rw exec o a : Z) :
  0 <= o < PAGE_SIZE ->
  a < rw \/ rw + PAGE_SIZE <= a ->
  a < exec \/ exec + PAGE_SIZE <= a ->
  write_byte (exec + o) 204
    (copy_bytes exec base PAGE_SIZE (copy_bytes rw base PAGE_SIZE m)) a = m a.
Proof. intros Ho Hrw Hexec. memory_facts. Qed.

Lemma on_page_of_true address e :
  on_page_of address e = true ->
  PAGE_ALIGN (patch_address e.2) = PAGE_ALIGN address.
Proof. unfold on_page_of. apply Z.eqb_eq. Qed.

Lemma shadows_ok_reuse s s' v address r reusable info' p :
  shadows_ok s v ->
  find (on_page_of address) v = Some (r, reusable) ->
  memory s' =
    write_byte (shadow_page_base_for_exec reusable + BYTE_OFFSET address) 204
      (memory s) ->
  pool s' = pool s ->
  patch_address info' = address ->
  shadow_page_base_for_rw info' = shadow_page_base_for_rw reusable ->
  shadow_page_base_for_exec info' = shadow_page_base_for_exec reusable ->
  shadows_ok s' (v ++ [(p, info')]).
Proof.
  intros (Hcontent & Hsep & Hpool & Hpoolv) Hfind Hmem Hpool' Ha Hrw Hexec.
  pose proof (BYTE_OFFSET_range address) as Ho.
  apply find_some in Hfind as [Hin Hpage]. apply list_elem_of_In in Hin.
  apply on_page_of_true in Hpage. cbn [snd] in Hpage.
  assert (Hkeep : forall e off,
            e ∈ v -> 0 <= off < PAGE_SIZE ->
            memory s' (shadow_page_base_for_rw e.2 + off) =
              memory s (shadow_page_base_for_rw e.2 + off) /\
            memory s' (PAGE_ALIGN (patch_address e.2) + off) =
              memory s (PAGE_ALIGN (patch_address e.2) + off)).
  { intros e off He Hoff.
    destruct (Hsep e (r, reusable) He Hin) as (H1 & _ & H3). cbn [snd] in *.
    rewrite Hmem. split; memory_facts. }
  unfold shadows_ok. rewrite Hpool'.
  split; [|split; [|split]].
  - apply Forall_app. split.
    + rewrite Forall_forall in Hcontent |- *. intros e He.
      destruct (Hcontent e He) as [Hcopy Htrap]. split.
      * intros off Hoff. destruct (Hkeep e off He Hoff) as [-> ->].
        apply Hcopy. exact Hoff.
      * rewrite Hmem. unfold write_byte.
        match goal with
        | |- context [?a =? ?b] => destruct (Z.eqb_spec a b)
        end; [reflexivity | exact Htrap].
    + apply Forall_singleton. cbn [snd]. rewrite Ha, Hrw, Hexec. split.
      * intros off Hoff. rewrite <- Hpage.
        destruct (Hkeep (r, reusable) off Hin Hoff) as [H1 H2].
        cbn [snd] in H1, H2. rewrite H1, H2.
        rewrite Forall_forall in Hcontent.
        apply (Hcontent (r, reusable) Hin). exact Hoff.
      * rewrite Hmem. unfold write_byte. rewrite Z.eqb_refl. reflexivity.
  - assert (Hnew : forall e, e ∈ v ++ [(p, info')] ->
              exists e', e' ∈ v /\
                shadow_page_base_for_rw e.2 = shadow_page_base_for_rw e'.2 /\
                shadow_page_base_for_exec e.2 = shadow_page_base_for_exec e'.2 /\
                PAGE_ALIGN (patch_address e.2) = PAGE_ALIGN (patch_address e'.2)).
    { intros e He. apply elem_of_app in He as [He|He].
      - exists e. auto.
      - apply list_elem_of_singleton in He. subst e. exists (r, reusable).
        cbn [snd]. rewrite Ha. auto. }
    intros e1 e2 H1 H2.
    destruct (Hnew e1 H1) as (x1 & Hx1 & -> & _ & ->).
    destruct (Hnew e2 H2) as (x2 & Hx2 & -> & -> & _).
    apply (Hsep x1 x2 Hx1 Hx2).
  - exact Hpool.
  - rewrite Forall_forall in Hpoolv |- *. intros b Hb.
    apply Forall_app. split; [apply (Hpoolv b Hb)|].
    apply Forall_singleton. cbn [snd]. rewrite Ha, Hrw, Hexec, <- Hpage.
    pose proof (Hpoolv b Hb) as Hbv. rewrite Forall_forall in Hbv.
    apply (Hbv (r, reusable) Hin).
Qed.

Lemma shadows_ok_fresh s s' v address rw exec rest info' p :
  shadows_ok s v ->
  pool s = rw :: exec :: rest ->
  Forall (fun b => apart b (PAGE_ALIGN address)) (pool s) ->
  Forall (fun e =>
    apart (PAGE_ALIGN address) (shadow_page_base_for_rw e.2) /\
    apart (PAGE_ALIGN address) (shadow_page_base_for_exec e.2)) v ->
  memory s' =
    write_byte (exec + BYTE_OFFSET address) 204
      (copy_bytes exec (PAGE_ALIGN address) PAGE_SIZE
         (copy_bytes rw (PAGE_ALIGN address) PAGE_SIZE (memory s))) ->
  pool s' = rest ->
  patch_address info' = address ->
  shadow_page_base_for_rw info' = rw ->
  shadow_page_base_for_exec info' = exec ->
  shadows_ok s' (v ++ [(p, info')]).
Proof.
  intros (Hcontent & Hsep & Hpool & Hpoolv) Hp Hguest Hfresh Hmem Hpool' Ha Hrw Hexec.
  pose proof (BYTE_OFFSET_range address) as Ho.
  rewrite Hp in Hpool, Hpoolv, Hguest. cbn [all_apart] in Hpool.
  destruct Hpool as (Hrw_rest & Hexec_rest & Hrest).
  apply Forall_cons in Hrw_rest as [Hpair Hrw_rest].
  apply Forall_cons in Hpoolv as [Hrwv Hpoolv].
  apply Forall_cons in Hpoolv as [Hexecv Hpoolv].
  apply Forall_cons in Hguest as [Hrwg Hguest].
  apply Forall_cons in Hguest as [Hexecg Hguest].
  rewrite Forall_forall in Hrwv, Hexecv, Hcontent, Hfresh.
  assert (Hkeep : forall a,
            a < rw \/ rw + PAGE_SIZE <= a ->
            a < exec \/ exec + PAGE_SIZE <= a ->
            memory s' a = memory s a).
  { intros a H1 H2. rewrite Hmem. apply fresh_pair_outside; assumption. }
  unfold shadows_ok. rewrite Hpool'.
  split; [|split; [|split]].
  - apply Forall_app. split.
    + rewrite Forall_forall. intros e He.
      destruct (Hcontent e He) as [Hcopy Htrap].
      destruct (Hrwv e He) as (R1 & R2 & R3).
      destruct (Hexecv e He) as (E1 & E2 & E3).
      pose proof (BYTE_OFFSET_range (patch_address e.2)) as Hoe.
      unfold apart, PAGE_SIZE in *. split.
      * intros off Hoff. rewrite !Hkeep by lia. apply Hcopy. exact Hoff.
      * rewrite Hkeep by lia. exact Htrap.
    + apply Forall_singleton. cbn [snd]. rewrite Ha, Hrw, Hexec. split.
      * intros off Hoff.
        destruct (fresh_pair_contents (memory s) (PAGE_ALIGN address) rw exec
                    (BYTE_OFFSET address) off Hpair (apart_sym _ _ Hrwg) Ho Hoff)
          as [Hrwc _].
        cbv zeta in Hrwc. rewrite <- Hmem in Hrwc. rewrite Hrwc.
        symmetry. apply Hkeep; unfold apart, PAGE_SIZE in *; lia.
      * rewrite Hmem. unfold write_byte. rewrite Z.eqb_refl. reflexivity.
  - intros e1 e2 H1 H2.
    apply elem_of_app in H1 as [H1|H1]; apply elem_of_app in H2 as [H2|H2].
    + apply (Hsep e1 e2 H1 H2).
    + apply list_elem_of_singleton in H2. subst e2. cbn [snd].
      rewrite Hrw, Hexec.
      destruct (Hrwv e1 H1) as (R1 & R2 & R3).
      destruct (Hexecv e1 H1) as (E1 & E2 & E3).
      repeat split; apply apart_sym; assumption.
    + apply list_elem_of_singleton in H1. subst e1. cbn [snd].
      rewrite Ha, Hrw.
      destruct (Hrwv e2 H2) as (R1 & R2 & R3).
      destruct (Hfresh e2 H2) as (F1 & F2).
      repeat split; assumption.
    + apply list_elem_of_singleton in H1. apply list_elem_of_singleton in H2.
      subst e1 e2. cbn [snd]. rewrite Ha, Hrw, Hexec.
      repeat split; [assumption | apply apart_sym; assumption..].
  - exact Hrest.
  - rewrite Forall_forall in Hpoolv, Hrw_rest, Hexec_rest, Hguest |- *.
    intros b Hb. apply Forall_app. split; [apply (Hpoolv b Hb)|].
    apply Forall_singleton. cbn [snd]. rewrite Ha, Hrw, Hexec.
    repeat split;
      [apply apart_sym, (Hrw_rest b Hb) | apply apart_sym, (Hexec_rest b Hb)
      | apply (Hguest b Hb)].
Qed.

(** Installing a Pre breakpoint keeps the shadows faithful: every record
    of the vector, the new one included, has the guest page's bytes in its
    rw shadow and 0xCC at its offset in its exec shadow. *)
Lemma SbpCreatePreBreakpoint_keeps_shadows s v address target name' :
  g_sbpp_breakpoints s = Some v ->
  NoDup (v.*1) ->
  shadows_ok s v ->
  installable s v address ->
  (0 < name_size pf)%nat ->
  exists s' info,
    SbpCreatePreBreakpoint pf address target name' s = Returns tt s' /\
    g_sbpp_breakpoints s' = Some (v ++ [(next_object s, info)]) /\
    patch_address info = address /\
    type info = kPre /\
    shadows_ok s' (v ++ [(next_object s, info)]).
Proof.
  intros Hv Hnd Hok Hinst Hname. unfold installable in Hinst.
  unfold SbpCreatePreBreakpoint, SbppCreatePreBreakpoint.
  destruct (find (on_page_of address) v) as [[r reusable]|] eqn:Hfind.
  - destruct (SbppCreateBreakpoint_reuse_run pf s v address r reusable Hv Hnd Hfind)
      as (s' & Hrun & Hmem & Hpool & _ & Hbp & _).
    erewrite bind_returns.
    2:{ erewrite bind_returns by exact Hrun.
        erewrite bind_returns
          by (apply memcpy_name_run; cbn; rewrite length_replicate; exact Hname).
        reflexivity. }
    unfold SbppAddBreakpointToList.
    erewrite bind_returns by (apply (breakpoints_vector_run pf s' v Hbp)).
    eexists _, _. split; [reflexivity|]. cbn [fst snd].
    split; [reflexivity|]. split; [reflexivity|]. split; [reflexivity|].
    eapply (shadows_ok_reuse s); try eassumption; reflexivity.
  - destruct Hinst as (Hlen & Hguest & Hfresh).
    destruct (pool s) as [|rw [|exec rest]] eqn:Hp; cbn in Hlen; try lia.
    destruct (SbppCreateBreakpoint_fresh_run pf s v address rw exec rest Hv Hfind Hp)
      as (s' & Hrun & Hmem & Hpool & _ & Hbp & _).
    erewrite bind_returns.
    2:{ erewrite bind_returns by exact Hrun.
        erewrite bind_returns
          by (apply memcpy_name_run; cbn; rewrite length_replicate; exact Hname).
        reflexivity. }
    unfold SbppAddBreakpointToList.
    erewrite bind_returns by (apply (breakpoints_vector_run pf s' v Hbp)).
    eexists _, _. split; [reflexivity|]. cbn [fst snd].
    split; [reflexivity|]. split; [reflexivity|]. split; [reflexivity|].
    eapply (shadows_ok_fresh s); try eassumption; try reflexivity.
    rewrite Hp. exact Hguest.
Qed.

Lemma SbpInitialization_shadows_ok s :
  all_apart (pool s) -> shadows_ok (set_breakpoints (Some []) s) [].
Proof.
  intros H. unfold shadows_ok. cbn.
  split; [constructor|]. split; [intros e1 e2 He; inversion He|].
  split; [exact H|]. apply Forall_forall. intros b Hb. constructor.
Qed.

(** Under the invariant, a record found on the page of [address] offers
    what the creation of a second record on that page relies on. *)
Lemma shadows_ok_reusable s v address r reusable :
  shadows_ok s v ->
  find (on_page_of address) v = Some (r, reusable) ->
  shadow_page_base_for_rw reusable <> shadow_page_base_for_exec reusable /\
  memory s (shadow_page_base_for_rw reusable + BYTE_OFFSET address) =
    memory s address.
Proof.
  intros (Hcontent & Hsep & _) Hfind.
  apply find_some in Hfind as [Hin Hpage]. apply list_elem_of_In in Hin.
  apply on_page_of_true in Hpage. cbn [snd] in Hpage.
  destruct (Hsep _ _ Hin Hin) as (Hpair & _). cbn [snd] in Hpair.
  rewrite Forall_forall in Hcontent.
  destruct (Hcontent _ Hin) as [Hcopy _]. cbn [snd] in Hcopy.
  split.
  - unfold apart, PAGE_SIZE in Hpair. lia.
  - rewrite (Hcopy _ (BYTE_OFFSET_range address)), Hpage.
    rewrite PAGE_ALIGN_BYTE_OFFSET. reflexivity.
Qed.

End ShadowInvariant.

(** ** Installing a Post breakpoint *)

Section PostInstallation.

Variable pf : Platform.






End PostInstallation.

Section PostInstallationClaim.

Variable pf : Platform.



End PostInstallationClaim.


(** * Further properties *)

(** ** Lookups, insertion and erasure *)

Section RegistryProperties.

Variable pf : Platform.

Lemma find_first {A} (f : A -> bool) (l : list A) x :
  find f l = Some x ->
  exists before after,
    l = before ++ x :: after /\ Forall (fun y => f y = false) before /\ f x = true.
Proof.
  induction l as [|y l IH]; intros H; [discriminate|].
  cbn in H. destruct (f y) eqn:Hy.
  - injection H as ->. exists [], l. repeat split; auto.
  - destruct (IH H) as (b & a & -> & Hb & Hx).
    exists (y :: b), a. repeat split; auto.
Qed.

Lemma find_nothing {A} (f : A -> bool) (l : list A) :
  find f l = None -> Forall (fun y => f y = false) l.
Proof.
  induction l as [|y l IH]; intros H; [constructor|].
  cbn in H. destruct (f y) eqn:Hy; [discriminate|]. constructor; auto.
Qed.

Lemma lookup_result_find f v s :
  g_sbpp_breakpoints s = Some v -> NoDup (v.*1) ->
  lookup_result f v s (fst <$> find f v).
Proof.
  intros Hv Hnd. destruct (find f v) as [[p i]|] eqn:Hfind; cbn.
  - destruct (find_first f v (p, i) Hfind) as (b & a & Hsplit & Hb & Hx).
    exists i, b, a. repeat split; try assumption.
    apply (deref_found s v f p i Hv Hnd Hfind).
  - apply find_nothing. exact Hfind.
Qed.

(** X1.  Each of the three lookups leaves the state as it is and returns
    null exactly when no record satisfies its predicate (same address;
    same page; Post record of the same page and thread); otherwise it
    returns the address of the first such record in insertion order, and
    reading through that address yields that record. *)
Theorem lookups_return_first_match (s : State) (v : list (Z * PatchInformation))
    (address tid : Z) :
  g_sbpp_breakpoints s = Some v ->
  NoDup (v.*1) ->
  (exists r, SbppFindPatchInfoByAddress pf address s = Returns r s /\
             lookup_result (at_address address) v s r) /\
  (exists r, SbppFindPatchInfoByPage pf address s = Returns r s /\
             lookup_result (on_page_of address) v s r) /\
  (exists r, SbppFindDuplicatedPostPatchInfo pf address tid s = Returns r s /\
             lookup_result (is_duplicate_post address tid) v s r).
Proof.
  intros Hv Hnd. split; [|split]; eexists; (split; [|apply lookup_result_find; eassumption]).
  - apply (SbppFindPatchInfoByAddress_run pf s v address Hv).
  - apply (SbppFindPatchInfoByPage_run pf s v address Hv).
  - unfold SbppFindDuplicatedPostPatchInfo, bind.
    rewrite (breakpoints_vector_run pf s v Hv). reflexivity.
Qed.

Lemma find_app_old {A} (f : A -> bool) (l : list A) x :
  find f (l ++ [x]) =
  match find f l with
  | Some y => Some y
  | None => if f x then Some x else None
  end.
Proof.
  induction l as [|y l IH]; cbn; [reflexivity|].
  destruct (f y); [reflexivity | exact IH].
Qed.

(** X2.  Appending a record under a fresh object address makes the object
    readable through that address, keeps every pointer that was valid
    valid, and changes the result of no lookup that already succeeded: a
    lookup finds the new record only when no older record matched. *)
Theorem SbppAddBreakpointToList_keeps_lookups (s : State)
    (v : list (Z * PatchInformation)) (p : Z) (info : PatchInformation) :
  g_sbpp_breakpoints s = Some v ->
  p ∉ v.*1 ->
  SbppAddBreakpointToList pf (p, info) s =
    Returns tt (set_breakpoints (Some (v ++ [(p, info)])) s) /\
  deref p (set_breakpoints (Some (v ++ [(p, info)])) s) =
    Returns info (set_breakpoints (Some (v ++ [(p, info)])) s) /\
  (forall q i, deref q s = Returns i s ->
     deref q (set_breakpoints (Some (v ++ [(p, info)])) s) =
     Returns i (set_breakpoints (Some (v ++ [(p, info)])) s)) /\
  (forall f : Z * PatchInformation -> bool,
     find f (v ++ [(p, info)]) =
     match find f v with
     | Some y => Some y
     | None => if f (p, info) then Some (p, info) else None
     end).
Proof.
  intros Hv Hfresh. split; [|split; [|split]].
  - unfold SbppAddBreakpointToList, bind.
    rewrite (breakpoints_vector_run pf s v Hv). reflexivity.
  - unfold deref. cbn. rewrite find_app_old.
    destruct (find (fun e : Z * PatchInformation => e.1 =? p) v) as [[q j]|] eqn:Hq.
    + exfalso. apply find_some in Hq as [Hin Heq]. cbn in Heq.
      apply Z.eqb_eq in Heq. subst q. apply Hfresh.
      apply list_elem_of_In in Hin.
      apply (list_elem_of_fmap_2 fst) in Hin. exact Hin.
    + cbn. rewrite Z.eqb_refl. reflexivity.
  - intros q i. unfold deref. cbn. rewrite Hv, find_app_old.
    destruct (find (fun e : Z * PatchInformation => e.1 =? q) v); [|discriminate].
    intros H. injection H as <-. reflexivity.
  - intros f. apply find_app_old.
Qed.

Lemma find_skip_other (before after : list (Z * PatchInformation)) p i q :
  q <> p ->
  find (fun e : Z * PatchInformation => e.1 =? q) (before ++ (p, i) :: after) =
  find (fun e : Z * PatchInformation => e.1 =? q) (before ++ after).
Proof.
  intros Hq. induction before as [|y b IH]; cbn.
  - destruct (Z.eqb_spec p q); [congruence | reflexivity].
  - destruct (y.1 =? q); [reflexivity | exact IH].
Qed.

Lemma find_absent (l : list (Z * PatchInformation)) p :
  p ∉ l.*1 -> find (fun e : Z * PatchInformation => e.1 =? p) l = None.
Proof.
  intros H. destruct (find _ l) as [[q j]|] eqn:Hq; [|reflexivity].
  exfalso. apply find_some in Hq as [Hin Heq]. cbn in Heq.
  apply Z.eqb_eq in Heq. subst q. apply H.
  apply list_elem_of_In in Hin. apply (list_elem_of_fmap_2 fst) in Hin. exact Hin.
Qed.

(** X3.  Erasing with the record an address lookup returned erases that
    very object, although the erasure compares address and owner thread
    and not the pointer: the record leaves the vector, the pointer to it
    dangles, and every other pointer reads what it read before. *)
Theorem erase_after_lookup_erases_the_object (s : State)
    (v : list (Z * PatchInformation)) (guest_ip p : Z) (i : PatchInformation) :
  g_sbpp_breakpoints s = Some v ->
  NoDup (v.*1) ->
  find (at_address guest_ip) v = Some (p, i) ->
  exists s' before after,
    SbppDeleteBreakpointFromList pf i s = Returns tt s' /\
    v = before ++ (p, i) :: after /\
    g_sbpp_breakpoints s' = Some (before ++ after) /\
    deref p s' = Undefined UseAfterFree s' /\
    (forall q j, q <> p -> deref q s = Returns j s -> deref q s' = Returns j s').
Proof.
  intros Hv Hnd Hfind.
  destruct (find_first _ _ _ Hfind) as (before & after & Hsplit & Hbefore & Hat).
  unfold at_address in Hat. cbn [snd] in Hat. apply Z.eqb_eq in Hat.
  assert (Hkey : Forall (fun e => same_key i e = false) before).
  { rewrite Forall_forall in Hbefore |- *. intros e He.
    specialize (Hbefore e He). unfold at_address in Hbefore. unfold same_key.
    rewrite Hat. rewrite Z.eqb_sym, Hbefore. reflexivity. }
  assert (Hself : same_key i (p, i) = true).
  { unfold same_key. cbn. rewrite !Z.eqb_refl. reflexivity. }
  pose proof (SbppDeleteBreakpointFromList_run pf s v i Hv) as Hrun.
  rewrite Hsplit, (erase_first_split _ _ _ _ Hkey Hself) in Hrun.
  destruct Hrun as (s' & Hrun & Hsame).
  pose proof (same_but_pages_breakpoints _ _ Hsame) as Hbp. cbn in Hbp.
  exists s', before, after.
  split; [exact Hrun|]. split; [exact Hsplit|]. split; [exact Hbp|].
  rewrite Hsplit, fmap_app, fmap_cons in Hnd. cbn [fst] in Hnd.
  apply NoDup_app in Hnd as (_ & Hdisj & Hafter).
  apply NoDup_cons in Hafter as [Hnotin _].
  split.
  - apply (deref_dangling s' (before ++ after) p Hbp).
    apply find_absent. rewrite fmap_app. intros Hin.
    apply elem_of_app in Hin as [Hin|Hin]; [|exact (Hnotin Hin)].
    apply (Hdisj p Hin). left.
  - intros q j Hq. unfold deref. rewrite Hv, Hbp, Hsplit.
    rewrite (find_skip_other before after p i q Hq).
    destruct (find _ (before ++ after)); [|discriminate].
    intros H. injection H as <-. reflexivity.
Qed.

End RegistryProperties.

Lemma lookups_return_first_match_witness :
  exists r,
    SbppFindPatchInfoByPage (demo_platform false) (demo_return + 5) (demo_armed false) =
      Returns r (demo_armed false) /\
    lookup_result (on_page_of (demo_return + 5))
      [(1, demo_pre_record); (2, demo_post_record)] (demo_armed false) r.
Proof.
  assert (Hv : g_sbpp_breakpoints (demo_armed false) =
               Some [(1, demo_pre_record); (2, demo_post_record)])
    by (vm_compute; reflexivity).
  assert (Hnd : NoDup ([(1, demo_pre_record); (2, demo_post_record)].*1))
    by distinct_objects.
  destruct (lookups_return_first_match (demo_platform false) (demo_armed false) _
              (demo_return + 5) 4 Hv Hnd) as (_ & H & _).
  exact H.
Defined.

Lemma SbppAddBreakpointToList_keeps_lookups_witness :
  deref 2 (set_breakpoints (Some ([(1, demo_pre_record)] ++ [(2, demo_post_record)]))
             (demo_installed false)) =
  Returns demo_post_record
    (set_breakpoints (Some ([(1, demo_pre_record)] ++ [(2, demo_post_record)]))
       (demo_installed false)).
Proof.
  assert (Hv : g_sbpp_breakpoints (demo_installed false) = Some [(1, demo_pre_record)])
    by (vm_compute; reflexivity).
  assert (Hfresh : 2 ∉ [(1, demo_pre_record)].*1).
  { cbn. intros H. apply list_elem_of_singleton in H. discriminate. }
  destruct (SbppAddBreakpointToList_keeps_lookups (demo_platform false)
              (demo_installed false) _ 2 demo_post_record Hv Hfresh) as (_ & H & _).
  exact H.
Defined.

Lemma erase_after_lookup_erases_the_object_witness :
  exists s' before after,
    SbppDeleteBreakpointFromList (demo_platform false) demo_post_record
      (demo_armed false) = Returns tt s' /\
    [(1, demo_pre_record); (2, demo_post_record)] =
      before ++ (2, demo_post_record) :: after /\
    g_sbpp_breakpoints s' = Some (before ++ after) /\
    deref 2 s' = Undefined UseAfterFree s'.
Proof.
  assert (Hv : g_sbpp_breakpoints (demo_armed false) =
               Some [(1, demo_pre_record); (2, demo_post_record)])
    by (vm_compute; reflexivity).
  assert (Hnd : NoDup ([(1, demo_pre_record); (2, demo_post_record)].*1))
    by distinct_objects.
  assert (Hfind : find (at_address demo_return)
                    [(1, demo_pre_record); (2, demo_post_record)] =
                  Some (2, demo_post_record)) by (vm_compute; reflexivity).
  destruct (erase_after_lookup_erases_the_object (demo_platform false)
              (demo_armed false) _ demo_return 2 demo_post_record Hv Hnd Hfind)
    as (s' & before & after & Hrun & Hsplit & Hbp & Hdangle & _).
  exists s', before, after. repeat split; assumption.
Defined.

(** ** The run of a Pre installation *)

Section PreInstallation.

Variable pf : Platform.

Lemma SbppCreateBreakpoint_completes s v address :
  g_sbpp_breakpoints s = Some v ->
  NoDup (v.*1) ->
  is_Some (find (on_page_of address) v) \/ (2 <= length (pool s))%nat ->
  exists rw exec s',
    SbppCreateBreakpoint pf address s =
      Returns (next_object s, created_record pf address rw exec) s' /\
    g_sbpp_breakpoints s' = Some v /\
    next_object s' = next_object s + 1 /\
    ept s' = ept s.
Proof.
  intros Hv Hnd Hcan.
  destruct (find (on_page_of address) v) as [[r reusable]|] eqn:Hfind.
  - destruct (SbppCreateBreakpoint_reuse_run pf s v address r reusable Hv Hnd Hfind)
      as (s' & Hrun & _ & _ & Hnext & Hbp & Hept & _).
    eexists _, _, s'. repeat split; eassumption.
  - destruct Hcan as [[x Hx]|Hpool]; [discriminate|].
    destruct (pool s) as [|rw [|exec rest]] eqn:Hp; cbn in Hpool; try lia.
    destruct (SbppCreateBreakpoint_fresh_run pf s v address rw exec rest Hv Hfind Hp)
      as (s' & Hrun & _ & _ & Hnext & Hbp & Hept & _).
    eexists _, _, s'. repeat split; eassumption.
Qed.

Lemma SbpCreatePreBreakpoint_run s v address target name' :
  g_sbpp_breakpoints s = Some v ->
  NoDup (v.*1) ->
  is_Some (find (on_page_of address) v) \/ (2 <= length (pool s))%nat ->
  (0 < name_size pf)%nat ->
  exists rw exec s' copied,
    SbpCreatePreBreakpoint pf address target name' s = Returns tt s' /\
    g_sbpp_breakpoints s' =
      Some (v ++ [(next_object s,
                   {| patch_address := address;
                      type := kPre;
                      handler := BreakpointTarget.pre_handler target;
                      post_handler := BreakpointTarget.post_handler target;
                      target_tid := 0;
                      parameters := [];
                      name := copied;
                      shadow_page_base_for_rw := rw;
                      shadow_page_base_for_exec := exec;
                      pa_base_for_rw := UtilPaFromVa pf rw;
                      pa_base_for_exec := UtilPaFromVa pf exec |})]) /\
    next_object s' = next_object s + 1 /\
    ept s' = ept s /\
    copied =
      map (fun k => memory s' (name' + Z.of_nat k))
        (seq 0 (Z.to_nat ((Z.of_nat (name_size pf) - 1) mod (SIZE_MAX + 1)))) ++
      drop (Z.to_nat ((Z.of_nat (name_size pf) - 1) mod (SIZE_MAX + 1)))
        (replicate (name_size pf) 0).
Proof.
  intros Hv Hnd Hcan Hname.
  destruct (SbppCreateBreakpoint_completes s v address Hv Hnd Hcan)
    as (rw & exec & sc & Hcreate & Hbp & Hnext & Hept).
  exists rw, exec. eexists _, _.
  unfold SbpCreatePreBreakpoint, SbppCreatePreBreakpoint.
  split.
  - erewrite bind_returns.
    2:{ erewrite bind_returns by exact Hcreate.
        erewrite bind_returns
          by (apply memcpy_name_run; cbn; rewrite length_replicate; exact Hname).
        reflexivity. }
    unfold SbppAddBreakpointToList.
    erewrite bind_returns by (apply (breakpoints_vector_run pf sc v Hbp)).
    reflexivity.
  - cbn. split; [reflexivity|]. split; [exact Hnext|]. split; [exact Hept|].
    rewrite length_replicate. reflexivity.
Qed.

End PreInstallation.

(** ** The Pre record and its name *)

Section PreRecord.

Variable pf : Platform.

Lemma lookup_map {A B} (f : A -> B) (l : list A) (k : nat) :
  map f l !! k = f <$> l !! k.
Proof.
  revert k. induction l as [|x l IH]; intros [|k]; cbn; try reflexivity. apply IH.
Qed.

(** X5.  [SbpCreatePreBreakpoint], when it can create the record (a
    record on the page, or two free pool pages).  With a name array that
    is not empty (and whose size is a [size_t]) it appends one Pre record
    for the address: its handlers are the target's, it has no owner
    thread and no captured parameters, and its name keeps the size of the
    array, holds the bytes found at the name pointer in all positions but
    the last, and ends with a NUL.  With an empty name array the count
    [size() - 1] wraps and the copy runs out of bounds: the function does
    not return and nothing is appended. *)
Theorem SbpCreatePreBreakpoint_record (s : State)
    (v : list (Z * PatchInformation)) (address : Z) (target : BreakpointTarget.t)
    (name' : Z) :
  g_sbpp_breakpoints s = Some v ->
  NoDup (v.*1) ->
  is_Some (find (on_page_of address) v) \/ (2 <= length (pool s))%nat ->
  ((0 < name_size pf)%nat ->
   Z.of_nat (name_size pf) <= SIZE_MAX ->
   exists s' info,
     SbpCreatePreBreakpoint pf address target name' s = Returns tt s' /\
     g_sbpp_breakpoints s' = Some (v ++ [(next_object s, info)]) /\
     patch_address info = address /\
     type info = kPre /\
     handler info = BreakpointTarget.pre_handler target /\
     post_handler info = BreakpointTarget.post_handler target /\
     target_tid info = 0 /\
     parameters info = [] /\
     length (name info) = name_size pf /\
     (forall k : nat, (k < name_size pf - 1)%nat ->
        name info !! k = Some (memory s' (name' + Z.of_nat k))) /\
     last (name info) = Some 0) /\
  (name_size pf = 0%nat ->
   verdict (SbpCreatePreBreakpoint pf address target name' s) =
     VUndefined OutOfBounds /\
   g_sbpp_breakpoints (final_state (SbpCreatePreBreakpoint pf address target name' s)) =
     Some v).
Proof.
  intros Hv Hnd Hcan. split.
  - intros Hn Hfit.
    destruct (SbpCreatePreBreakpoint_run pf s v address target name' Hv Hnd Hcan Hn)
      as (rw & exec & s' & copied & Hrun & Hbp & _ & _ & Hname).
    rewrite memcpy_name_count in Hname by lia.
    eexists s', _. split; [exact Hrun|]. split; [exact Hbp|]. cbn.
    do 6 (split; [reflexivity|]). subst copied.
    split; [|split].
    + rewrite length_app, length_map, length_seq, length_drop, length_replicate. lia.
    + intros k Hk. rewrite lookup_app_l by (rewrite length_map, length_seq; lia).
      rewrite lookup_map, lookup_seq_lt by lia. reflexivity.
    + rewrite drop_replicate.
      replace (name_size pf - (name_size pf - 1))%nat with 1%nat by lia.
      cbn. apply last_snoc.
  - intros Hzero.
    destruct (SbppCreateBreakpoint_completes pf s v address Hv Hnd Hcan)
      as (rw & exec & sc & Hcreate & Hbp & _).
    assert (Hrun : SbpCreatePreBreakpoint pf address target name' s =
                   Undefined OutOfBounds sc).
    { unfold SbpCreatePreBreakpoint, SbppCreatePreBreakpoint, bind.
      rewrite Hcreate. cbn [snd name created_record]. rewrite Hzero.
      reflexivity. }
    rewrite Hrun. split; [reflexivity | exact Hbp].
Qed.

End PreRecord.

Lemma SbpCreatePreBreakpoint_record_witness :
  exists s' info,
    SbpCreatePreBreakpoint (demo_platform false) demo_return demo_target 40960
      (demo_installed false) = Returns tt s' /\
    g_sbpp_breakpoints s' = Some ([(1, demo_pre_record)] ++ [(2, info)]) /\
    length (name info) = 8%nat /\ last (name info) = Some 0.
Proof.
  assert (Hv : g_sbpp_breakpoints (demo_installed false) = Some [(1, demo_pre_record)])
    by (vm_compute; reflexivity).
  assert (Hnd : NoDup ([(1, demo_pre_record)].*1)) by distinct_objects.
  destruct (SbpCreatePreBreakpoint_record (demo_platform false) (demo_installed false)
              _ demo_return demo_target 40960 Hv Hnd) as (Hrecord & _).
  - right. vm_compute. lia.
  - destruct Hrecord
      as (s' & info & Hrun & Hbp & _ & _ & _ & _ & _ & _ & Hlen & _ & Hlast).
    + vm_compute. lia.
    + vm_compute. discriminate.
    + exists s', info. split; [exact Hrun|]. split; [exact Hbp|].
      split; [exact Hlen | exact Hlast].
Defined.

(** ** The bookkeeping of shared shadow pages *)

Section SharedPages.

Variable pf : Platform.

Ltac count_cases :=
  repeat first [rewrite count_occ_app | rewrite count_occ_cons_eq by reflexivity];
  cbn [count_occ];
  repeat match goal with
         | |- context [Z.eq_dec ?a ?b] => destruct (Z.eq_dec a b)
         | H : context [Z.eq_dec ?a ?b] |- _ => destruct (Z.eq_dec a b)
         end;
  try congruence; try lia.

Lemma counts_for_same s l l' :
  (forall page, count_occ Z.eq_dec l page = count_occ Z.eq_dec l' page) ->
  counts_for s l -> counts_for s l'.
Proof. intros Heq H page. rewrite <- Heq. apply H. Qed.

Lemma counts_for_ext s s' l :
  page_use_count s' = page_use_count s -> counts_for s l -> counts_for s' l.
Proof. intros Heq H page. rewrite Heq. apply H. Qed.

Lemma shared_ptr_copy_counts s l page :
  counts_for s l ->
  counts_for
    (set_page_use_count
       (<[page := S (default 0%nat (page_use_count s !! page))]> (page_use_count s)) s)
    (page :: l).
Proof.
  intros H q. cbn [page_use_count set_page_use_count].
  destruct (Z.eq_dec page q) as [->|Hne].
  - rewrite lookup_insert_eq, (H q).
    rewrite count_occ_cons_eq by reflexivity.
    destruct (count_occ Z.eq_dec l q); reflexivity.
  - rewrite lookup_insert_ne by exact Hne.
    rewrite count_occ_cons_neq by exact Hne. apply H.
Qed.

Lemma make_shared_Page_counts s l page :
  counts_for s l -> page ∉ l ->
  counts_for (set_page_use_count (<[page := 1%nat]> (page_use_count s)) s) (page :: l).
Proof.
  intros H Hfresh q. cbn [page_use_count set_page_use_count].
  destruct (Z.eq_dec page q) as [->|Hne].
  - rewrite lookup_insert_eq, count_occ_cons_eq by reflexivity.
    assert (Hz : count_occ Z.eq_dec l q = 0%nat).
    { apply count_occ_not_In. intros Hin. apply Hfresh.
      apply list_elem_of_In. exact Hin. }
    rewrite Hz. reflexivity.
  - rewrite lookup_insert_ne by exact Hne.
    rewrite count_occ_cons_neq by exact Hne. apply H.
Qed.

Lemma shared_ptr_release_counts s l l' page :
  counts_for s l ->
  (forall q, count_occ Z.eq_dec l q = count_occ Z.eq_dec (page :: l') q) ->
  exists s',
    shared_ptr_release page s = Returns tt s' /\
    counts_for s' l' /\
    pool s' = (if decide (page ∈ l') then pool s else page :: pool s) /\
    same_but_pages s s'.
Proof.
  intros H Heq. unfold shared_ptr_release, bind, get.
  pose proof (H page) as Hpage. rewrite Heq in Hpage.
  rewrite count_occ_cons_eq in Hpage by reflexivity. rewrite Hpage.
  destruct (count_occ Z.eq_dec l' page) as [|n] eqn:Hn.
  - eexists. split; [reflexivity|]. split; [|split].
    + intros q. cbn [page_use_count set_page_use_count set_pool].
      destruct (Z.eq_dec page q) as [->|Hne].
      * rewrite lookup_delete_eq, Hn. reflexivity.
      * rewrite lookup_delete_ne by exact Hne. rewrite (H q), Heq.
        rewrite count_occ_cons_neq by exact Hne. reflexivity.
    + cbn. destruct (decide (page ∈ l')) as [Hin|]; [|reflexivity].
      exfalso. apply list_elem_of_In in Hin.
      apply (count_occ_In Z.eq_dec) in Hin. lia.
    + reflexivity.
  - eexists. split; [reflexivity|]. split; [|split].
    + intros q. cbn [page_use_count set_page_use_count].
      destruct (Z.eq_dec page q) as [->|Hne].
      * rewrite lookup_insert_eq, Hn. reflexivity.
      * rewrite lookup_insert_ne by exact Hne. rewrite (H q), Heq.
        rewrite count_occ_cons_neq by exact Hne. reflexivity.
    + cbn. destruct (decide (page ∈ l')) as [|Hout]; [reflexivity|].
      exfalso. apply Hout. apply list_elem_of_In.
      apply (count_occ_In Z.eq_dec). lia.
    + reflexivity.
Qed.

Lemma page_references_app v w :
  page_references (v ++ w) = page_references v ++ page_references w.
Proof. unfold page_references. apply flat_map_app. Qed.

Lemma page_references_elem e v :
  e ∈ v ->
  shadow_page_base_for_rw e.2 ∈ page_references v /\
  shadow_page_base_for_exec e.2 ∈ page_references v.
Proof.
  intros He. unfold page_references.
  split; apply list_elem_of_In, in_flat_map; exists e;
    (split; [apply list_elem_of_In; exact He | cbn; auto]).
Qed.

Lemma SbppCreateBreakpoint_counts s v address :
  g_sbpp_breakpoints s = Some v ->
  NoDup (v.*1) ->
  pages_ok s v ->
  is_Some (find (on_page_of address) v) \/ (2 <= length (pool s))%nat ->
  exists rw exec s',
    SbppCreateBreakpoint pf address s =
      Returns (next_object s, created_record pf address rw exec) s' /\
    g_sbpp_breakpoints s' = Some v /\
    counts_for s' (page_references v ++ [rw; exec]) /\
    NoDup (pool s') /\
    Forall (fun b => b ∉ page_references v ++ [rw; exec]) (pool s') /\
    match find (on_page_of address) v with
    | Some (_, reusable) =>
        rw = shadow_page_base_for_rw reusable /\
        exec = shadow_page_base_for_exec reusable /\ pool s' = pool s
    | None => pool s = rw :: exec :: pool s'
    end.
Proof.
  intros Hv Hnd (Hcounts & Hpool & Hfree) Hcan. rewrite Forall_forall in Hfree.
  unfold SbppCreateBreakpoint.
  erewrite bind_returns by reflexivity.
  erewrite bind_returns by (apply (SbppFindPatchInfoByPage_run pf _ v); exact Hv).
  change (find _ v) with (find (on_page_of address) v).
  destruct (find (on_page_of address) v) as [[r reusable]|] eqn:Hfind.
  - cbn [fmap option_fmap option_map fst].
    erewrite bind_returns.
    2:{ erewrite bind_returns
          by (apply (deref_found _ v (on_page_of address) r reusable);
              [exact Hv | exact Hnd | exact Hfind]).
        erewrite bind_returns by reflexivity.
        erewrite bind_returns by reflexivity.
        reflexivity. }
    erewrite bind_returns by reflexivity.
    eexists _, _, _. split; [reflexivity|]. cbn [fst snd].
    apply find_some in Hfind as [Hin _]. apply list_elem_of_In in Hin.
    destruct (page_references_elem _ _ Hin) as [Hrw Hexec]. cbn [snd] in Hrw, Hexec.
    split; [exact Hv|]. split; [|split; [exact Hpool|split]].
    + pose proof (shared_ptr_copy_counts _ _ (shadow_page_base_for_rw reusable) Hcounts)
        as Hone.
      pose proof (shared_ptr_copy_counts _ _ (shadow_page_base_for_exec reusable) Hone)
        as Htwo.
      eapply counts_for_same; [|eapply counts_for_ext; [|exact Htwo]; reflexivity].
      intros q. count_cases.
    + apply Forall_forall. intros b Hb Hin'. cbn in Hb.
      apply elem_of_app in Hin' as [Hin'|Hin']; [exact (Hfree b Hb Hin')|].
      apply (Hfree b Hb).
      apply elem_of_cons in Hin' as [->|Hin']; [exact Hrw|].
      apply list_elem_of_singleton in Hin'. subst b. exact Hexec.
    + repeat split; reflexivity.
  - destruct Hcan as [[x Hx]|Hlen]; [discriminate|].
    destruct (pool s) as [|rw [|exec rest]] eqn:Hp; cbn in Hlen; try lia.
    cbn [fmap option_fmap option_map].
    erewrite bind_returns.
    2:{ erewrite bind_returns by (apply make_shared_Page_run; exact Hp).
        erewrite bind_returns by (apply make_shared_Page_run; reflexivity).
        erewrite bind_returns by reflexivity.
        erewrite bind_returns by reflexivity.
        reflexivity. }
    erewrite bind_returns by reflexivity.
    eexists _, _, _. split; [reflexivity|]. cbn [fst snd].
    apply NoDup_cons in Hpool as [Hrw_out Hrest]. apply NoDup_cons in Hrest as [Hex_out Hrest].
    assert (Hrw_free : rw ∉ page_references v) by (apply Hfree; left).
    assert (Hex_free : exec ∉ page_references v) by (apply Hfree; right; left).
    split; [exact Hv|]. split; [|split; [exact Hrest|split]].
    + pose proof (make_shared_Page_counts _ _ rw Hcounts Hrw_free) as Hone.
      assert (Hex_new : exec ∉ rw :: page_references v).
      { intros Hin. apply elem_of_cons in Hin as [->|Hin]; [|exact (Hex_free Hin)].
        apply Hrw_out. left. }
      pose proof (make_shared_Page_counts _ _ exec Hone Hex_new) as Htwo.
      eapply counts_for_same; [|eapply counts_for_ext; [|exact Htwo]; reflexivity].
      intros q. count_cases.
    + apply Forall_forall. intros b Hb Hin'. cbn in Hb.
      apply elem_of_app in Hin' as [Hin'|Hin'].
      * apply (Hfree b); [right; right; exact Hb | exact Hin'].
      * apply elem_of_cons in Hin' as [->|Hin'].
        -- apply Hrw_out. right. exact Hb.
        -- apply list_elem_of_singleton in Hin'. subst b. exact (Hex_out Hb).
    + reflexivity.
Qed.

(** X6.  Installing a Pre breakpoint (its name array not empty) keeps the
    bookkeeping of the shadow pages sound.  When a record already
    monitors the page, the new record shares its two pages and the pool
    is untouched; otherwise the new record takes the first two pages of
    the pool.  Either way the use counts equal the references the records
    hold, and no pooled page is referenced. *)
Theorem SbpCreatePreBreakpoint_keeps_page_bookkeeping (s : State)
    (v : list (Z * PatchInformation)) (address : Z)
    (target : BreakpointTarget.t) (name' : Z) :
  g_sbpp_breakpoints s = Some v ->
  NoDup (v.*1) ->
  pages_ok s v ->
  is_Some (find (on_page_of address) v) \/ (2 <= length (pool s))%nat ->
  (0 < name_size pf)%nat ->
  exists s' added,
    SbpCreatePreBreakpoint pf address target name' s = Returns tt s' /\
    g_sbpp_breakpoints s' = Some (v ++ [added]) /\
    pages_ok s' (v ++ [added]) /\
    match find (on_page_of address) v with
    | Some (_, reusable) =>
        shadow_page_base_for_rw added.2 = shadow_page_base_for_rw reusable /\
        shadow_page_base_for_exec added.2 = shadow_page_base_for_exec reusable /\
        pool s' = pool s
    | None =>
        pool s =
          shadow_page_base_for_rw added.2 :: shadow_page_base_for_exec added.2 :: pool s'
    end.
Proof.
  intros Hv Hnd Hok Hcan Hname.
  destruct (SbppCreateBreakpoint_counts s v address Hv Hnd Hok Hcan)
    as (rw & exec & sc & Hcreate & Hbp & Hcounts & Hpool & Hfree & Hpair).
  unfold SbpCreatePreBreakpoint, SbppCreatePreBreakpoint.
  erewrite bind_returns.
  2:{ erewrite bind_returns by exact Hcreate.
      erewrite bind_returns
        by (apply memcpy_name_run; cbn; rewrite length_replicate; exact Hname).
      reflexivity. }
  unfold SbppAddBreakpointToList.
  erewrite bind_returns by (apply (breakpoints_vector_run pf sc v Hbp)).
  eexists _, _. split; [reflexivity|].
  split; [reflexivity|]. split.
  - unfold pages_ok. rewrite page_references_app.
    split; [|split].
    + eapply counts_for_ext; [|exact Hcounts]. reflexivity.
    + exact Hpool.
    + exact Hfree.
  - exact Hpair.
Qed.

Lemma release_pool_facts (pool0 : list Z) (rw exec : Z) (rest refs : list Z) :
  NoDup pool0 ->
  (forall x, x ∈ pool0 -> x ∉ refs) ->
  rw ∈ refs -> exec ∈ refs ->
  (forall q, q ∈ rest -> q ∈ refs) ->
  let p1 := if decide (exec ∈ rw :: rest) then pool0 else exec :: pool0 in
  let p2 := if decide (rw ∈ rest) then p1 else rw :: p1 in
  NoDup p2 /\
  Forall (fun b => b ∉ rest) p2 /\
  forall page,
    page ∈ p2 <->
    page ∈ pool0 \/ ((page = rw \/ page = exec) /\ page ∉ rest).
Proof.
  intros Hnd Hfree Hrw Hexec Hrest p1 p2.
  assert (Hrw_out : rw ∉ pool0) by (intros H; exact (Hfree _ H Hrw)).
  assert (Hexec_out : exec ∉ pool0) by (intros H; exact (Hfree _ H Hexec)).
  assert (Hold : forall b, b ∈ pool0 -> b ∉ rest)
    by (intros b Hb Hin; exact (Hfree _ Hb (Hrest _ Hin))).
  clear Hfree Hrest Hrw Hexec.
  subst p1 p2.
  destruct (decide (exec ∈ rw :: rest)) as [He|He];
    destruct (decide (rw ∈ rest)) as [Hr|Hr];
    rewrite ?elem_of_cons in He; rewrite ?NoDup_cons, ?Forall_cons, ?elem_of_cons;
    (split; [|split]).
  all: try (apply Forall_forall; exact Hold).
  all: try (intros page; rewrite ?elem_of_cons).
  all: try solve [intuition (subst; tauto)].
  all: try solve [intuition (subst; try tauto; congruence)].
all: pose proof (proj2 (Forall_forall (fun b => b ∉ rest) pool0) Hold) as Hall; tauto.
Qed.

(** X7.  Erasing a record keeps the bookkeeping of the shadow pages sound:
    the use counts equal the references of the records that stay, and a
    page is in the pool afterwards exactly when it was there before or it
    is a page of the erased record that no remaining record references. *)
Theorem SbppDeleteBreakpointFromList_keeps_page_bookkeeping (s : State)
    (before after : list (Z * PatchInformation)) (erased : Z * PatchInformation)
    (info : PatchInformation) :
  g_sbpp_breakpoints s = Some (before ++ erased :: after) ->
  pages_ok s (before ++ erased :: after) ->
  Forall (fun info2 => same_key info info2 = false) before ->
  same_key info erased = true ->
  exists s',
    SbppDeleteBreakpointFromList pf info s = Returns tt s' /\
    g_sbpp_breakpoints s' = Some (before ++ after) /\
    pages_ok s' (before ++ after) /\
    forall page,
      page ∈ pool s' <->
      page ∈ pool s \/
      ((page = shadow_page_base_for_rw erased.2 \/
        page = shadow_page_base_for_exec erased.2) /\
       page ∉ page_references (before ++ after)).
Proof.
  intros Hv (Hcounts & Hpool & Hfree) Hbefore Herased.
  rewrite Forall_forall in Hfree.
  unfold SbppDeleteBreakpointFromList.
  erewrite bind_returns by (apply (breakpoints_vector_run pf s _ Hv)).
  change (fun info2 : Z * PatchInformation =>
            (patch_address info =? patch_address info2.2) &&
            (target_tid info =? target_tid info2.2)) with (same_key info).
  rewrite (erase_first_split _ before after erased Hbefore Herased).
  erewrite bind_returns by reflexivity.
  unfold PatchInformation_dtor.
  set (rw := shadow_page_base_for_rw erased.2).
  set (exec := shadow_page_base_for_exec erased.2).
  set (rest := page_references (before ++ after)).
  pose (s0 := set_breakpoints (Some (before ++ after)) s).
  assert (Hc0 : counts_for s0 (page_references (before ++ erased :: after)))
    by (eapply counts_for_ext; [|exact Hcounts]; reflexivity).
  destruct (shared_ptr_release_counts s0 _ (rw :: rest) exec Hc0)
    as (s1 & Hrun1 & Hc1 & Hpool1 & Hsame1).
  { intros q. unfold rest. rewrite !page_references_app. cbn [page_references flat_map].
    fold rw exec. fold (page_references after). cbn [app].
    count_cases; rewrite count_occ_app; lia. }
  destruct (shared_ptr_release_counts s1 _ rest rw Hc1)
    as (s2 & Hrun2 & Hc2 & Hpool2 & Hsame2).
  { intros q. reflexivity. }
  erewrite bind_returns by exact Hrun1.
  exists s2. split; [exact Hrun2|].
  assert (Hrw_in : rw ∈ page_references (before ++ erased :: after)).
  { apply (page_references_elem erased). apply elem_of_app. right. left. }
  assert (Hexec_in : exec ∈ page_references (before ++ erased :: after)).
  { apply (page_references_elem erased). apply elem_of_app. right. left. }
  assert (Hrest : forall q, q ∈ rest -> q ∈ page_references (before ++ erased :: after)).
  { intros q. unfold rest. rewrite !page_references_app, !elem_of_app.
    intros [Hq|Hq]; [left; exact Hq|]. right.
    cbn [page_references flat_map]. fold (page_references after).
    apply elem_of_app. right. exact Hq. }
  change (pool s0) with (pool s) in Hpool1.
  split.
  { rewrite (same_but_pages_breakpoints _ _ Hsame2),
            (same_but_pages_breakpoints _ _ Hsame1). reflexivity. }
  pose proof (release_pool_facts (pool s) rw exec rest _ Hpool Hfree Hrw_in Hexec_in Hrest)
    as Hfacts.
  cbv zeta in Hfacts. rewrite <- Hpool1, <- Hpool2 in Hfacts.
  destruct Hfacts as (Hnd' & Hfree' & Hmem).
  split; [split; [exact Hc2 | split; [exact Hnd' | exact Hfree']]|].
  exact Hmem.
Qed.

End SharedPages.

Lemma demo_installed_pages_ok : pages_ok (demo_installed false) [(1, demo_pre_record)].
Proof.
  assert (Hc : page_use_count (demo_installed false) =
               <[528384 := 1%nat]> (<[524288 := 1%nat]> ∅)) by (vm_compute; reflexivity).
  split; [|split].
  - intros page. rewrite Hc. cbn [page_references flat_map app count_occ].
    change (shadow_page_base_for_rw (1, demo_pre_record).2) with 524288.
    change (shadow_page_base_for_exec (1, demo_pre_record).2) with 528384.
    destruct (Z.eq_dec 524288 page) as [Hrw|Hrw];
      destruct (Z.eq_dec 528384 page) as [Hex|Hex].
    + exfalso. lia.
    + rewrite lookup_insert_ne by exact Hex. subst page.
      rewrite lookup_insert_eq. reflexivity.
    + subst page. rewrite lookup_insert_eq. reflexivity.
    + rewrite !lookup_insert_ne by assumption. apply lookup_empty.
  - apply (bool_decide_eq_true_1 (NoDup _)). vm_compute. reflexivity.
  - apply (bool_decide_eq_true_1 (Forall _ _)). vm_compute. reflexivity.
Qed.

Lemma demo_shared_pages_ok :
  pages_ok (demo_shared false) [(1, demo_pre_record); (2, demo_second_record)].
Proof.
  assert (Hc : page_use_count (demo_shared false) =
               <[528384 := 2%nat]> (<[524288 := 2%nat]> ∅)) by (vm_compute; reflexivity).
  split; [|split].
  - intros page. rewrite Hc. cbn [page_references flat_map app count_occ].
    change (shadow_page_base_for_rw (1, demo_pre_record).2) with 524288.
    change (shadow_page_base_for_exec (1, demo_pre_record).2) with 528384.
    change (shadow_page_base_for_rw (2, demo_second_record).2) with 524288.
    change (shadow_page_base_for_exec (2, demo_second_record).2) with 528384.
    destruct (Z.eq_dec 524288 page) as [Hrw|Hrw];
      destruct (Z.eq_dec 528384 page) as [Hex|Hex].
    + exfalso. lia.
    + rewrite lookup_insert_ne by exact Hex. subst page.
      rewrite lookup_insert_eq. reflexivity.
    + subst page. rewrite lookup_insert_eq. reflexivity.
    + rewrite !lookup_insert_ne by assumption. apply lookup_empty.
  - apply (bool_decide_eq_true_1 (NoDup _)). vm_compute. reflexivity.
  - apply (bool_decide_eq_true_1 (Forall _ _)). vm_compute. reflexivity.
Qed.

Lemma SbpCreatePreBreakpoint_keeps_page_bookkeeping_witness :
  exists s' added,
    SbpCreatePreBreakpoint (demo_platform false) (demo_entry + 8) demo_target 40960
      (demo_installed false) = Returns tt s' /\
    pages_ok s' ([(1, demo_pre_record)] ++ [added]) /\
    shadow_page_base_for_rw added.2 = shadow_page_base_for_rw demo_pre_record /\
    shadow_page_base_for_exec added.2 = shadow_page_base_for_exec demo_pre_record /\
    pool s' = pool (demo_installed false).
Proof.
  assert (Hv : g_sbpp_breakpoints (demo_installed false) = Some [(1, demo_pre_record)])
    by (vm_compute; reflexivity).
  assert (Hnd : NoDup ([(1, demo_pre_record)].*1)) by distinct_objects.
  assert (Hfind : find (on_page_of (demo_entry + 8)) [(1, demo_pre_record)] =
                  Some (1, demo_pre_record)) by (vm_compute; reflexivity).
  destruct (SbpCreatePreBreakpoint_keeps_page_bookkeeping (demo_platform false)
              (demo_installed false) _ (demo_entry + 8) demo_target 40960 Hv Hnd
              demo_installed_pages_ok)
    as (s' & added & Hrun & _ & Hok & Hpair).
  - left. rewrite Hfind. eauto.
  - vm_compute. lia.
  - rewrite Hfind in Hpair.
    exists s', added. split; [exact Hrun|]. split; [exact Hok | exact Hpair].
Defined.

Lemma SbppDeleteBreakpointFromList_keeps_page_bookkeeping_witness :
  exists s',
    SbppDeleteBreakpointFromList (demo_platform false) demo_pre_record
      (demo_shared false) = Returns tt s' /\
    g_sbpp_breakpoints s' = Some [(2, demo_second_record)] /\
    pages_ok s' [(2, demo_second_record)] /\
    (524288 ∉ pool s') /\ (528384 ∉ pool s').
Proof.
  assert (Hv : g_sbpp_breakpoints (demo_shared false) =
               Some ([] ++ (1, demo_pre_record) :: [(2, demo_second_record)]))
    by (vm_compute; reflexivity).
  destruct (SbppDeleteBreakpointFromList_keeps_page_bookkeeping (demo_platform false)
              (demo_shared false) [] [(2, demo_second_record)]
              (1, demo_pre_record) demo_pre_record Hv demo_shared_pages_ok)
    as (s' & Hrun & Hbp & Hok & Hpool).
  - constructor.
  - vm_compute. reflexivity.
  - exists s'. split; [exact Hrun|]. split; [exact Hbp|]. split; [exact Hok|].
    split; intros Hin; apply Hpool in Hin as [Hin|[_ Hout]].
    + vm_compute in Hin. repeat (apply elem_of_cons in Hin as [Hin|Hin]; [discriminate|]).
      inversion Hin.
    + apply Hout. left.
    + vm_compute in Hin. repeat (apply elem_of_cons in Hin as [Hin|Hin]; [discriminate|]).
      inversion Hin.
    + apply Hout. right. left.
Defined.

(** ** A data access to a monitored page, from fault to retired step *)

Section SteppedAccess.

Variable pf : Platform.

Lemma set_bit_restore n z :
  0 <= n -> set_bit n (Z.testbit z n) (set_bit n false z) = z.
Proof.
  intros Hn. apply Z.bits_inj'. intros m Hm.
  destruct (Z.eq_dec n m) as [<-|Hne].
  - apply set_bit_eq. exact Hn.
  - rewrite !set_bit_neq by assumption. reflexivity.
Qed.

Lemma control_restore control :
  0 <= control < 2 ^ 32 ->
  Z.testbit control monitor_trap_flag_bit = false ->
  set_bit monitor_trap_flag_bit false
    (set_bit monitor_trap_flag_bit true (control mod 2 ^ 32) mod 2 ^ 32) = control.
Proof.
  intros Hrange Hclear. rewrite (Z.mod_small control) by exact Hrange.
  apply Z.bits_inj'. intros m Hm.
  destruct (Z.eq_dec monitor_trap_flag_bit m) as [<-|Hne].
  - rewrite set_bit_eq by (unfold monitor_trap_flag_bit; lia).
    symmetry. exact Hclear.
  - rewrite set_bit_neq by (unfold monitor_trap_flag_bit; lia || assumption).
    rewrite Z.testbit_mod_pow2 by lia.
    destruct (m <? 32) eqn:Hlt.
    + apply set_bit_neq; [unfold monitor_trap_flag_bit; lia | assumption].
    + apply Z.ltb_ge in Hlt. symmetry.
      rewrite <- (Z.mod_small control (2 ^ 32)) by exact Hrange.
      rewrite Z.testbit_mod_pow2 by lia.
      apply Z.ltb_ge in Hlt. rewrite Hlt. reflexivity.
Qed.

(** X8.  A data access to a monitored page is stepped over and undone:
    [SbpHandleEptViolation] followed by [SbpHandleMonitorTrapFlag] leaves
    the last-event slot empty, the leaf of the page in the exec view, and
    the guest's RFLAGS, stack pointer and CR3, the registry, the memory
    and the host CR3 as they were; the processor-based controls are as
    they were too when they fit 32 bits and did not have the monitor
    trap flag set. *)
Theorem data_access_is_stepped_over_and_undone (s : State)
    (v : list (Z * PatchInformation)) (fault_va p : Z) (i : PatchInformation)
    (e : EptCommonEntry) :
  g_sbpp_breakpoints s = Some v ->
  NoDup (v.*1) ->
  find (on_page_of fault_va) v = Some (p, i) ->
  ept s !! leaf_of pf i = Some e ->
  slot_free pf s ->
  exists s1 s2,
    SbpHandleEptViolation pf fault_va s = Returns tt s1 /\
    SbpHandleMonitorTrapFlag pf s1 = Returns tt s2 /\
    g_sbpp_last_breakpoint s2 = None /\
    ept s2 = <[leaf_of pf i := exec_view pf i e]> (ept s) /\
    guest_rflags (vmcs s2) = guest_rflags (vmcs s) /\
    guest_rsp (vmcs s2) = guest_rsp (vmcs s) /\
    guest_cr3 (vmcs s2) = guest_cr3 (vmcs s) /\
    (0 <= cpu_based_vm_exec_control (vmcs s) < 2 ^ 32 ->
     Z.testbit (cpu_based_vm_exec_control (vmcs s)) monitor_trap_flag_bit = false ->
     cpu_based_vm_exec_control (vmcs s2) = cpu_based_vm_exec_control (vmcs s)) /\
    g_sbpp_breakpoints s2 = Some v /\
    memory s2 = memory s /\
    cr3 s2 = cr3 s.
Proof.
  intros Hv Hnd Hfind He Hfree.
  pose proof (deref_found s v _ p i Hv Hnd Hfind) as Hderef.
  pose proof (find_pointer v _ p i Hnd Hfind) as Hp.
  eexists _, _. split.
  { unfold SbpHandleEptViolation.
    erewrite bind_returns by apply SbppIsSbpActive_run. rewrite Hv. cbn [negb].
    erewrite bind_returns by (apply (SbppFindPatchInfoByPage_run pf s v fault_va Hv)).
    change (find _ v) with (find (on_page_of fault_va) v). rewrite Hfind.
    cbn [fmap option_fmap option_map fst].
    erewrite bind_returns
      by (erewrite bind_returns by exact Hderef;
          apply (SbppEnablePageShadowingForRW_run pf i s e He)).
    erewrite bind_returns by apply SbppSetMonitorTrapFlag_run.
    apply (SbppSaveLastPatchInfo_run pf). exact Hfree. }
  split.
  { unfold SbpHandleMonitorTrapFlag.
    erewrite bind_returns by apply SbppIsSbpActive_run.
    cbn [g_sbpp_breakpoints set_last_breakpoint]. 
    match goal with
    | |- context [g_sbpp_breakpoints ?x] =>
        change (g_sbpp_breakpoints x) with (g_sbpp_breakpoints s)
    end.
    rewrite Hv. unfold NT_VERIFY.
    erewrite bind_returns by apply NT_ASSERT_holds.
    erewrite bind_returns by (apply (SbppRestoreLastPatchInfo_run pf); reflexivity).
    erewrite bind_returns.
    2:{ erewrite bind_returns by (apply (deref_run _ v p i); [exact Hv | exact Hp]).
        apply (SbppEnablePageShadowingForExec_run pf i _ (rw_view pf i e)).
        apply lookup_insert_eq. }
    apply SbppSetMonitorTrapFlag_run. }
  cbn.
  split; [reflexivity|].
  split; [apply insert_insert_eq|].
  split; [apply set_bit_restore; unfold intf_bit; lia|].
  split; [reflexivity|]. split; [reflexivity|].
  split; [apply control_restore|].
  split; [exact Hv|]. split; reflexivity.
Qed.

End SteppedAccess.

Lemma data_access_is_stepped_over_and_undone_witness :
  exists s1 s2,
    SbpHandleEptViolation (demo_platform true) (demo_entry + 100)
      (demo_armed true) = Returns tt s1 /\
    SbpHandleMonitorTrapFlag (demo_platform true) s1 = Returns tt s2 /\
    g_sbpp_last_breakpoint s2 = None /\
    guest_rflags (vmcs s2) = 514.
Proof.
  edestruct (data_access_is_stepped_over_and_undone (demo_platform true)
               (demo_armed true)) with (fault_va := demo_entry + 100)
    as (s1 & s2 & Hrun1 & Hrun2 & Hlast & _ & Hflags & _).
  - vm_compute. reflexivity.
  - distinct_objects.
  - vm_compute. reflexivity.
  - vm_compute. reflexivity.
  - right. vm_compute. reflexivity.
  - exists s1, s2. split; [exact Hrun1|]. split; [exact Hrun2|].
    split; [exact Hlast|]. rewrite Hflags. vm_compute. reflexivity.
Defined.

(** ** The missing event of the monitor trap flag *)

Section MissingEvent.

Variable pf : Platform.

(** X9.  [SbpHandleMonitorTrapFlag] needs the record of a last event.
    With an empty slot a checked build stops at an assertion and a free
    build dereferences the null pointer [SbppRestoreLastPatchInfo]
    returned; when the slot holds the address of an object the vector no
    longer owns, the handler reads through the dangling pointer.  In
    neither case is the VMCS or the EPT written. *)
Theorem SbpHandleMonitorTrapFlag_needs_a_live_record (s : State) :
  (g_sbpp_last_breakpoint s = None ->
   verdict (SbpHandleMonitorTrapFlag pf s) =
     (if checked_build pf then VAssertionFailure else VUndefined NullDereference) /\
   vmcs (final_state (SbpHandleMonitorTrapFlag pf s)) = vmcs s /\
   ept (final_state (SbpHandleMonitorTrapFlag pf s)) = ept s /\
   trace (final_state (SbpHandleMonitorTrapFlag pf s)) = trace s) /\
  (forall v p,
     g_sbpp_breakpoints s = Some v ->
     g_sbpp_last_breakpoint s = Some p ->
     find (fun e => e.1 =? p) v = None ->
     verdict (SbpHandleMonitorTrapFlag pf s) = VUndefined UseAfterFree /\
     vmcs (final_state (SbpHandleMonitorTrapFlag pf s)) = vmcs s /\
     ept (final_state (SbpHandleMonitorTrapFlag pf s)) = ept s /\
     trace (final_state (SbpHandleMonitorTrapFlag pf s)) = trace s).
Proof.
  split.
  - intros Hlast.
    unfold SbpHandleMonitorTrapFlag, SbppRestoreLastPatchInfo, NT_VERIFY, NT_ASSERT,
      SbppIsSbpActive, bind, get, modify, undefined.
    cbv beta.
    destruct (checked_build pf); destruct (g_sbpp_breakpoints s); cbn;
      rewrite ?Hlast; cbn; repeat split; reflexivity.
  - intros v p Hv Hlast Hgone.
    unfold SbpHandleMonitorTrapFlag, NT_VERIFY.
    erewrite bind_returns by apply SbppIsSbpActive_run. rewrite Hv.
    erewrite bind_returns by apply NT_ASSERT_holds.
    erewrite bind_returns by (apply (SbppRestoreLastPatchInfo_run pf); exact Hlast).
    unfold bind.
    rewrite (deref_dangling (set_last_breakpoint None s) v p Hv Hgone).
    repeat split; reflexivity.
Qed.

End MissingEvent.

Lemma SbpHandleMonitorTrapFlag_needs_a_live_record_witness :
  verdict (SbpHandleMonitorTrapFlag (demo_platform false) (demo_started false)) =
    VUndefined NullDereference /\
  verdict (SbpHandleMonitorTrapFlag (demo_platform true)
             (set_breakpoints (Some []) (demo_stepping true))) =
    VUndefined UseAfterFree.
Proof.
  split.
  - destruct (SbpHandleMonitorTrapFlag_needs_a_live_record (demo_platform false)
                (demo_started false)) as (H & _).
    destruct H as (Hverdict & _); [vm_compute; reflexivity | exact Hverdict].
  - destruct (SbpHandleMonitorTrapFlag_needs_a_live_record (demo_platform true)
                (set_breakpoints (Some []) (demo_stepping true))) as (_ & H).
    destruct (H [] 1) as (Hverdict & _);
      [reflexivity | vm_compute; reflexivity | reflexivity | exact Hverdict].
Defined.

(** ** Switching every page at once *)

Section BulkSwitch.

Variable pf : Platform.

Lemma for_each_views (leaf : PatchInformation -> Z)
    (view : PatchInformation -> EptCommonEntry -> EptCommonEntry)
    (f : PatchInformation -> Vmm unit) :
  (forall info s e,
     ept s !! leaf info = Some e ->
     f info s =
     Returns tt (log EvInveptAll (set_ept (<[leaf info := view info e]> (ept s)) s))) ->
  (forall x y e, view y (view x e) = view y e) ->
  forall (context : list (Z * PatchInformation)) s,
    Forall (fun x => is_Some (ept s !! leaf x.2)) context ->
    exists s',
      for_each (fun info => f info.2) context s = Returns tt s' /\
      (forall k, Forall (fun x => leaf x.2 <> k) context -> ept s' !! k = ept s !! k) /\
      Forall (fun x =>
        exists e0 y,
          ept s !! leaf x.2 = Some e0 /\ y ∈ context /\ leaf y.2 = leaf x.2 /\
          ept s' !! leaf x.2 = Some (view y.2 e0)) context /\
      trace s' = trace s ++ replicate (length context) EvInveptAll /\
      s' = with_ept_and_trace (ept s') (trace s') s.
Proof.
  intros Hf Habsorb context.
  induction context as [|x r IH]; intros s Hmapped.
  - exists s. cbn. rewrite app_nil_r. repeat split; auto.
    destruct s; reflexivity.
  - apply Forall_cons in Hmapped as [[e He] Hr].
    cbn [for_each].
    erewrite bind_returns by (apply Hf; exact He).
    set (s1 := log EvInveptAll (set_ept (<[leaf x.2 := view x.2 e]> (ept s)) s)).
    destruct (IH s1) as (s' & Hrun & Hframe & Hviews & Htrace & Hsame).
    { eapply Forall_impl; [exact Hr|]. intros y Hy. cbn.
      apply lookup_insert_is_Some'. right. exact Hy. }
    exists s'. split; [exact Hrun|].
    split; [|split; [|split]].
    + intros k Hk. apply Forall_cons in Hk as [Hx Hk].
      rewrite (Hframe k Hk). cbn. apply lookup_insert_ne. exact Hx.
    + assert (Hin_r : Forall (fun z =>
                exists e0 y,
                  ept s !! leaf z.2 = Some e0 /\ y ∈ x :: r /\ leaf y.2 = leaf z.2 /\
                  ept s' !! leaf z.2 = Some (view y.2 e0)) r).
      { rewrite Forall_forall in Hviews. apply Forall_forall. intros z Hz.
        destruct (Hviews z Hz) as (e1 & y & He1 & Hy & Hleaf & Hnew).
        cbn in He1.
        destruct (Z.eq_dec (leaf x.2) (leaf z.2)) as [Heq|Hne].
        - rewrite Heq, lookup_insert_eq in He1. injection He1 as <-.
          exists e, y. rewrite <- Heq. rewrite Heq.
          split; [rewrite <- Heq; exact He|].
          split; [right; exact Hy|]. split; [exact Hleaf|].
          rewrite Hnew, Habsorb. reflexivity.
        - rewrite lookup_insert_ne in He1 by exact Hne.
          exists e1, y. split; [exact He1|].
          split; [right; exact Hy|]. split; [exact Hleaf | exact Hnew]. }
      apply Forall_cons. split; [|exact Hin_r].
      destruct (decide (Exists (fun z => leaf z.2 = leaf x.2) r)) as [Hex|Hnone].
      * apply Exists_exists in Hex as (z & Hz & Hleaf).
        rewrite Forall_forall in Hin_r.
        destruct (Hin_r z Hz) as (e0 & y & He0 & Hy & Hly & Hnew).
        exists e0, y. rewrite <- Hleaf.
        split; [exact He0|]. split; [exact Hy|]. split; [exact Hly | exact Hnew].
      * apply Forall_Exists_neg in Hnone.
        exists e, x. split; [exact He|]. split; [left|]. split; [reflexivity|].
        rewrite (Hframe (leaf x.2)) by exact Hnone.
        cbn. apply lookup_insert_eq.
    + rewrite Htrace. cbn. rewrite <- app_assoc. reflexivity.
    + rewrite Hsame at 1. reflexivity.
Qed.

(** X10.  [SbpVmCallEnablePageShadowing] puts the page of every record of
    the vector into its exec view, provided the leaves are mapped and
    records on one leaf share the exec shadow: reads and writes are
    denied, the frame is the exec shadow's, the execute bit is the one the
    leaf had.  Leaves of no record are untouched, the caches are flushed
    once per record, and nothing but the EPT and the trace changes. *)
Theorem SbpVmCallEnablePageShadowing_arms_every_page (s : State)
    (context : list (Z * PatchInformation)) :
  Forall (fun x => is_Some (ept s !! leaf_of pf x.2)) context ->
  (forall x y, x ∈ context -> y ∈ context ->
     leaf_of pf x.2 = leaf_of pf y.2 -> pa_base_for_exec x.2 = pa_base_for_exec y.2) ->
  exists s',
    SbpVmCallEnablePageShadowing pf context s = Returns tt s' /\
    (forall k, Forall (fun x => leaf_of pf x.2 <> k) context ->
       ept s' !! k = ept s !! k) /\
    Forall (fun x =>
      exists e0,
        ept s !! leaf_of pf x.2 = Some e0 /\
        ept s' !! leaf_of pf x.2 = Some (exec_view pf x.2 e0)) context /\
    trace s' = trace s ++ replicate (length context) EvInveptAll /\
    s' = with_ept_and_trace (ept s') (trace s') s.
Proof.
  intros Hmapped Hshare.
  destruct (for_each_views (leaf_of pf) (exec_view pf)
              (SbppEnablePageShadowingForExec pf)
              (SbppEnablePageShadowingForExec_run pf)
              (fun x y e => eq_refl) context s Hmapped)
    as (s' & Hrun & Hframe & Hviews & Hrest).
  exists s'. split; [exact Hrun|]. split; [exact Hframe|]. split; [|exact Hrest].
  rewrite Forall_forall in Hviews. apply Forall_forall. intros x Hx.
  destruct (Hviews x Hx) as (e0 & y & He0 & Hy & Hleaf & Hnew).
  exists e0. split; [exact He0|]. rewrite Hnew.
  unfold exec_view. rewrite (Hshare y x Hy Hx Hleaf). reflexivity.
Qed.

(** X11.  [SbpVmCallDisablePageShadowing] gives every monitored page back
    to the guest, provided the leaves are mapped and records on one leaf
    are on one page: the leaf allows read, write and execute and maps the
    page onto itself.  Leaves of no record are untouched, the caches are
    flushed once per record, and nothing but the EPT and the trace
    changes. *)
Theorem SbpVmCallDisablePageShadowing_releases_every_page (s : State)
    (context : list (Z * PatchInformation)) :
  Forall (fun x => is_Some (ept s !! leaf_of_page pf x.2)) context ->
  (forall x y, x ∈ context -> y ∈ context ->
     leaf_of_page pf x.2 = leaf_of_page pf y.2 ->
     PAGE_ALIGN (patch_address x.2) = PAGE_ALIGN (patch_address y.2)) ->
  exists s',
    SbpVmCallDisablePageShadowing pf context s = Returns tt s' /\
    (forall k, Forall (fun x => leaf_of_page pf x.2 <> k) context ->
       ept s' !! k = ept s !! k) /\
    Forall (fun x =>
      ept s' !! leaf_of_page pf x.2 = Some (identity_view pf x.2)) context /\
    trace s' = trace s ++ replicate (length context) EvInveptAll /\
    s' = with_ept_and_trace (ept s') (trace s') s.
Proof.
  intros Hmapped Hshare.
  destruct (for_each_views (leaf_of_page pf) (fun info _ => identity_view pf info)
              (SbppDisablePageShadowing pf)
              (SbppDisablePageShadowing_run pf)
              (fun x y e => eq_refl) context s Hmapped)
    as (s' & Hrun & Hframe & Hviews & Hrest).
  exists s'. split; [exact Hrun|]. split; [exact Hframe|]. split; [|exact Hrest].
  rewrite Forall_forall in Hviews. apply Forall_forall. intros x Hx.
  destruct (Hviews x Hx) as (e0 & y & He0 & Hy & Hleaf & Hnew).
  rewrite Hnew. unfold identity_view. rewrite (Hshare y x Hy Hx Hleaf). reflexivity.
Qed.

End BulkSwitch.

Lemma SbpVmCallEnablePageShadowing_arms_every_page_witness :
  exists s' e0,
    SbpVmCallEnablePageShadowing (demo_platform false) [(1, demo_pre_record)]
      (demo_installed false) = Returns tt s' /\
    ept s' !! leaf_of (demo_platform false) demo_pre_record =
      Some (exec_view (demo_platform false) demo_pre_record e0) /\
    trace s' = trace (demo_installed false) ++ [EvInveptAll].
Proof.
  destruct (SbpVmCallEnablePageShadowing_arms_every_page (demo_platform false)
              (demo_installed false) [(1, demo_pre_record)])
    as (s' & Hrun & _ & Hviews & Htrace & _).
  - constructor; [|constructor]. exists (open_entry 272). vm_compute. reflexivity.
  - intros x y Hx Hy _.
    apply list_elem_of_singleton in Hx. apply list_elem_of_singleton in Hy.
    subst x y. reflexivity.
  - apply Forall_inv in Hviews. destruct Hviews as (e0 & _ & Hnew).
    exists s', e0. split; [exact Hrun|]. split; [exact Hnew | exact Htrace].
Defined.

Lemma SbpVmCallDisablePageShadowing_releases_every_page_witness :
  exists s',
    SbpVmCallDisablePageShadowing (demo_platform false) [(1, demo_pre_record)]
      (demo_started false) = Returns tt s' /\
    ept s' !! leaf_of_page (demo_platform false) demo_pre_record =
      Some (identity_view (demo_platform false) demo_pre_record).
Proof.
  destruct (SbpVmCallDisablePageShadowing_releases_every_page (demo_platform false)
              (demo_started false) [(1, demo_pre_record)])
    as (s' & Hrun & _ & Hviews & _).
  - constructor; [|constructor]. eexists. vm_compute. reflexivity.
  - intros x y Hx Hy _.
    apply list_elem_of_singleton in Hx. apply list_elem_of_singleton in Hy.
    subst x y. reflexivity.
  - apply Forall_inv in Hviews.
    exists s'. split; [exact Hrun | exact Hviews].
Defined.

(** ** Termination *)

Section Teardown.

Variable pf : Platform.

Lemma PatchInformation_dtor_counts s (x : Z * PatchInformation)
    (r : list (Z * PatchInformation)) :
  counts_for s (page_references (x :: r)) ->
  NoDup (pool s) ->
  (forall b, b ∈ pool s -> b ∉ page_references (x :: r)) ->
  exists s',
    PatchInformation_dtor x.2 s = Returns tt s' /\
    counts_for s' (page_references r) /\
    NoDup (pool s') /\
    Forall (fun b => b ∉ page_references r) (pool s') /\
    (forall page,
       page ∈ pool s' <->
       page ∈ pool s \/
       ((page = shadow_page_base_for_rw x.2 \/ page = shadow_page_base_for_exec x.2) /\
        page ∉ page_references r)) /\
    same_but_pages s s'.
Proof.
  intros Hcounts Hpool Hfree. unfold PatchInformation_dtor.
  cbn [page_references flat_map app] in Hcounts, Hfree.
  fold (page_references r) in Hcounts, Hfree.
  set (rw := shadow_page_base_for_rw x.2) in *.
  set (exec := shadow_page_base_for_exec x.2) in *.
  destruct (shared_ptr_release_counts s _ (rw :: page_references r) exec Hcounts)
    as (s1 & Hrun1 & Hc1 & Hpool1 & Hsame1).
  { intros q. cbn [count_occ].
    destruct (Z.eq_dec rw q); destruct (Z.eq_dec exec q); reflexivity. }
  destruct (shared_ptr_release_counts s1 _ (page_references r) rw Hc1)
    as (s2 & Hrun2 & Hc2 & Hpool2 & Hsame2).
  { intros q. reflexivity. }
  erewrite bind_returns by exact Hrun1.
  exists s2. split; [exact Hrun2|]. split; [exact Hc2|].
  pose proof (release_pool_facts (pool s) rw exec (page_references r)
                (rw :: exec :: page_references r) Hpool Hfree) as Hfacts.
  cbv zeta in Hfacts. rewrite <- Hpool1, <- Hpool2 in Hfacts.
  destruct Hfacts as (Hnd' & Hfree' & Hmem).
  - left.
  - right. left.
  - intros q Hq. right. right. exact Hq.
  - split; [exact Hnd'|]. split; [exact Hfree'|]. split; [exact Hmem|].
    exact (same_but_pages_trans _ _ _ Hsame1 Hsame2).
Qed.

Lemma same_but_pages_refl s : same_but_pages s s.
Proof. reflexivity. Qed.

Lemma for_each_dtor_counts (v : list (Z * PatchInformation)) :
  forall s,
    counts_for s (page_references v) ->
    NoDup (pool s) ->
    (forall b, b ∈ pool s -> b ∉ page_references v) ->
    exists s',
      for_each (fun info => PatchInformation_dtor info.2) v s = Returns tt s' /\
      counts_for s' [] /\
      NoDup (pool s') /\
      (forall page, page ∈ pool s' <-> page ∈ pool s \/ page ∈ page_references v) /\
      same_but_pages s s'.
Proof.
  induction v as [|x r IH]; intros s Hcounts Hpool Hfree.
  - exists s. split; [reflexivity|]. split; [exact Hcounts|]. split; [exact Hpool|].
    split; [|apply same_but_pages_refl].
    intros page. cbn. split; [intros H; left; exact H|].
    intros [H|H]; [exact H | inversion H].
  - destruct (PatchInformation_dtor_counts s x r Hcounts Hpool Hfree)
      as (s1 & Hrun1 & Hc1 & Hnd1 & Hfree1 & Hmem1 & Hsame1).
    rewrite Forall_forall in Hfree1.
    destruct (IH s1 Hc1 Hnd1 Hfree1) as (s' & Hrun & Hc & Hnd & Hmem & Hsame).
    exists s'. cbn [for_each]. erewrite bind_returns by exact Hrun1.
    split; [exact Hrun|]. split; [exact Hc|]. split; [exact Hnd|].
    split; [|exact (same_but_pages_trans _ _ _ Hsame1 Hsame)].
    intros page. rewrite Hmem, Hmem1.
    cbn [page_references flat_map app]. fold (page_references r).
    rewrite !elem_of_cons.
    destruct (decide (page ∈ page_references r)); tauto.
Qed.

(** X12.  [SbpTermination] takes the engine down completely.  Provided
    the leaves of the monitored pages are mapped, records on one leaf are
    on one page and the bookkeeping of the shadow pages is sound, it
    returns with every monitored page given back to the guest, the
    registry gone, no shadow page in use, and every shadow page back in
    the pool exactly once. *)
Theorem SbpTermination_releases_everything (s : State)
    (v : list (Z * PatchInformation)) :
  g_sbpp_breakpoints s = Some v ->
  Forall (fun x => is_Some (ept s !! leaf_of_page pf x.2)) v ->
  (forall x y, x ∈ v -> y ∈ v ->
     leaf_of_page pf x.2 = leaf_of_page pf y.2 ->
     PAGE_ALIGN (patch_address x.2) = PAGE_ALIGN (patch_address y.2)) ->
  pages_ok s v ->
  exists s',
    SbpTermination pf s = Returns tt s' /\
    g_sbpp_breakpoints s' = None /\
    page_use_count s' = ∅ /\
    NoDup (pool s') /\
    (forall page, page ∈ pool s' <-> page ∈ pool s \/ page ∈ page_references v) /\
    Forall (fun x =>
      ept s' !! leaf_of_page pf x.2 = Some (identity_view pf x.2)) v /\
    (forall k, Forall (fun x => leaf_of_page pf x.2 <> k) v ->
       ept s' !! k = ept s !! k).
Proof.
  intros Hv Hmapped Hshare (Hcounts & Hpool & Hfree).
  rewrite Forall_forall in Hfree.
  destruct (for_each_views (leaf_of_page pf) (fun info _ => identity_view pf info)
              (SbppDisablePageShadowing pf)
              (SbppDisablePageShadowing_run pf)
              (fun x y e => eq_refl) v s Hmapped)
    as (s1 & Hrun1 & Hframe & Hviews & _ & Hsame1).
  set (s2 := set_breakpoints None s1).
  destruct (for_each_dtor_counts v s2) as (s' & Hrun & Hc & Hnd & Hmem & Hsame).
  { eapply counts_for_ext; [|exact Hcounts].
    unfold s2. rewrite Hsame1. reflexivity. }
  { unfold s2. rewrite Hsame1. exact Hpool. }
  { unfold s2. rewrite Hsame1. exact Hfree. }
  exists s'. split.
  { unfold SbpTermination.
    erewrite bind_returns by reflexivity. rewrite Hv.
    erewrite bind_returns.
    2:{ unfold UtilVmCall, SbpVmCallDisablePageShadowing.
        erewrite bind_returns by exact Hrun1. reflexivity. }
    unfold NT_VERIFY. erewrite bind_returns by apply NT_ASSERT_holds.
    erewrite bind_returns by reflexivity.
    exact Hrun. }
  destruct (same_but_pages_fields _ _ Hsame) as (Hbp & _ & Hept & _).
  split; [rewrite Hbp; reflexivity|].
  split.
  { apply map_eq. intros page. rewrite lookup_empty. apply (Hc page). }
  split; [exact Hnd|].
  split.
  { intros page. rewrite Hmem. unfold s2. rewrite Hsame1. reflexivity. }
  change (ept s2) with (ept s1) in Hept. rewrite Hept.
  split; [|exact Hframe].
  rewrite Forall_forall in Hviews. apply Forall_forall. intros x Hx.
  destruct (Hviews x Hx) as (e0 & y & He0 & Hy & Hleaf & Hnew).
  rewrite Hnew. unfold identity_view. rewrite (Hshare y x Hy Hx Hleaf). reflexivity.
Qed.

End Teardown.

Lemma SbpTermination_releases_everything_witness :
  exists s',
    SbpTermination (demo_platform false) (demo_installed false) = Returns tt s' /\
    g_sbpp_breakpoints s' = None /\
    page_use_count s' = ∅ /\
    524288 ∈ pool s' /\ 528384 ∈ pool s'.
Proof.
  destruct (SbpTermination_releases_everything (demo_platform false)
              (demo_installed false) [(1, demo_pre_record)])
    as (s' & Hrun & Hbp & Hcounts & _ & Hpool & _).
  - vm_compute. reflexivity.
  - constructor; [|constructor]. eexists. vm_compute. reflexivity.
  - intros x y Hx Hy _.
    apply list_elem_of_singleton in Hx. apply list_elem_of_singleton in Hy.
    subst x y. reflexivity.
  - exact demo_installed_pages_ok.
  - exists s'. split; [exact Hrun|]. split; [exact Hbp|]. split; [exact Hcounts|].
    split; apply Hpool; right; [left | right; left].
Defined.

(** ** A breakpoint of the guest's own *)

Section Recognition.

Variable pf : Platform.
Variable handlers : Z -> Z -> Z -> Vmm unit.

(** X13.  While the rw shadows mirror the guest pages, whether a #BP at a
    monitored address is the engine's is decided by the guest's own byte
    there.  If the guest itself has 0xCC at the address, the hit is
    passed on: [SbpHandleBreakpoint] returns false, calls no handler and
    leaves the state as it is.  Otherwise the hit is the engine's, and
    the function returns true whenever it returns.  The exec shadow holds
    0xCC at the address in both cases. *)
Theorem guest_byte_decides_recognition (s : State)
    (v : list (Z * PatchInformation)) (guest_ip p : Z) (i : PatchInformation) :
  g_sbpp_breakpoints s = Some v ->
  NoDup (v.*1) ->
  shadows_ok s v ->
  find (at_address guest_ip) v = Some (p, i) ->
  memory s (shadow_page_base_for_exec i + BYTE_OFFSET guest_ip) = 204 /\
  (memory s guest_ip = 204 ->
   SbpHandleBreakpoint pf handlers guest_ip s = Returns false s) /\
  (memory s guest_ip <> 204 ->
   forall b s',
     SbpHandleBreakpoint pf handlers guest_ip s = Returns b s' -> b = true).
Proof.
  intros Hv Hnd (Hcontent & _) Hfind. unfold at_address in Hfind.
  pose proof Hfind as Hin. apply find_some in Hin as [Hin Hat].
  apply list_elem_of_In in Hin. cbn [snd] in Hat. apply Z.eqb_eq in Hat.
  rewrite Forall_forall in Hcontent.
  destruct (Hcontent _ Hin) as [Hcopy Htrap]. cbn [snd] in Hcopy, Htrap.
  assert (Hbyte : memory s (shadow_page_base_for_rw i + BYTE_OFFSET (patch_address i)) =
                  memory s guest_ip).
  { rewrite (Hcopy _ (BYTE_OFFSET_range (patch_address i))).
    rewrite PAGE_ALIGN_BYTE_OFFSET. rewrite Hat. reflexivity. }
  assert (Hunique : forall v', g_sbpp_breakpoints s = Some v' -> NoDup (v'.*1)).
  { intros v' Hv'. rewrite Hv in Hv'. injection Hv' as <-. exact Hnd. }
  split; [rewrite <- Hat; exact Htrap|]. split.
  - intros Hguest. apply SbpHandleBreakpoint_not_ours_run; [exact Hunique|].
    unfold not_ours. rewrite Hv, Hfind, Hbyte. exact Hguest.
  - intros Hguest b s'.
    apply SbpHandleBreakpoint_ours_returns_true; [exact Hunique|].
    unfold not_ours. rewrite Hv, Hfind, Hbyte. exact Hguest.
Qed.

End Recognition.

(** ** Before the initialisation *)

Section Uninitialised.

Variable pf : Platform.

(** X14.  Without the vector, that is before [SbpInitialization] or after
    [SbpTermination], the three lookups, the insertion, the erasure and
    both installations stop: a checked build at [NT_ASSERT], a free build
    at the dereference of the null vector.  None of them writes memory or
    the EPT before it stops. *)
Theorem registry_functions_need_the_vector (s : State) :
  g_sbpp_breakpoints s = None ->
  let stopped {A} (o : Outcome A) :=
    verdict o =
      (if checked_build pf then VAssertionFailure else VUndefined NullDereference) /\
    memory (final_state o) = memory s /\ ept (final_state o) = ept s in
  (forall address, stopped (SbppFindPatchInfoByPage pf address s)) /\
  (forall address, stopped (SbppFindPatchInfoByAddress pf address s)) /\
  (forall address tid, stopped (SbppFindDuplicatedPostPatchInfo pf address tid s)) /\
  (forall info, stopped (SbppAddBreakpointToList pf info s)) /\
  (forall info, stopped (SbppDeleteBreakpointFromList pf info s)) /\
  (forall address target name',
     stopped (SbpCreatePreBreakpoint pf address target name' s)) /\
  (forall address info parameters',
     stopped (SbpCreateAndEnablePostBreakpoint pf address info parameters' s)).
Proof.
  intros Hv stopped. subst stopped. cbv beta.
  repeat match goal with |- _ /\ _ => split end; intros;
    unfold SbpCreatePreBreakpoint, SbppCreatePreBreakpoint, SbppCreateBreakpoint,
      SbpCreateAndEnablePostBreakpoint, PsGetCurrentThreadId,
      make_unique_PatchInformation,
      SbppFindPatchInfoByPage, SbppFindPatchInfoByAddress,
      SbppFindDuplicatedPostPatchInfo, SbppAddBreakpointToList,
      SbppDeleteBreakpointFromList, breakpoints_vector, NT_ASSERT,
      bind, get, modify, ret, undefined;
    cbn; rewrite Hv; cbn; destruct (checked_build pf); cbn; repeat split; reflexivity.
Qed.

End Uninitialised.

(** ** The invariants of the shadow pages under installation *)

Section FaithfulShadows.

Variable pf : Platform.

Lemma same_page_same_pair_append v added :
  same_page_same_pair v ->
  (forall e, e ∈ v ->
     PAGE_ALIGN (patch_address e.2) = PAGE_ALIGN (patch_address added.2) ->
     shadow_page_base_for_rw e.2 = shadow_page_base_for_rw added.2 /\
     shadow_page_base_for_exec e.2 = shadow_page_base_for_exec added.2) ->
  same_page_same_pair (v ++ [added]).
Proof.
  intros Hold Hnew e1 e2 H1 H2 Hpage.
  apply elem_of_app in H1 as [H1|H1]; apply elem_of_app in H2 as [H2|H2];
    try (apply list_elem_of_singleton in H1; subst e1);
    try (apply list_elem_of_singleton in H2; subst e2).
  - exact (Hold e1 e2 H1 H2 Hpage).
  - exact (Hnew e1 H1 Hpage).
  - destruct (Hnew e2 H2 (eq_sym Hpage)) as [Hrw Hexec]. split; congruence.
  - split; reflexivity.
Qed.

(** X15.  Installing a Pre breakpoint (its name array not empty) keeps
    the shadows faithful and shared.  When the page has a record already,
    or two pool pages are free and the guest page overlaps neither the
    pool nor a shadow in use, the installation returns, and afterwards
    every record, the new one included, has the guest page's bytes in its
    rw shadow and 0xCC at its offset in its exec shadow, and records on
    one page hold one pair of shadow pages. *)
Theorem SbpCreatePreBreakpoint_keeps_shadows_faithful_and_shared (s : State)
    (v : list (Z * PatchInformation)) (address : Z)
    (target : BreakpointTarget.t) (name' : Z) :
  g_sbpp_breakpoints s = Some v ->
  NoDup (v.*1) ->
  shadows_ok s v ->
  same_page_same_pair v ->
  installable s v address ->
  (0 < name_size pf)%nat ->
  exists s' added,
    SbpCreatePreBreakpoint pf address target name' s = Returns tt s' /\
    g_sbpp_breakpoints s' = Some (v ++ [added]) /\
    patch_address added.2 = address /\
    shadows_ok s' (v ++ [added]) /\
    same_page_same_pair (v ++ [added]).
Proof.
  intros Hv Hnd Hok Hpair Hinst Hname. unfold installable in Hinst.
  unfold SbpCreatePreBreakpoint, SbppCreatePreBreakpoint.
  destruct (find (on_page_of address) v) as [[r reusable]|] eqn:Hfind.
  - destruct (SbppCreateBreakpoint_reuse_run pf s v address r reusable Hv Hnd Hfind)
      as (s' & Hrun & Hmem & Hpool & _ & Hbp & _).
    erewrite bind_returns.
    2:{ erewrite bind_returns by exact Hrun.
        erewrite bind_returns
          by (apply memcpy_name_run; cbn; rewrite length_replicate; exact Hname).
        reflexivity. }
    unfold SbppAddBreakpointToList.
    erewrite bind_returns by (apply (breakpoints_vector_run pf s' v Hbp)).
    eexists _, _. split; [reflexivity|]. cbn [fst snd].
    split; [reflexivity|]. split; [reflexivity|]. split.
    + eapply (shadows_ok_reuse s); try eassumption; reflexivity.
    + apply same_page_same_pair_append; [exact Hpair|]. cbn [snd].
      intros e He Hpage.
      apply find_some in Hfind as [Hin Hon]. apply list_elem_of_In in Hin.
      apply on_page_of_true in Hon. cbn [snd] in Hon.
      cbn in Hpage.
      apply (Hpair e (r, reusable) He Hin). cbn [snd]. congruence.
  - destruct Hinst as (Hlen & Hguest & Hfresh).
    destruct (pool s) as [|rw [|exec rest]] eqn:Hp; cbn in Hlen; try lia.
    destruct (SbppCreateBreakpoint_fresh_run pf s v address rw exec rest Hv Hfind Hp)
      as (s' & Hrun & Hmem & Hpool & _ & Hbp & _).
    erewrite bind_returns.
    2:{ erewrite bind_returns by exact Hrun.
        erewrite bind_returns
          by (apply memcpy_name_run; cbn; rewrite length_replicate; exact Hname).
        reflexivity. }
    unfold SbppAddBreakpointToList.
    erewrite bind_returns by (apply (breakpoints_vector_run pf s' v Hbp)).
    eexists _, _. split; [reflexivity|]. cbn [fst snd].
    split; [reflexivity|]. split; [reflexivity|]. split.
    + eapply (shadows_ok_fresh s); try eassumption; try reflexivity.
      rewrite Hp. exact Hguest.
    + apply same_page_same_pair_append; [exact Hpair|]. cbn [snd].
      intros e He Hpage. exfalso. cbn in Hpage.
      apply list_elem_of_In in He.
      pose proof (find_none _ _ Hfind e He) as Hoff.
      unfold on_page_of in Hoff. apply Z.eqb_neq in Hoff. exact (Hoff Hpage).
Qed.

End FaithfulShadows.

Lemma demo_fresh_engine_shadows_ok :
  shadows_ok (set_breakpoints (Some []) demo_machine) [].
Proof.
  apply SbpInitialization_shadows_ok.
  cbn [all_apart pool demo_machine].
  repeat split; repeat constructor; unfold apart, PAGE_SIZE; lia.
Qed.

Lemma demo_entry_installable :
  installable (set_breakpoints (Some []) demo_machine) [] demo_entry.
Proof.
  unfold installable. cbn [find].
  split; [cbn; lia|]. split; [|constructor].
  cbn [pool set_breakpoints demo_machine].
  apply Forall_forall. intros b Hb. right.
  repeat (apply elem_of_cons in Hb as [->|Hb]; [vm_compute; discriminate|]).
  inversion Hb.
Qed.

Lemma demo_installed_shadows_ok :
  shadows_ok (demo_installed false) [(1, demo_pre_record)].
Proof.
  destruct (SbpCreatePreBreakpoint_keeps_shadows (demo_platform false)
              (set_breakpoints (Some []) demo_machine) [] demo_entry demo_target 40960
              eq_refl (NoDup_nil_2 : NoDup ([] : list (Z * PatchInformation)).*1)
              demo_fresh_engine_shadows_ok demo_entry_installable)
    as (s' & info & Hrun & Hbp & _ & _ & Hok); [vm_compute; lia|].
  assert (Hs : demo_installed false = s').
  { unfold demo_installed.
    change ((SbpInitialization;;
             SbpCreatePreBreakpoint (demo_platform false) demo_entry demo_target 40960)
              demo_machine)
      with (SbpCreatePreBreakpoint (demo_platform false) demo_entry demo_target 40960
              (set_breakpoints (Some []) demo_machine)).
    rewrite Hrun. reflexivity. }
  assert (Hv : g_sbpp_breakpoints (demo_installed false) = Some [(1, demo_pre_record)])
    by (vm_compute; reflexivity).
  rewrite Hs, Hbp in Hv. injection Hv as Hinfo.
  rewrite Hs. rewrite <- Hinfo. exact Hok.
Qed.

Lemma guest_byte_decides_recognition_witness :
  memory (demo_installed false)
    (shadow_page_base_for_exec demo_pre_record + BYTE_OFFSET demo_entry) = 204 /\
  forall b s',
    SbpHandleBreakpoint (demo_platform false) (demo_handlers (demo_platform false))
      demo_entry (demo_installed false) = Returns b s' ->
    b = true.
Proof.
  assert (Hv : g_sbpp_breakpoints (demo_installed false) = Some [(1, demo_pre_record)])
    by (vm_compute; reflexivity).
  assert (Hnd : NoDup ([(1, demo_pre_record)].*1)) by distinct_objects.
  destruct (guest_byte_decides_recognition (demo_platform false)
              (demo_handlers (demo_platform false)) (demo_installed false)
              _ demo_entry 1 demo_pre_record Hv Hnd demo_installed_shadows_ok)
    as (Htrap & _ & Hours).
  - vm_compute. reflexivity.
  - split; [exact Htrap|]. apply Hours. vm_compute. discriminate.
Defined.

Lemma registry_functions_need_the_vector_witness :
  verdict (SbpCreatePreBreakpoint (demo_platform true) demo_entry demo_target 40960
             demo_machine) = VAssertionFailure.
Proof.
  pose proof (registry_functions_need_the_vector (demo_platform true) demo_machine
                eq_refl) as H.
  cbv zeta beta in H. destruct H as (_ & _ & _ & _ & _ & H & _).
  destruct (H demo_entry demo_target 40960) as (Hverdict & _). exact Hverdict.
Defined.

Lemma SbpCreatePreBreakpoint_keeps_shadows_faithful_and_shared_witness :
  exists s' added,
    SbpCreatePreBreakpoint (demo_platform false) (demo_entry + 8) demo_target 40960
      (demo_installed false) = Returns tt s' /\
    patch_address added.2 = demo_entry + 8 /\
    shadows_ok s' ([(1, demo_pre_record)] ++ [added]) /\
    same_page_same_pair ([(1, demo_pre_record)] ++ [added]).
Proof.
  assert (Hv : g_sbpp_breakpoints (demo_installed false) = Some [(1, demo_pre_record)])
    by (vm_compute; reflexivity).
  assert (Hnd : NoDup ([(1, demo_pre_record)].*1)) by distinct_objects.
  destruct (SbpCreatePreBreakpoint_keeps_shadows_faithful_and_shared
              (demo_platform false) (demo_installed false) [(1, demo_pre_record)]
              (demo_entry + 8) demo_target 40960 Hv Hnd demo_installed_shadows_ok)
    as (s' & added & Hrun & _ & Haddr & Hok & Hpair).
  - intros e1 e2 H1 H2 _.
    apply list_elem_of_singleton in H1. apply list_elem_of_singleton in H2.
    subst e1 e2. split; reflexivity.
  - vm_compute. exact I.
  - vm_compute. lia.
  - exists s', added. split; [exact Hrun|]. split; [exact Haddr|].
    split; [exact Hok | exact Hpair].
Defined.

(** ** Adding and erasing *)

Section AddThenErase.

Variable pf : Platform.

(** X16.  Erasing undoes adding: when no stored record has the address
    and owner thread of [info], [SbppAddBreakpointToList] followed by
    [SbppDeleteBreakpointFromList] for the same record gives the vector
    back as it was, and nothing but the bookkeeping of the shadow pages
    the erased object held has changed. *)
Theorem erasing_the_added_record_restores_the_vector (s : State)
    (v : list (Z * PatchInformation)) (info : Z * PatchInformation) :
  g_sbpp_breakpoints s = Some v ->
  Forall (fun info2 => same_key info.2 info2 = false) v ->
  exists s',
    (SbppAddBreakpointToList pf info ;; SbppDeleteBreakpointFromList pf info.2) s =
      Returns tt s' /\
    g_sbpp_breakpoints s' = Some v /\
    same_but_pages s s'.
Proof.
  intros Hv Hfresh.
  set (s1 := set_breakpoints (Some (v ++ [info])) s).
  assert (Hkey : same_key info.2 info = true).
  { unfold same_key. rewrite !Z.eqb_refl. reflexivity. }
  pose proof (SbppDeleteBreakpointFromList_run pf s1 (v ++ [info]) info.2 eq_refl)
    as Hrun.
  rewrite (erase_first_split _ v [] info Hfresh Hkey) in Hrun.
  destruct Hrun as (s' & Hrun & Hsame). rewrite app_nil_r in Hsame.
  exists s'. split.
  { unfold SbppAddBreakpointToList.
    erewrite bind_returns.
    2:{ erewrite bind_returns by (apply (breakpoints_vector_run pf s v Hv)).
        reflexivity. }
    exact Hrun. }
  split.
  { rewrite (same_but_pages_breakpoints _ _ Hsame). reflexivity. }
  unfold same_but_pages in *. rewrite Hsame. unfold s1.
  unfold set_pool, set_page_use_count, set_breakpoints. cbn. rewrite Hv. reflexivity.
Qed.

End AddThenErase.

Lemma erasing_the_added_record_restores_the_vector_witness :
  exists s',
    (SbppAddBreakpointToList (demo_platform false) (2, demo_post_record) ;;
     SbppDeleteBreakpointFromList (demo_platform false) demo_post_record)
      (demo_installed false) = Returns tt s' /\
    g_sbpp_breakpoints s' = Some [(1, demo_pre_record)].
Proof.
  destruct (erasing_the_added_record_restores_the_vector (demo_platform false)
              (demo_installed false) [(1, demo_pre_record)] (2, demo_post_record))
    as (s' & Hrun & Hbp & _).
  - vm_compute. reflexivity.
  - constructor; [vm_compute; reflexivity | constructor].
  - exists s'. split; [exact Hrun | exact Hbp].
Defined.
